(** * cElementTree: a shallow embedding of [py3_cElementTree.c]

    The development follows the C source section by section: the Python
    values the module manipulates, the [Element] object with its lazily
    allocated [extra] block, the [TreeBuilder] state machine and the expat
    callbacks of the [XMLParser] object.

    Conventions.
    - Functions carry the names of the C functions they embed.  The fields
      of a struct carry a prefix naming the struct ([e_] for
      [ElementObject], [ex_] for [ElementObjectExtra], [tb_] for
      [TreeBuilderObject], [xp_] for [XMLParserObject]), since several C
      field names ([length], [tail], [last], [end]) are taken in Rocq.
    - C [int] and [Py_ssize_t] values are integers in [Z]; [int] arithmetic
      is wrapped to 32 bits by [int_wrap].
    - [ElementObject]s live in a store indexed by addresses; every other
      Python value is immutable data.
    - Allocation ([PyObject_Malloc], [PyList_New], [PyDict_New], ...) always
      succeeds: the out-of-memory exits of the C code are not embedded.
    - A tree builder is embedded with [element_factory == NULL], so the
      nodes it creates are exact [Element] objects. *)

From Stdlib Require Import ZArith Lia.
From stdpp Require Import base option list gmap strings pretty.

Local Open Scope Z_scope.

(** ** Python values *)

#[warnings="-register-all"]
Inductive PyObject : Type :=
| Py_None
| PyUnicode (s : string)
| PyBytes (s : string)
| PyLong (n : Z)
| PyTuple (items : list PyObject)
| PyList (items : list PyObject)
| PyDict (items : list (PyObject * PyObject))
| PyElement (addr : nat).

Definition PyList_CheckExact (o : PyObject) : bool :=
  match o with PyList _ => true | _ => false end.


Definition PyBytes_CheckExact (o : PyObject) : bool :=
  match o with PyBytes _ => true | _ => false end.

Definition Element_CheckExact (o : PyObject) : bool :=
  match o with PyElement _ => true | _ => false end.

(** Structural comparison.  On [Py_None] and on element addresses it is
    the C pointer comparison; on hashable values it is the key comparison
    of dictionaries. *)
Fixpoint PyObject_eqb (a b : PyObject) {struct a} : bool :=
  let fix all2 (l m : list PyObject) {struct l} : bool :=
    match l, m with
    | [], [] => true
    | x :: l', y :: m' => PyObject_eqb x y && all2 l' m'
    | _, _ => false
    end in
  let fix all2p (l m : list (PyObject * PyObject)) {struct l} : bool :=
    match l, m with
    | [], [] => true
    | (k, v) :: l', (k', v') :: m' =>
        PyObject_eqb k k' && PyObject_eqb v v' && all2p l' m'
    | _, _ => false
    end in
  match a, b with
  | Py_None, Py_None => true
  | PyUnicode s, PyUnicode t => String.eqb s t
  | PyBytes s, PyBytes t => String.eqb s t
  | PyLong n, PyLong m => Z.eqb n m
  | PyTuple l, PyTuple m => all2 l m
  | PyList l, PyList m => all2 l m
  | PyDict l, PyDict m => all2p l m
  | PyElement r, PyElement r' => Nat.eqb r r'
  | _, _ => false
  end.

(** Values a dictionary accepts as keys. *)
Fixpoint hashable (o : PyObject) : bool :=
  match o with
  | Py_None | PyUnicode _ | PyBytes _ | PyLong _ | PyElement _ => true
  | PyTuple l => forallb hashable l
  | PyList _ | PyDict _ => false
  end.

(** ** Exceptions *)

Inductive PyExc : Type :=
| PyExc_IndexError
| PyExc_ValueError
| PyExc_TypeError
| PyExc_AttributeError
| PyExc_SystemError
| PyExc_OverflowError
| PyExc_UnicodeDecodeError
| elementtree_parseerror_obj.

Record exception : Type := {
  exc_type : PyExc;
  exc_msg : string;
  exc_code : option Z;
  exc_position : option (Z * Z)
}.

Definition PyErr_SetString (t : PyExc) (msg : string) : exception :=
  {| exc_type := t; exc_msg := msg; exc_code := None; exc_position := None |}.

(** What a C function returning [PyObject*] hands back: an object, or
    [NULL] with an exception set. *)
Inductive result (A : Type) : Type :=
| Ok (a : A)
| Raise (e : exception).
Arguments Ok {A} a.
Arguments Raise {A} e.

(** ** Dictionaries *)

Fixpoint dict_lookup (d : list (PyObject * PyObject)) (key : PyObject)
  : option PyObject :=
  match d with
  | [] => None
  | (k, v) :: d' => if PyObject_eqb k key then Some v else dict_lookup d' key
  end.

Fixpoint dict_store (d : list (PyObject * PyObject)) (key value : PyObject)
  : list (PyObject * PyObject) :=
  match d with
  | [] => [(key, value)]
  | (k, v) :: d' =>
      if PyObject_eqb k key then (k, value) :: d'
      else (k, v) :: dict_store d' key value
  end.

(** [PyDict_GetItem] returns [NULL] without an exception when the key is
    missing, unhashable, or the object is not a dictionary. *)
Definition PyDict_GetItem (d key : PyObject) : option PyObject :=
  match d with
  | PyDict items => if hashable key then dict_lookup items key else None
  | _ => None
  end.

Definition PyDict_SetItem (d key value : PyObject) : result PyObject :=
  match d with
  | PyDict items =>
      if hashable key then Ok (PyDict (dict_store items key value))
      else Raise (PyErr_SetString PyExc_TypeError "unhashable type")
  | _ => Raise (PyErr_SetString PyExc_SystemError "bad argument to internal function")
  end.

Definition PyDict_Items (d : PyObject) : result PyObject :=
  match d with
  | PyDict items => Ok (PyList (map (fun kv => PyTuple [kv.1; kv.2]) items))
  | _ => Raise (PyErr_SetString PyExc_SystemError "bad argument to internal function")
  end.

Definition PyDict_Keys (d : PyObject) : result PyObject :=
  match d with
  | PyDict items => Ok (PyList (map fst items))
  | _ => Raise (PyErr_SetString PyExc_SystemError "bad argument to internal function")
  end.

Definition is_empty_dict (obj : PyObject) : bool :=
  match obj with PyDict [] => true | _ => false end.

(** ** The Element type *)

(** [#define STATIC_CHILDREN 4] *)
Definition STATIC_CHILDREN : Z := 4.

(** Two's-complement wrap-around of C [int] arithmetic. *)
Definition INT_MAX : Z := 2 ^ 31 - 1.
Definition INT_MIN : Z := - 2 ^ 31.
Definition int_wrap (z : Z) : Z := (z + 2 ^ 31) mod 2 ^ 32 - 2 ^ 31.

(** Text and tail are tagged pointers: the object, and the join flag kept
    in the low bit.  A pointer stored without [JOIN_SET] has a clear bit. *)
Record tagged : Type := {
  JOIN_OBJ : PyObject;
  JOIN_GET : bool
}.

Definition JOIN_SET (p : tagged) (flag : bool) : tagged :=
  {| JOIN_OBJ := JOIN_OBJ p; JOIN_GET := flag |}.

Definition untagged (o : PyObject) : tagged :=
  {| JOIN_OBJ := o; JOIN_GET := false |}.

(** [ElementObjectExtra].  [ex_children] is the buffer [children] points
    to, one entry per allocated slot, [None] for a slot never written;
    [ex_static] tells whether it is the inline [_children] array. *)
Record ElementObjectExtra : Type := {
  ex_attrib : PyObject;
  ex_length : Z;
  ex_allocated : Z;
  ex_children : list (option PyObject);
  ex_static : bool
}.

(** [ElementObject]. *)
Record ElementObject : Type := {
  e_tag : PyObject;
  e_text : tagged;
  e_tail : tagged;
  e_localName : PyObject;
  e_ns : PyObject;
  e_start : PyObject;
  e_end : PyObject;
  e_extra : option ElementObjectExtra
}.

(** The object store: address to element. *)
Abbreviation store := (gmap nat ElementObject).

Definition set_extra (self : ElementObject) (x : option ElementObjectExtra)
  : ElementObject :=
  {| e_tag := e_tag self; e_text := e_text self; e_tail := e_tail self;
     e_localName := e_localName self; e_ns := e_ns self;
     e_start := e_start self; e_end := e_end self; e_extra := x |}.

Definition set_text (self : ElementObject) (t : tagged) : ElementObject :=
  {| e_tag := e_tag self; e_text := t; e_tail := e_tail self;
     e_localName := e_localName self; e_ns := e_ns self;
     e_start := e_start self; e_end := e_end self; e_extra := e_extra self |}.

Definition set_tail (self : ElementObject) (t : tagged) : ElementObject :=
  {| e_tag := e_tag self; e_text := e_text self; e_tail := t;
     e_localName := e_localName self; e_ns := e_ns self;
     e_start := e_start self; e_end := e_end self; e_extra := e_extra self |}.

Definition set_tag (self : ElementObject) (t : PyObject) : ElementObject :=
  {| e_tag := t; e_text := e_text self; e_tail := e_tail self;
     e_localName := e_localName self; e_ns := e_ns self;
     e_start := e_start self; e_end := e_end self; e_extra := e_extra self |}.

Definition set_start (self : ElementObject) (p : PyObject) : ElementObject :=
  {| e_tag := e_tag self; e_text := e_text self; e_tail := e_tail self;
     e_localName := e_localName self; e_ns := e_ns self;
     e_start := p; e_end := e_end self; e_extra := e_extra self |}.

Definition set_end (self : ElementObject) (p : PyObject) : ElementObject :=
  {| e_tag := e_tag self; e_text := e_text self; e_tail := e_tail self;
     e_localName := e_localName self; e_ns := e_ns self;
     e_start := e_start self; e_end := p; e_extra := e_extra self |}.

Definition set_attrib (x : ElementObjectExtra) (a : PyObject)
  : ElementObjectExtra :=
  {| ex_attrib := a; ex_length := ex_length x; ex_allocated := ex_allocated x;
     ex_children := ex_children x; ex_static := ex_static x |}.

Definition set_length (x : ElementObjectExtra) (n : Z) : ElementObjectExtra :=
  {| ex_attrib := ex_attrib x; ex_length := n; ex_allocated := ex_allocated x;
     ex_children := ex_children x; ex_static := ex_static x |}.

Definition set_children (x : ElementObjectExtra) (c : list (option PyObject))
  : ElementObjectExtra :=
  {| ex_attrib := ex_attrib x; ex_length := ex_length x;
     ex_allocated := ex_allocated x; ex_children := c;
     ex_static := ex_static x |}.

(** Buffer access at a C index.  Reading a slot outside the buffer yields
    [NULL]; writing outside does nothing. *)
Definition buf_get (b : list (option PyObject)) (i : Z) : option PyObject :=
  if i <? 0 then None else mjoin (b !! Z.to_nat i).

Definition buf_set (b : list (option PyObject)) (i : Z) (v : option PyObject)
  : list (option PyObject) :=
  if i <? 0 then b else <[Z.to_nat i := v]> b.

(** The children an element has: the first [length] slots of the buffer. *)
Definition child_slots (x : ElementObjectExtra) : list (option PyObject) :=
  take (Z.to_nat (ex_length x)) (ex_children x).

Definition element_children (self : ElementObject) : list (option PyObject) :=
  match e_extra self with
  | None => []
  | Some x => child_slots x
  end.

(** The block [create_extra] installs. *)
Definition new_extra (attrib : option PyObject) : ElementObjectExtra :=
  {| ex_attrib := match attrib with None => Py_None | Some a => a end;
     ex_length := 0;
     ex_allocated := STATIC_CHILDREN;
     ex_children := replicate (Z.to_nat STATIC_CHILDREN) None;
     ex_static := true |}.

Definition create_extra (self : ElementObject) (attrib : option PyObject)
  : ElementObject :=
  set_extra self (Some (new_extra attrib)).

(** [if (!self->extra) create_extra(self, NULL);] followed by a use of
    [self->extra]. *)
Definition ensure_extra (self : ElementObject) : ElementObjectExtra :=
  match e_extra self with
  | Some x => x
  | None => new_extra None
  end.

(** The namespace split of [feed_new_element]: the tag is scanned for the
    separator [}]; a universal name [{uri}local] gives [ns = uri] and
    [localName = local], a plain name gives [localName = tag] and
    [ns = None].  A tag that is neither str nor bytes is taken as a plain
    name; for a tag whose first character is the separator the C code asks
    for a namespace of length -1, where the split gives the empty string. *)
Definition split_universal (tag : PyObject) : PyObject * PyObject :=
  match tag with
  | PyUnicode s | PyBytes s =>
      match String.index 0 "}" s with
      | Some i =>
          (PyUnicode (String.substring (i + 1) (String.length s - i - 1) s),
           PyUnicode (String.substring 1 (i - 1) s))
      | None => (tag, Py_None)
      end
  | _ => (tag, Py_None)
  end.

(** [feed_new_element] / [create_new_element]. *)
Definition feed_new_element (tag : PyObject) (attrib : option PyObject)
  : ElementObject :=
  let self :=
    {| e_tag := tag; e_text := untagged Py_None; e_tail := untagged Py_None;
       e_localName := (split_universal tag).1; e_ns := (split_universal tag).2;
       e_start := Py_None; e_end := Py_None; e_extra := None |} in
  match attrib with
  | Some a =>
      if negb (PyObject_eqb a Py_None) && negb (is_empty_dict a)
      then create_extra self (Some a) else self
  | None => self
  end.

Definition create_new_element (tag : PyObject) (attrib : option PyObject)
  : ElementObject :=
  feed_new_element tag attrib.

Definition element_add_position (self : ElementObject) (end_ : bool)
  (line col bytePos : Z) : ElementObject :=
  let position := PyTuple [PyLong line; PyLong col; PyLong bytePos] in
  if end_ then set_end self position else set_start self position.

(** Growth of the buffer to [size] slots: [PyObject_Realloc] keeps what
    the old block held; [PyObject_Malloc] followed by [memcpy] keeps the
    first [length] entries. *)
Definition realloc_children (b : list (option PyObject)) (size : Z)
  : list (option PyObject) :=
  take (Z.to_nat size) b ++ replicate (Z.to_nat size - length b)%nat None.

Definition malloc_children (b : list (option PyObject)) (len size : Z)
  : list (option PyObject) :=
  take (Z.to_nat size) (take (Z.to_nat len) b)
  ++ replicate (Z.to_nat size - length (take (Z.to_nat len) b))%nat None.

Definition element_resize (self : ElementObject) (extra : Z)
  : ElementObject :=
  let x := ensure_extra self in
  let size := int_wrap (ex_length x + extra) in
  if ex_allocated x <? size then
    (* use Python 2.4's list growth strategy *)
    let size :=
      int_wrap (int_wrap (Z.shiftr size 3 + (if size <? 9 then 3 else 6))
                + size) in
    let size := if size =? 0 then 1 else size in
    let children :=
      if ex_static x
      then malloc_children (ex_children x) (ex_length x) size
      else realloc_children (ex_children x) size in
    set_extra self
      (Some {| ex_attrib := ex_attrib x; ex_length := ex_length x;
               ex_allocated := size; ex_children := children;
               ex_static := false |})
  else set_extra self (Some x).

Definition element_add_subelement (self : ElementObject) (element : PyObject)
  : ElementObject :=
  let self := element_resize self 1 in
  let x := ensure_extra self in
  let x := set_children x (buf_set (ex_children x) (ex_length x) (Some element)) in
  set_extra self (Some (set_length x (int_wrap (ex_length x + 1)))).

(** [element_get_attrib] assumes the extra block exists, so it is given
    the block. *)
Definition element_get_attrib (x : ElementObjectExtra)
  : PyObject * ElementObjectExtra :=
  let res := ex_attrib x in
  if PyObject_eqb res Py_None then
    (* create missing dictionary *)
    (PyDict [], set_attrib x (PyDict []))
  else (res, x).

(** ** Sequences and joining *)

Definition chars_of (s : string) : list PyObject :=
  map (fun c => PyUnicode (String c EmptyString)) (String.list_ascii_of_string s).

Definition bytes_of (s : string) : list PyObject :=
  map (fun c => PyLong (Z.of_nat (Ascii.nat_of_ascii c))) (String.list_ascii_of_string s).

(** [PySequence_Fast]: the items of an iterable, [NULL] for an object that
    cannot be iterated.  An element iterates over its children. *)
Definition PySequence_Fast (h : store) (o : PyObject) : option (list PyObject) :=
  match o with
  | PyList l | PyTuple l => Some l
  | PyUnicode s => Some (chars_of s)
  | PyBytes s => Some (bytes_of s)
  | PyDict items => Some (map fst items)
  | PyElement a =>
      match h !! a with
      | Some e => Some (omap id (element_children e))
      | None => None
      end
  | Py_None | PyLong _ => None
  end.

(** [PyUnicode_Join] with the empty separator: every item must be a str. *)
Fixpoint PyUnicode_Join (items : list PyObject) : option string :=
  match items with
  | [] => Some EmptyString
  | PyUnicode s :: rest =>
      match PyUnicode_Join rest with
      | Some t => Some (s +:+ t)
      | None => None
      end
  | _ :: _ => None
  end.

Definition list_join (h : store) (list : PyObject) : result PyObject :=
  match PySequence_Fast h list with
  | None => Raise (PyErr_SetString PyExc_TypeError "can only join an iterable")
  | Some items =>
      match PyUnicode_Join items with
      | Some s => Ok (PyUnicode s)
      | None => Raise (PyErr_SetString PyExc_TypeError "sequence item: expected str instance")
      end
  end.

(** ** Element accessors *)

Definition element_get_text (h : store) (self : ElementObject)
  : result PyObject * ElementObject :=
  let res := e_text self in
  if JOIN_GET res then
    let res := JOIN_OBJ res in
    if PyList_CheckExact res then
      match list_join h res with
      | Ok res => (Ok res, set_text self (untagged res))
      | Raise e => (Raise e, self)
      end
    else (Ok res, self)
  else (Ok (JOIN_OBJ res), self).

Definition element_get_tail (h : store) (self : ElementObject)
  : result PyObject * ElementObject :=
  let res := e_tail self in
  if JOIN_GET res then
    let res := JOIN_OBJ res in
    if PyList_CheckExact res then
      match list_join h res with
      | Ok res => (Ok res, set_tail self (untagged res))
      | Raise e => (Raise e, self)
      end
    else (Ok res, self)
  else (Ok (JOIN_OBJ res), self).

(** True when the element has no attribute storage:
    [!self->extra || self->extra->attrib == Py_None]. *)
Definition no_attrib (self : ElementObject) : bool :=
  match e_extra self with
  | None => true
  | Some x => PyObject_eqb (ex_attrib x) Py_None
  end.

Definition element_get (self : ElementObject) (key default_value : PyObject)
  : result PyObject * ElementObject :=
  match e_extra self with
  | None => (Ok default_value, self)
  | Some x =>
      if PyObject_eqb (ex_attrib x) Py_None then (Ok default_value, self)
      else
        match PyDict_GetItem (ex_attrib x) key with
        | Some value => (Ok value, self)
        | None => (Ok default_value, self)
        end
  end.

Definition element_items (self : ElementObject)
  : result PyObject * ElementObject :=
  match e_extra self with
  | None => (Ok (PyList []), self)
  | Some x =>
      if PyObject_eqb (ex_attrib x) Py_None then (Ok (PyList []), self)
      else (PyDict_Items (ex_attrib x), self)
  end.

Definition element_keys (self : ElementObject)
  : result PyObject * ElementObject :=
  match e_extra self with
  | None => (Ok (PyList []), self)
  | Some x =>
      if PyObject_eqb (ex_attrib x) Py_None then (Ok (PyList []), self)
      else (PyDict_Keys (ex_attrib x), self)
  end.

Definition element_length (self : ElementObject) : Z :=
  match e_extra self with
  | None => 0
  | Some x => ex_length x
  end.

Definition element_set (self : ElementObject) (key value : PyObject)
  : result PyObject * ElementObject :=
  let x := ensure_extra self in
  let '(attrib, x) := element_get_attrib x in
  let self := set_extra self (Some x) in
  match PyDict_SetItem attrib key value with
  | Ok attrib' => (Ok Py_None, set_extra self (Some (set_attrib x attrib')))
  | Raise e => (Raise e, self)
  end.

(** The names [PyObject_GenericGetAttr] resolves on an exact Element: the
    entries of [element_methods]. *)
Definition element_methods : list string :=
  [ "clear"; "get"; "set"; "find"; "findtext"; "findall"; "append";
    "extend"; "insert"; "remove"; "iter"; "itertext"; "iterfind";
    "getiterator"; "getchildren"; "items"; "keys"; "makeelement";
    "__copy__"; "__deepcopy__"; "__sizeof__"; "__getstate__";
    "__setstate__" ]%string.

(** What an attribute read yields: a value, or a bound method. *)
Inductive attr : Type :=
| AttrValue (v : PyObject)
| AttrMethod (name : string).

(** [element_getattro]: [tag] and [text] first, then the generic lookup,
    then the less common attributes. *)
Definition element_getattro (h : store) (self : ElementObject) (name : string)
  : result attr * ElementObject :=
  (* handle common attributes first *)
  if String.eqb name "tag" then (Ok (AttrValue (e_tag self)), self)
  else if String.eqb name "text" then
    match element_get_text h self with
    | (Ok res, self) => (Ok (AttrValue res), self)
    | (Raise e, self) => (Raise e, self)
    end
  (* methods *)
  else if bool_decide (name ∈ element_methods) then (Ok (AttrMethod name), self)
  (* less common attributes *)
  else if String.eqb name "tail" then
    match element_get_tail h self with
    | (Ok res, self) => (Ok (AttrValue res), self)
    | (Raise e, self) => (Raise e, self)
    end
  else if String.eqb name "attrib" then
    let x := ensure_extra self in
    let '(res, x) := element_get_attrib x in
    (Ok (AttrValue res), set_extra self (Some x))
  else if String.eqb name "localName" then
    (Ok (AttrValue (e_localName self)), self)
  else if String.eqb name "ns" then (Ok (AttrValue (e_ns self)), self)
  else if String.eqb name "start" then (Ok (AttrValue (e_start self)), self)
  else if String.eqb name "end" then (Ok (AttrValue (e_end self)), self)
  else (Raise (PyErr_SetString PyExc_AttributeError name), self).

(** [element_setattro].  The C function returns [NULL] on every path; for
    a name it does not know it sets AttributeError, which is the outcome
    reported here. *)
Definition element_setattro (self : ElementObject) (name : string)
  (value : PyObject) : result unit * ElementObject :=
  if String.eqb name "tag" then (Ok (), set_tag self value)
  else if String.eqb name "text" then (Ok (), set_text self (untagged value))
  else if String.eqb name "tail" then (Ok (), set_tail self (untagged value))
  else if String.eqb name "attrib" then
    let x := ensure_extra self in
    (Ok (), set_extra self (Some (set_attrib x value)))
  else if String.eqb name "start" then (Ok (), set_start self value)
  else if String.eqb name "end" then (Ok (), set_end self value)
  else (Raise (PyErr_SetString PyExc_AttributeError name), self).

(** ** Children as a sequence *)

Definition PY_SSIZE_T_MAX : Z := 2 ^ 63 - 1.
Definition PY_SSIZE_T_MIN : Z := - 2 ^ 63.

(** The subscript objects [element_ass_subscr] tells apart: an index, a
    slice (a component is [None] where the slice has [Py_None]), anything
    else. *)
Inductive subscript : Type :=
| Index (i : Z)
| Slice (start stop step : option Z)
| OtherKey.

(** [_PyEval_SliceIndex]: an integer outside [Py_ssize_t] is clipped. *)
Definition slice_index (z : Z) : Z :=
  Z.max PY_SSIZE_T_MIN (Z.min PY_SSIZE_T_MAX z).

(** [PySlice_GetIndicesEx] of the interpreter, as the C API defines it:
    the result is [(start, stop, step, slicelength)]. *)
Definition PySlice_GetIndicesEx (start stop step : option Z) (length : Z)
  : result (Z * Z * Z * Z) :=
  let step' :=
    match step with
    | None => 1
    | Some s => Z.max (- PY_SSIZE_T_MAX) (slice_index s)
    end in
  if step' =? 0 then
    Raise (PyErr_SetString PyExc_ValueError "slice step cannot be zero")
  else
    let defstart := if step' <? 0 then length - 1 else 0 in
    let defstop := if step' <? 0 then -1 else length in
    let clip (v : Z) : Z :=
      let v := slice_index v in
      let v := if v <? 0 then v + length else v in
      let v := if v <? 0 then (if step' <? 0 then -1 else 0) else v in
      if length <=? v then (if step' <? 0 then length - 1 else length) else v in
    let start' := match start with None => defstart | Some v => clip v end in
    let stop' := match stop with None => defstop | Some v => clip v end in
    let slicelength :=
      if ((step' <? 0) && (start' <=? stop')) || ((0 <? step') && (stop' <=? start'))
      then 0
      else if step' <? 0 then Z.quot (stop' - start' + 1) step' + 1
      else Z.quot (stop' - start' - 1) step' + 1 in
    Ok (start', stop', step', slicelength).

(** [for (i = from; <n times>; i++) children[i + d] = children[i];] *)
Fixpoint move_ascending (b : list (option PyObject)) (i : Z) (n : nat) (d : Z)
  : list (option PyObject) :=
  match n with
  | O => b
  | S n' => move_ascending (buf_set b (i + d) (buf_get b i)) (i + 1) n' d
  end.

(** [for (i = from; <n times>; i--) children[i + d] = children[i];] *)
Fixpoint move_descending (b : list (option PyObject)) (i : Z) (n : nat) (d : Z)
  : list (option PyObject) :=
  match n with
  | O => b
  | S n' => move_descending (buf_set b (i + d) (buf_get b i)) (i - 1) n' d
  end.

(** [for (cur = start, i = 0; i < newlen; cur += step, i++)
       children[cur] = seq[i];] *)
Fixpoint store_items (b : list (option PyObject)) (cur step : Z)
  (seq : list PyObject) : list (option PyObject) :=
  match seq with
  | [] => b
  | element :: seq' => store_items (buf_set b cur (Some element)) (cur + step) step seq'
  end.

(** [memmove(children + dst, children + src, n * sizeof(PyObject * ))] *)
Definition memmove (b : list (option PyObject)) (dst src n : Z)
  : list (option PyObject) :=
  let block := map (fun k => buf_get b (src + Z.of_nat k)) (seq 0 (Z.to_nat n)) in
  fold_left (fun acc kv => buf_set acc (dst + Z.of_nat kv.1) kv.2)
            (zip (seq 0 (Z.to_nat n)) block) b.

Definition element_setitem (self : ElementObject) (index : Z)
  (item : option PyObject) : result unit * ElementObject :=
  match e_extra self with
  | None =>
      (Raise (PyErr_SetString PyExc_IndexError "child assignment index out of range"), self)
  | Some x =>
      if (index <? 0) || (ex_length x <=? index) then
        (Raise (PyErr_SetString PyExc_IndexError "child assignment index out of range"), self)
      else
        match item with
        | Some item =>
            (Ok (), set_extra self
                      (Some (set_children x (buf_set (ex_children x) index (Some item)))))
        | None =>
            let len := int_wrap (ex_length x - 1) in
            let b := move_ascending (ex_children x) (index + 1)
                                    (Z.to_nat (len - index)) (-1) in
            (Ok (), set_extra self (Some (set_length (set_children x b) len)))
        end
  end.

Definition element_insert (self : ElementObject) (index : Z) (element : PyObject)
  : result PyObject * ElementObject :=
  if negb ((INT_MIN <=? index) && (index <=? INT_MAX)) then
    (Raise (PyErr_SetString PyExc_OverflowError
              "signed integer is greater than maximum"), self)
  else if negb (Element_CheckExact element) then
    (Raise (PyErr_SetString PyExc_TypeError "insert() argument 2 must be Element"), self)
  else
    let x := ensure_extra self in
    let self := set_extra self (Some x) in
    let index :=
      if index <? 0 then
        let index := int_wrap (index + ex_length x) in
        if index <? 0 then 0 else index
      else index in
    let index := if ex_length x <? index then ex_length x else index in
    let self := element_resize self 1 in
    let x := ensure_extra self in
    let b := move_descending (ex_children x) (ex_length x - 1)
                             (Z.to_nat (ex_length x - index)) 1 in
    let b := buf_set b index (Some element) in
    (Ok Py_None,
     set_extra self (Some (set_length (set_children x b) (int_wrap (ex_length x + 1))))).

Definition element_append (self : ElementObject) (element : PyObject)
  : result PyObject * ElementObject :=
  if negb (Element_CheckExact element) then
    (Raise (PyErr_SetString PyExc_TypeError "append() argument 1 must be Element"), self)
  else (Ok Py_None, element_add_subelement self element).

(** The loop of the slice deletion; [fuel] bounds the number of rounds. *)
Fixpoint delete_rounds (fuel : nat) (b : list (option PyObject))
  (cur i stop step len : Z) : list (option PyObject) :=
  match fuel with
  | O => b
  | S fuel' =>
      if cur <? stop then
        let num_moved := if len <=? cur + step then len - cur - 1 else step - 1 in
        delete_rounds fuel' (memmove b (cur - i) (cur + 1) num_moved)
                      (cur + step) (i + 1) stop step len
      else b
  end.

Definition element_ass_subscr (h : store) (self : ElementObject)
  (item : subscript) (value : option PyObject) : result unit * ElementObject :=
  match item with
  | Index i =>
      if negb ((PY_SSIZE_T_MIN <=? i) && (i <=? PY_SSIZE_T_MAX)) then
        (Raise (PyErr_SetString PyExc_IndexError
                  "cannot fit 'int' into an index-sized integer"), self)
      else
        let i := match e_extra self with
                 | Some x => if i <? 0 then i + ex_length x else i
                 | None => i
                 end in
        element_setitem self i value
  | Slice start stop step =>
      let x := ensure_extra self in
      let self := set_extra self (Some x) in
      match PySlice_GetIndicesEx start stop step (ex_length x) with
      | Raise e => (Raise e, self)
      | Ok (start, stop, step, slicelen) =>
          match value with
          | None =>
              (* Delete slice *)
              if slicelen <=? 0 then (Ok (), self)
              else
                let '(start, stop, step) :=
                  if step <? 0
                  then (start + 1 + step * (slicelen - 1) - 1, start + 1, - step)
                  else (start, stop, step) in
                let b := delete_rounds (Z.to_nat slicelen) (ex_children x)
                                       start 0 stop step (ex_length x) in
                let cur := start + slicelen * step in
                let b := if cur <? ex_length x
                         then memmove b (cur - slicelen) cur (ex_length x - cur)
                         else b in
                (Ok (), set_extra self
                          (Some (set_length (set_children x b)
                                            (int_wrap (ex_length x - slicelen)))))
          | Some value =>
              (* A new slice is actually being assigned *)
              match PySequence_Fast h value with
              | None =>
                  (Raise (PyErr_SetString PyExc_TypeError "expected sequence"), self)
              | Some seq =>
                  let newlen := Z.of_nat (length seq) in
                  if negb (step =? 1) && negb (newlen =? slicelen) then
                    (Raise (PyErr_SetString PyExc_ValueError
                              ("attempt to assign sequence of size " +:+ pretty newlen
                               +:+ " to extended slice of size " +:+ pretty slicelen)),
                     self)
                  else
                    (* Resize before creating the recycle bin *)
                    let self := if slicelen <? newlen
                                then element_resize self (int_wrap (newlen - slicelen))
                                else self in
                    let x := ensure_extra self in
                    let b := ex_children x in
                    let b :=
                      if newlen <? slicelen then
                        (* delete slice *)
                        move_ascending b stop (Z.to_nat (ex_length x - stop))
                                       (newlen - slicelen)
                      else if slicelen <? newlen then
                        (* insert slice *)
                        move_descending b (ex_length x - 1)
                                        (Z.to_nat (ex_length x - stop))
                                        (newlen - slicelen)
                      else b in
                    (* replace the slice *)
                    let b := store_items b start step seq in
                    (Ok (), set_extra self
                              (Some (set_length (set_children x b)
                                       (int_wrap (ex_length x + (newlen - slicelen))))))
              end
          end
      end
  | OtherKey =>
      (Raise (PyErr_SetString PyExc_TypeError "element indices must be integers"), self)
  end.

(** ** The tree builder *)

(** [TreeBuilderObject].  [tb_root] and [tb_data] are [None] for a [NULL]
    pointer; the stack is a Python list whose unused slots are [NULL]. *)
Record TreeBuilderObject : Type := {
  tb_root : option PyObject;
  tb_this : PyObject;
  tb_last : PyObject;
  tb_data : option PyObject;
  tb_stack : list (option PyObject);
  tb_index : Z;
  tb_events : option (list PyObject);
  tb_start_event_obj : option PyObject;
  tb_end_event_obj : option PyObject;
  tb_start_ns_event_obj : option PyObject;
  tb_end_ns_event_obj : option PyObject
}.

Definition treebuilder_new : TreeBuilderObject :=
  {| tb_root := None; tb_this := Py_None; tb_last := Py_None;
     tb_data := None; tb_stack := replicate 20 None; tb_index := 0;
     tb_events := None;
     tb_start_event_obj := None; tb_end_event_obj := None;
     tb_start_ns_event_obj := None; tb_end_ns_event_obj := None |}.

Definition set_tb_data (self : TreeBuilderObject) (d : option PyObject)
  : TreeBuilderObject :=
  {| tb_root := tb_root self; tb_this := tb_this self; tb_last := tb_last self;
     tb_data := d; tb_stack := tb_stack self; tb_index := tb_index self;
     tb_events := tb_events self;
     tb_start_event_obj := tb_start_event_obj self;
     tb_end_event_obj := tb_end_event_obj self;
     tb_start_ns_event_obj := tb_start_ns_event_obj self;
     tb_end_ns_event_obj := tb_end_ns_event_obj self |}.

Definition set_tb_root (self : TreeBuilderObject) (r : option PyObject)
  : TreeBuilderObject :=
  {| tb_root := r; tb_this := tb_this self; tb_last := tb_last self;
     tb_data := tb_data self; tb_stack := tb_stack self;
     tb_index := tb_index self; tb_events := tb_events self;
     tb_start_event_obj := tb_start_event_obj self;
     tb_end_event_obj := tb_end_event_obj self;
     tb_start_ns_event_obj := tb_start_ns_event_obj self;
     tb_end_ns_event_obj := tb_end_ns_event_obj self |}.

Definition set_tb_events (self : TreeBuilderObject) (ev : option (list PyObject))
  : TreeBuilderObject :=
  {| tb_root := tb_root self; tb_this := tb_this self; tb_last := tb_last self;
     tb_data := tb_data self; tb_stack := tb_stack self;
     tb_index := tb_index self; tb_events := ev;
     tb_start_event_obj := tb_start_event_obj self;
     tb_end_event_obj := tb_end_event_obj self;
     tb_start_ns_event_obj := tb_start_ns_event_obj self;
     tb_end_ns_event_obj := tb_end_ns_event_obj self |}.

(** Moves of the cursor: [stack], [index], [this] and [last] together. *)
Definition set_tb_cursor (self : TreeBuilderObject)
  (stack : list (option PyObject)) (index : Z) (this last : PyObject)
  : TreeBuilderObject :=
  {| tb_root := tb_root self; tb_this := this; tb_last := last;
     tb_data := tb_data self; tb_stack := stack; tb_index := index;
     tb_events := tb_events self;
     tb_start_event_obj := tb_start_event_obj self;
     tb_end_event_obj := tb_end_event_obj self;
     tb_start_ns_event_obj := tb_start_ns_event_obj self;
     tb_end_ns_event_obj := tb_end_ns_event_obj self |}.

(** [PyList_Append(self->events, res)]; without a list the call fails and
    the failure is dropped. *)
Definition append_event (self : TreeBuilderObject) (res : PyObject)
  : TreeBuilderObject :=
  match tb_events self with
  | Some ev => set_tb_events self (Some (ev ++ [res]))
  | None => self
  end.

(** Which slot of the element [treebuilder_set_element_text_or_tail]
    writes. *)
Inductive dest : Type := dest_text | dest_tail.

Definition store_dest (d : dest) (data : tagged) (e : ElementObject)
  : ElementObject :=
  match d with
  | dest_text => set_text e data
  | dest_tail => set_tail e data
  end.

(** An object that is not an exact Element is, in this universe of values,
    one without assignable attributes or an [append] taking elements:
    [_PyObject_SetAttrId] and the [append] call fail on it.  An address
    held by the builder is always present in the store. *)
Definition treebuilder_set_element_text_or_tail (h : store)
  (element data : PyObject) (d : dest) (name : string)
  : result unit * store :=
  match element with
  | PyElement a =>
      (Ok (),
       alter (store_dest d (JOIN_SET (untagged data) (PyList_CheckExact data))) a h)
  | _ =>
      match list_join h data with
      | Raise e => (Raise e, h)
      | Ok joined => (Raise (PyErr_SetString PyExc_AttributeError name), h)
      end
  end.

Definition treebuilder_set_element_text (h : store) (element data : PyObject)
  : result unit * store :=
  treebuilder_set_element_text_or_tail h element data dest_text "text".

Definition treebuilder_set_element_tail (h : store) (element data : PyObject)
  : result unit * store :=
  treebuilder_set_element_text_or_tail h element data dest_tail "tail".

Definition treebuilder_add_subelement (h : store) (element child : PyObject)
  : result unit * store :=
  match element with
  | PyElement a => (Ok (), alter (fun e => element_add_subelement e child) a h)
  | _ => (Raise (PyErr_SetString PyExc_AttributeError "append"), h)
  end.

(** The block that opens both [treebuilder_handle_start] and
    [treebuilder_handle_end]:
    [if (self->data) { if (self->this == self->last) ... else ...;
                       self->data = NULL; }] *)
Definition flush_data (self : TreeBuilderObject) (h : store)
  : result unit * TreeBuilderObject * store :=
  match tb_data self with
  | Some data =>
      let '(r, h) :=
        if PyObject_eqb (tb_this self) (tb_last self)
        then treebuilder_set_element_text h (tb_last self) data
        else treebuilder_set_element_tail h (tb_last self) data in
      match r with
      | Raise e => (Raise e, self, h)
      | Ok _ => (Ok (), set_tb_data self None, h)
      end
  | None => (Ok (), self, h)
  end.

Definition treebuilder_handle_start (self : TreeBuilderObject) (h : store)
  (tag attrib : PyObject) (line col pos : Z)
  : result PyObject * TreeBuilderObject * store :=
  match flush_data self h with
  | (Raise e, self, h) => (Raise e, self, h)
  | (Ok _, self, h) =>
      let a := fresh (dom h) in
      let node := PyElement a in
      let h :=
        <[a := element_add_position (create_new_element tag (Some attrib))
                                    false line col pos]> h in
      let this := tb_this self in
      let '(r, self, h) :=
        if negb (PyObject_eqb this Py_None) then
          let '(r, h) := treebuilder_add_subelement h this node in
          (r, self, h)
        else
          match tb_root self with
          | Some _ =>
              (Raise (PyErr_SetString elementtree_parseerror_obj
                        "multiple elements on top level"), self, h)
          | None => (Ok (), set_tb_root self (Some node), h)
          end in
      match r with
      | Raise e => (Raise e, self, delete a h)
      | Ok _ =>
          let stack :=
            if tb_index self <? Z.of_nat (length (tb_stack self))
            then buf_set (tb_stack self) (tb_index self) (Some this)
            else tb_stack self ++ [Some this] in
          let self := set_tb_cursor self stack (tb_index self + 1) node node in
          let self :=
            match tb_start_event_obj self with
            | Some action => append_event self (PyTuple [action; node])
            | None => self
            end in
          (Ok node, self, h)
      end
  end.

(** [refcnt1] stands for [Py_REFCNT(self->data) == 1]: reference counts
    are not part of the embedding. *)
Definition treebuilder_handle_data (self : TreeBuilderObject) (data : PyObject)
  (refcnt1 : bool) : result PyObject * TreeBuilderObject :=
  match tb_data self with
  | None =>
      if PyObject_eqb (tb_last self) Py_None then
        (* ignore calls to data before the first call to start *)
        (Ok Py_None, self)
      else
        (* store the first item as is *)
        (Ok Py_None, set_tb_data self (Some data))
  | Some pending =>
      (* more than one item; use a list to collect items *)
      match pending, data with
      | PyBytes p, PyBytes d =>
          if refcnt1 && (String.length d =? 1)%nat then
            (Ok Py_None, set_tb_data self (Some (PyBytes (p +:+ d))))
          else
            (Ok Py_None, set_tb_data self (Some (PyList [pending; data])))
      | PyList items, _ =>
          (Ok Py_None, set_tb_data self (Some (PyList (items ++ [data]))))
      | _, _ =>
          (Ok Py_None, set_tb_data self (Some (PyList [pending; data])))
      end
  end.

Definition treebuilder_handle_end (self : TreeBuilderObject) (h : store)
  (tag : PyObject) (line col pos : Z)
  : result PyObject * TreeBuilderObject * store :=
  match flush_data self h with
  | (Raise e, self, h) => (Raise e, self, h)
  | (Ok _, self, h) =>
      if tb_index self =? 0 then
        (Raise (PyErr_SetString PyExc_IndexError "pop from empty stack"), self, h)
      else
        let index := tb_index self - 1 in
        let item := default Py_None (buf_get (tb_stack self) index) in
        let self := set_tb_cursor self (tb_stack self) index item (tb_this self) in
        let h :=
          match tb_last self with
          | PyElement a => alter (fun e => element_add_position e true line col pos) a h
          | _ => h
          end in
        let self :=
          match tb_end_event_obj self with
          | Some action => append_event self (PyTuple [action; tb_last self])
          | None => self
          end in
        (Ok (tb_last self), self, h)
  end.

Definition treebuilder_handle_namespace (self : TreeBuilderObject)
  (start : bool) (prefix uri : PyObject) : TreeBuilderObject :=
  match tb_events self with
  | None => self
  | Some _ =>
      if start then
        match tb_start_ns_event_obj self with
        | None => self
        | Some action => append_event self (PyTuple [action; PyTuple [prefix; uri]])
        end
      else
        match tb_end_ns_event_obj self with
        | None => self
        | Some action => append_event self (PyTuple [action; Py_None])
        end
  end.

Definition treebuilder_done (self : TreeBuilderObject) : PyObject :=
  match tb_root self with
  | Some root => root
  | None => Py_None
  end.

(** The methods [data], [end], [start] and [close] of the builder: the
    handlers called without a source position. *)
Definition treebuilder_data (self : TreeBuilderObject) (data : PyObject)
  (refcnt1 : bool) : result PyObject * TreeBuilderObject :=
  treebuilder_handle_data self data refcnt1.

Definition treebuilder_end (self : TreeBuilderObject) (h : store) (tag : PyObject)
  : result PyObject * TreeBuilderObject * store :=
  treebuilder_handle_end self h tag (-1) (-1) (-1).

Definition treebuilder_start (self : TreeBuilderObject) (h : store)
  (tag attrib : PyObject)
  : result PyObject * TreeBuilderObject * store :=
  treebuilder_handle_start self h tag attrib (-1) (-1) (-1).

Definition treebuilder_close (self : TreeBuilderObject) : PyObject :=
  treebuilder_done self.

(** ** The parser adapter *)

(** Strict UTF-8: the bytes of a well-formed encoding, without overlong
    forms and surrogates.  The scanner state is [None] at a character
    boundary, and [Some (k, lo, hi)] when [k] continuation bytes are due,
    the next one within [lo..hi]. *)
Fixpoint utf8_scan (st : option (nat * Z * Z)) (l : list Z) : bool :=
  match l with
  | [] => match st with None => true | Some _ => false end
  | b :: l' =>
      match st with
      | None =>
          if b <? 128 then utf8_scan None l'
          else if (194 <=? b) && (b <=? 223) then utf8_scan (Some (1%nat, 128, 191)) l'
          else if b =? 224 then utf8_scan (Some (2%nat, 160, 191)) l'
          else if b =? 237 then utf8_scan (Some (2%nat, 128, 159)) l'
          else if (225 <=? b) && (b <=? 239) then utf8_scan (Some (2%nat, 128, 191)) l'
          else if b =? 240 then utf8_scan (Some (3%nat, 144, 191)) l'
          else if (241 <=? b) && (b <=? 243) then utf8_scan (Some (3%nat, 128, 191)) l'
          else if b =? 244 then utf8_scan (Some (3%nat, 128, 143)) l'
          else false
      | Some (k, lo, hi) =>
          if (lo <=? b) && (b <=? hi) then
            match k with
            | S (S k') => utf8_scan (Some (S k', 128, 191)) l'
            | _ => utf8_scan None l'
            end
          else false
      end
  end.

Definition byte_values (s : string) : list Z :=
  map (fun c => Z.of_nat (Ascii.nat_of_ascii c)) (String.list_ascii_of_string s).

(** [PyUnicode_DecodeUTF8(s, size, "strict")].  A str is kept as its UTF-8
    bytes. *)
Definition PyUnicode_DecodeUTF8 (s : string) : result PyObject :=
  if utf8_scan None (byte_values s) then Ok (PyUnicode s)
  else Raise (PyErr_SetString PyExc_UnicodeDecodeError
                "'utf-8' codec can't decode bytes").

(** What the adapter reads from the expat parser. *)
Record XML_Parser : Type := {
  XML_GetErrorCode : Z;
  XML_GetErrorLineNumber : Z;
  XML_GetErrorColumnNumber : Z;
  XML_GetCurrentLineNumber : Z;
  XML_GetCurrentColumnNumber : Z;
  XML_GetCurrentByteIndex : Z
}.


(** The target of a parser: the built-in tree builder
    ([TreeBuilder_CheckExact]), or a foreign object, of which the calls
    made to its handlers are recorded. *)
Inductive target : Type :=
| TargetTreeBuilder (tb : TreeBuilderObject)
| TargetObject (calls : list (string * list PyObject)).

(** [XMLParserObject]; a [handle_*] field is [true] when the target has
    the method. *)
Record XMLParserObject : Type := {
  xp_parser : XML_Parser;
  xp_target : target;
  xp_entity : PyObject;
  xp_names : PyObject;
  xp_handle_start : bool;
  xp_handle_data : bool;
  xp_handle_end : bool
}.

Definition set_xp_target (self : XMLParserObject) (t : target) : XMLParserObject :=
  {| xp_parser := xp_parser self; xp_target := t; xp_entity := xp_entity self;
     xp_names := xp_names self; xp_handle_start := xp_handle_start self;
     xp_handle_data := xp_handle_data self; xp_handle_end := xp_handle_end self |}.

Definition set_xp_names (self : XMLParserObject) (n : PyObject) : XMLParserObject :=
  {| xp_parser := xp_parser self; xp_target := xp_target self;
     xp_entity := xp_entity self; xp_names := n;
     xp_handle_start := xp_handle_start self;
     xp_handle_data := xp_handle_data self; xp_handle_end := xp_handle_end self |}.

(** The interpreter state a callback runs in: the parser object, the
    pending exception ([PyErr_Occurred]) and the object store. *)
Record world : Type := {
  w_self : XMLParserObject;
  w_err : option exception;
  w_store : store
}.

Definition call_target (calls : list (string * list PyObject)) (name : string)
  (args : list PyObject) : target :=
  TargetObject (calls ++ [(name, args)]).

(** A callee's outcome on the pending exception: raising replaces it. *)
Definition after_call {A} (r : result A) (err : option exception)
  : option exception :=
  match r with
  | Raise e => Some e
  | Ok _ => err
  end.

Definition makeuniversal (self : XMLParserObject) (string : string)
  : result PyObject * XMLParserObject :=
  (* look the 'raw' name up in the names dictionary *)
  let key := PyBytes string in
  match PyDict_GetItem (xp_names self) key with
  | Some value => (Ok value, self)
  | None =>
      (* new name.  convert to universal name, and decode as necessary *)
      let tag :=
        match String.index 0 "}" string with
        | Some _ => ("{" +:+ string)%string
        | None => string
        end in
      match PyUnicode_DecodeUTF8 tag with
      | Raise e => (Raise e, self)
      | Ok value =>
          (* add to names dictionary *)
          match PyDict_SetItem (xp_names self) key value with
          | Raise e => (Raise e, self)
          | Ok names => (Ok value, set_xp_names self names)
          end
      end
  end.






Definition expat_end_handler (w : world) (tag_in : string) : world :=
  let self := w_self w in
  match xp_target self with
  | TargetTreeBuilder tb =>
      (* the standard tree builder doesn't look at the end tag *)
      let '(res, tb, h) :=
        treebuilder_handle_end tb (w_store w) Py_None
          (XML_GetCurrentLineNumber (xp_parser self))
          (XML_GetCurrentColumnNumber (xp_parser self))
          (XML_GetCurrentByteIndex (xp_parser self)) in
      {| w_self := set_xp_target self (TargetTreeBuilder tb);
         w_err := after_call res (w_err w);
         w_store := h |}
  | TargetObject calls =>
      if xp_handle_end self then
        match makeuniversal self tag_in with
        | (Ok tag, self) =>
            {| w_self := set_xp_target self (call_target calls "end" [tag]);
               w_err := w_err w; w_store := w_store w |}
        | (Raise e, self) =>
            {| w_self := self; w_err := Some e; w_store := w_store w |}
        end
      else w
  end.






(** ** Builder sessions and what a caller observes *)

(** The calls a client makes on a tree builder. *)
Inductive call : Type :=
| Start (tag attrib : PyObject)
| Data (data : PyObject)
| End (tag : PyObject).

(** A session: the builder, the store and the values returned so far. *)
Definition session : Type :=
  (TreeBuilderObject * store * list (result PyObject))%type.

Definition step (s : session) (c : call) : session :=
  let '(self, h, out) := s in
  match c with
  | Start tag attrib =>
      let '(r, self, h) := treebuilder_start self h tag attrib in
      (self, h, out ++ [r])
  | Data data =>
      let '(r, self) := treebuilder_data self data false in
      (self, h, out ++ [r])
  | End tag =>
      let '(r, self, h) := treebuilder_end self h tag in
      (self, h, out ++ [r])
  end.

Definition run (calls : list call) (s : session) : session :=
  fold_left step calls s.

(** An element as its accessors show it: text and tail are what
    [element_get_text] and [element_get_tail] return. *)
Record view : Type := {
  v_tag : PyObject;
  v_text : result PyObject;
  v_tail : result PyObject;
  v_localName : PyObject;
  v_ns : PyObject;
  v_start : PyObject;
  v_end : PyObject;
  v_extra : option ElementObjectExtra
}.

Definition observe (h : store) (a : nat) : option view :=
  match h !! a with
  | Some e =>
      Some {| v_tag := e_tag e;
              v_text := (element_get_text h e).1;
              v_tail := (element_get_tail h e).1;
              v_localName := e_localName e;
              v_ns := e_ns e;
              v_start := e_start e;
              v_end := e_end e;
              v_extra := e_extra e |}
  | None => None
  end.

(** The states a builder goes through keep a node (an element, or the
    none marker) in [this], in [last] and in the stack, and hold pending
    data only once an element was started. *)
Definition is_node (o : PyObject) : bool :=
  match o with
  | Py_None | PyElement _ => true
  | _ => false
  end.

Definition builder_ok (self : TreeBuilderObject) : bool :=
  match tb_last self with
  | PyElement _ => true
  | Py_None => match tb_data self with None => true | Some _ => false end
  | _ => false
  end.

Definition slot_ok (o : option PyObject) : bool :=
  match o with Some p => is_node p | None => true end.

Definition builder_inv (self : TreeBuilderObject) : bool :=
  builder_ok self && is_node (tb_this self) && forallb slot_ok (tb_stack self).

(** The growth policy in the words of the specification:
    [size + size/8 + (size < 9 ? 3 : 6)] for a requested total [size]. *)
Definition grown (size : Z) : Z :=
  size + size / 8 + (if size <? 9 then 3 else 6).


(** The concatenation of text fragments, in order. *)
Definition concat_fragments (frags : list string) : string :=
  foldr String.append EmptyString frags.

(** Reading [text] [n] times in a row: the element after the reads. *)
Definition read_text_times (h : store) (n : nat) (e : ElementObject)
  : ElementObject :=
  Nat.iter n (fun e => (element_get_text h e).2) e.

Definition read_tail_times (h : store) (n : nat) (e : ElementObject)
  : ElementObject :=
  Nat.iter n (fun e => (element_get_tail h e).2) e.


(** The slot the flush writes: [JOIN_SET(data, PyList_CheckExact(data))]. *)
Definition flushed (data : PyObject) : tagged :=
  JOIN_SET (untagged data) (PyList_CheckExact data).


(** [xmlparser_init] without a target argument: empty [entity] and [names]
    dictionaries and a new tree builder, which has all the handlers. *)
Definition xmlparser_init (parser : XML_Parser) : XMLParserObject :=
  {| xp_parser := parser;
     xp_target := TargetTreeBuilder treebuilder_new;
     xp_entity := PyDict [];
     xp_names := PyDict [];
     xp_handle_start := true;
     xp_handle_data := true;
     xp_handle_end := true |}.






(** A parser as [xmlparser_init] leaves it, with expat at line 3,
    column 7, and a name of 120 letters. *)
Definition sample_world : world :=
  {| w_self := xmlparser_init
                 {| XML_GetErrorCode := 0;
                    XML_GetErrorLineNumber := 3; XML_GetErrorColumnNumber := 7;
                    XML_GetCurrentLineNumber := 3; XML_GetCurrentColumnNumber := 7;
                    XML_GetCurrentByteIndex := 40 |};
     w_err := None;
     w_store := ∅ |}.


(** A well-formed extra block: the buffer has [allocated] slots, of which
    the first [length] are in use. *)
Definition extra_wf (x : ElementObjectExtra) : Prop :=
  0 <= ex_length x <= ex_allocated x
  /\ Z.of_nat (length (ex_children x)) = ex_allocated x.

(** An element with five children, at the addresses 0 to 4. *)
Definition five_children : ElementObject :=
  fold_left element_add_subelement
    [PyElement 0; PyElement 1; PyElement 2; PyElement 3; PyElement 4]%nat
    (create_new_element (PyUnicode "parent") None).

(** ** Reading and editing the children *)

(** A child pointer read from the buffer is used as an object
    ([Py_INCREF], [Py_TYPE]).  Doing so with a [NULL] pointer is undefined
    in C: the functions below return [None] where the C code would use a
    slot that holds no object. *)

(** [for (cur = start, i = 0; i < n; cur += step, i++)
       list[i] = children[cur];] *)
Fixpoint read_items (b : list (option PyObject)) (cur step : Z) (n : nat)
  : option (list PyObject) :=
  match n with
  | O => Some []
  | S n' =>
      item ← buf_get b cur;
      rest ← read_items b (cur + step) step n';
      Some (item :: rest)
  end.

Definition element_getitem (self : ElementObject) (index : Z)
  : option (result PyObject) :=
  match e_extra self with
  | None => Some (Raise (PyErr_SetString PyExc_IndexError "child index out of range"))
  | Some x =>
      if (index <? 0) || (ex_length x <=? index) then
        Some (Raise (PyErr_SetString PyExc_IndexError "child index out of range"))
      else
        item ← buf_get (ex_children x) index;
        Some (Ok item)
  end.

Definition element_getchildren (self : ElementObject) : option (result PyObject) :=
  match e_extra self with
  | None => Some (Ok (PyList []))
  | Some x =>
      if ex_length x <? 0 then
        Some (Raise (PyErr_SetString PyExc_SystemError "bad argument to internal function"))
      else
        list ← read_items (ex_children x) 0 1 (Z.to_nat (ex_length x));
        Some (Ok (PyList list))
  end.

Definition element_subscr (self : ElementObject) (item : subscript)
  : option (result PyObject) :=
  match item with
  | Index i =>
      if negb ((PY_SSIZE_T_MIN <=? i) && (i <=? PY_SSIZE_T_MAX)) then
        Some (Raise (PyErr_SetString PyExc_IndexError
                       "cannot fit 'int' into an index-sized integer"))
      else
        let i := match e_extra self with
                 | Some x => if i <? 0 then i + ex_length x else i
                 | None => i
                 end in
        element_getitem self i
  | Slice start stop step =>
      match e_extra self with
      | None => Some (Ok (PyList []))
      | Some x =>
          match PySlice_GetIndicesEx start stop step (ex_length x) with
          | Raise e => Some (Raise e)
          | Ok (start, stop, step, slicelen) =>
              if slicelen <=? 0 then Some (Ok (PyList []))
              else
                list ← read_items (ex_children x) start step (Z.to_nat slicelen);
                Some (Ok (PyList list))
          end
      end
  | OtherKey =>
      Some (Raise (PyErr_SetString PyExc_TypeError "element indices must be integers"))
  end.

(** [PyObject_RichCompareBool(a, b, Py_EQ) == 1], for the comparisons the
    module makes: a child against an Element, where [Element_Type] has no
    [tp_richcompare] and equality is identity, and a tag against a str or
    bytes object. *)
Definition PyObject_RichCompareBool (a b : PyObject) : bool := PyObject_eqb a b.

(** The search loop of [element_remove]: the index [i] it stops at. *)
Fixpoint remove_scan (b : list (option PyObject)) (i : Z) (n : nat)
  (element : PyObject) : option Z :=
  match n with
  | O => Some i
  | S n' =>
      item ← buf_get b i;
      if PyObject_RichCompareBool item element then Some i
      else remove_scan b (i + 1) n' element
  end.

Definition element_remove (self : ElementObject) (element : PyObject)
  : option (result PyObject * ElementObject) :=
  if negb (Element_CheckExact element) then
    Some (Raise (PyErr_SetString PyExc_TypeError "remove() argument 1 must be Element"),
          self)
  else
    match e_extra self with
    | None =>
        (* element has no children, so raise exception *)
        Some (Raise (PyErr_SetString PyExc_ValueError "list.remove(x): x not in list"),
              self)
    | Some x =>
        i ← remove_scan (ex_children x) 0 (Z.to_nat (ex_length x)) element;
        if i =? ex_length x then
          (* element is not in children, so raise exception *)
          Some (Raise (PyErr_SetString PyExc_ValueError "list.remove(x): x not in list"),
                self)
        else
          let len := int_wrap (ex_length x - 1) in
          let b := move_ascending (ex_children x) (i + 1) (Z.to_nat (len - i)) (-1) in
          Some (Ok Py_None, set_extra self (Some (set_length (set_children x b) len)))
    end.

(** [Py_TYPE(o)->tp_name]. *)
Definition tp_name (o : PyObject) : string :=
  match o with
  | Py_None => "NoneType"
  | PyUnicode _ => "str"
  | PyBytes _ => "bytes"
  | PyLong _ => "int"
  | PyTuple _ => "tuple"
  | PyList _ => "list"
  | PyDict _ => "dict"
  | PyElement _ => "cElementTree.Element"
  end.

(** The quotation mark of the messages that quote a type name. *)
Definition dquote : string := String (Ascii.ascii_of_nat 34) EmptyString.

(** The loop of [element_extend] over the items of the sequence. *)
Fixpoint extend_loop (self : ElementObject) (seq : list PyObject)
  : result PyObject * ElementObject :=
  match seq with
  | [] => (Ok Py_None, self)
  | element :: seq' =>
      if negb (Element_CheckExact element) then
        (Raise (PyErr_SetString PyExc_TypeError
                  ("expected an Element, not " +:+ dquote +:+ tp_name element +:+ dquote)),
         self)
      else extend_loop (element_add_subelement self element) seq'
  end.

Definition element_extend (h : store) (self : ElementObject) (seq_in : PyObject)
  : result PyObject * ElementObject :=
  match PySequence_Fast h seq_in with
  | None =>
      (Raise (PyErr_SetString PyExc_TypeError
                ("expected sequence, not " +:+ dquote +:+ tp_name seq_in +:+ dquote)),
       self)
  | Some seq => extend_loop self seq
  end.

Definition set_localName (self : ElementObject) (p : PyObject) : ElementObject :=
  {| e_tag := e_tag self; e_text := e_text self; e_tail := e_tail self;
     e_localName := p; e_ns := e_ns self;
     e_start := e_start self; e_end := e_end self; e_extra := e_extra self |}.

Definition set_ns (self : ElementObject) (p : PyObject) : ElementObject :=
  {| e_tag := e_tag self; e_text := e_text self; e_tail := e_tail self;
     e_localName := e_localName self; e_ns := p;
     e_start := e_start self; e_end := e_end self; e_extra := e_extra self |}.

Definition element_clearmethod (self : ElementObject) : ElementObject :=
  let self := set_extra self None in
  let self := set_text self (untagged Py_None) in
  let self := set_tail self (untagged Py_None) in
  let self := set_localName self Py_None in
  let self := set_ns self Py_None in
  let self := set_start self Py_None in
  set_end self Py_None.



(** An element in good order with the children [l]: the block is
    well-formed, its capacity is a C [int], and the slots in use hold the
    objects of [l]. *)
Definition has_children (self : ElementObject) (l : list PyObject) : Prop :=
  extra_wf (ensure_extra self)
  /\ ex_allocated (ensure_extra self) <= INT_MAX
  /\ element_children self = Some <$> l.

(** The index [element_insert] settles on, for [n] children. *)
Definition insert_position (index n : Z) : nat :=
  Z.to_nat (Z.min n (if index <? 0 then Z.max 0 (index + n) else index)).

(** The items of a sequence before the first that is not an Element. *)
Fixpoint element_prefix (seq : list PyObject) : list PyObject :=
  match seq with
  | [] => []
  | element :: seq' =>
      if Element_CheckExact element then element :: element_prefix seq' else []
  end.

(** The index, before the slice of [count] indices [lo], [lo + step], ...
    (with [1 <= step]) is deleted, of the child that is at index [j]
    afterwards. *)
Definition kept_index (lo step count j : Z) : Z :=
  if j <? lo then j
  else if j <? lo + count * (step - 1) then j + (j - lo) / (step - 1) + 1
  else j + count.

(** ** Searching the children *)

(** The first character of a string literal, to write a character. *)
Definition chr (s : string) : Ascii.ascii :=
  match s with
  | String c _ => c
  | EmptyString => Ascii.zero
  end.

(** [#define PATHCHAR(ch)
       (ch == '/' || ch == '*' || ch == '[' || ch == '@' || ch == '.')] *)
Definition PATHCHAR (ch : Ascii.ascii) : bool :=
  Ascii.eqb ch (chr "/") || Ascii.eqb ch (chr "*") || Ascii.eqb ch (chr "[")
  || Ascii.eqb ch (chr "@") || Ascii.eqb ch (chr ".").

(** The loop of [checkpath]; the characters it looks for are ASCII, so
    that scanning the UTF-8 bytes of a str finds what scanning its code
    points finds. *)
Fixpoint checkpath_scan (check : bool) (s : string) : bool :=
  match s with
  | EmptyString => false
  | String ch rest =>
      if Ascii.eqb ch (chr "{") then checkpath_scan false rest
      else if Ascii.eqb ch (chr "}") then checkpath_scan true rest
      else if check && PATHCHAR ch then true
      else checkpath_scan check rest
  end.

(** check if a tag contains an xpath character *)
Definition checkpath (tag : PyObject) : bool :=
  match tag with
  | PyUnicode s | PyBytes s => checkpath_scan true s
  | _ => true (* unknown type; might be path expression *)
  end.

(** A search either goes to the [ElementPath] module, of which the method
    called and its arguments after [self] are recorded, or is answered by
    the loop over the children. *)
Inductive dispatch (A : Type) : Type :=
| ViaElementPath (method : string) (args : list PyObject)
| Direct (a : A).
Arguments ViaElementPath {A} method args.
Arguments Direct {A} a.

Fixpoint find_loop (h : store) (b : list (option PyObject)) (i : Z) (n : nat)
  (tag : PyObject) : option PyObject :=
  match n with
  | O => Some Py_None
  | S n' =>
      item ← buf_get b i;
      match item with
      | PyElement a =>
          e ← h !! a;
          if PyObject_RichCompareBool (e_tag e) tag then Some item
          else find_loop h b (i + 1) n' tag
      | _ => find_loop h b (i + 1) n' tag
      end
  end.

Definition element_find (h : store) (self : ElementObject) (tag namespaces : PyObject)
  : option (dispatch PyObject) :=
  if checkpath tag || negb (PyObject_eqb namespaces Py_None) then
    Some (ViaElementPath "find" [tag; namespaces])
  else
    match e_extra self with
    | None => Some (Direct Py_None)
    | Some x =>
        item ← find_loop h (ex_children x) 0 (Z.to_nat (ex_length x)) tag;
        Some (Direct item)
    end.

(** The loop of [element_findtext]: the text of the first match is read
    with [element_get_text], which may join and store it. *)
Fixpoint findtext_loop (h : store) (b : list (option PyObject)) (i : Z) (n : nat)
  (tag default_value : PyObject) : option (result PyObject * store) :=
  match n with
  | O => Some (Ok default_value, h)
  | S n' =>
      item ← buf_get b i;
      match item with
      | PyElement a =>
          e ← h !! a;
          if PyObject_RichCompareBool (e_tag e) tag then
            match element_get_text h e with
            | (Ok text, e) =>
                Some (Ok (if PyObject_eqb text Py_None then PyUnicode EmptyString
                          else text),
                      <[a := e]> h)
            | (Raise err, _) => Some (Raise err, h)
            end
          else findtext_loop h b (i + 1) n' tag default_value
      | _ => findtext_loop h b (i + 1) n' tag default_value
      end
  end.

Definition element_findtext (h : store) (self : ElementObject)
  (tag default_value namespaces : PyObject)
  : option (dispatch (result PyObject * store)) :=
  if checkpath tag || negb (PyObject_eqb namespaces Py_None) then
    Some (ViaElementPath "findtext" [tag; default_value; namespaces])
  else
    match e_extra self with
    | None => Some (Direct (Ok default_value, h))
    | Some x =>
        r ← findtext_loop h (ex_children x) 0 (Z.to_nat (ex_length x))
              tag default_value;
        Some (Direct r)
    end.

Fixpoint findall_loop (h : store) (b : list (option PyObject)) (i : Z) (n : nat)
  (tag : PyObject) : option (list PyObject) :=
  match n with
  | O => Some []
  | S n' =>
      item ← buf_get b i;
      match item with
      | PyElement a =>
          e ← h !! a;
          out ← findall_loop h b (i + 1) n' tag;
          Some (if PyObject_RichCompareBool (e_tag e) tag then item :: out else out)
      | _ => findall_loop h b (i + 1) n' tag
      end
  end.

Definition element_findall (h : store) (self : ElementObject) (tag namespaces : PyObject)
  : option (dispatch PyObject) :=
  if checkpath tag || negb (PyObject_eqb namespaces Py_None) then
    Some (ViaElementPath "findall" [tag; namespaces])
  else
    match e_extra self with
    | None => Some (Direct (PyList []))
    | Some x =>
        out ← findall_loop h (ex_children x) 0 (Z.to_nat (ex_length x)) tag;
        Some (Direct (PyList out))
    end.

(** A child the search loops accept for [tag]: an Element whose tag
    compares equal to it. *)
Definition has_tag (h : store) (tag : PyObject) (c : PyObject) : bool :=
  match c with
  | PyElement a =>
      match h !! a with
      | Some e => PyObject_RichCompareBool (e_tag e) tag
      | None => false
      end
  | _ => false
  end.

(** The elements among [l] are objects of the store. *)
Definition live (h : store) (l : list PyObject) : Prop :=
  forall a : nat, PyElement a ∈ l -> is_Some (h !! a).

(** Every character of a string passes a test. *)
Fixpoint string_forall (p : Ascii.ascii -> bool) (s : string) : bool :=
  match s with
  | EmptyString => true
  | String c rest => p c && string_forall p rest
  end.

Definition is_brace (ch : Ascii.ascii) : bool :=
  Ascii.eqb ch (chr "{") || Ascii.eqb ch (chr "}").

(** A document with namespaces, built by a tree builder:
    [<doc><x:p>one</x:p><q/><x:p>two</x:p></doc>] with [x] bound to
    [http://www.w3.org/1999/xhtml], the text of the first [p] delivered in
    two pieces.  The root is at address 0, its children at 1, 2 and 3. *)
Definition xhtml_p : PyObject := PyUnicode "{http://www.w3.org/1999/xhtml}p".

Definition sample_tree : store :=
  (run [Start (PyUnicode "doc") (PyDict []);
        Start xhtml_p (PyDict []); Data (PyUnicode "o"); Data (PyUnicode "ne");
        End xhtml_p;
        Start (PyUnicode "q") (PyDict []); End (PyUnicode "q");
        Start xhtml_p (PyDict []); Data (PyUnicode "two"); End xhtml_p;
        End (PyUnicode "doc")]
       (treebuilder_new, ∅, [])).1.2.

Definition sample_root : ElementObject :=
  default (create_new_element Py_None None) (sample_tree !! 0%nat).

(** ** Nesting of builder calls *)



Definition is_Ok {A} (r : result A) : bool :=
  match r with Ok _ => true | Raise _ => false end.

(** ** Event reporting *)

Definition set_tb_event_objs (self : TreeBuilderObject)
  (start_ end_ start_ns end_ns : option PyObject) : TreeBuilderObject :=
  {| tb_root := tb_root self; tb_this := tb_this self; tb_last := tb_last self;
     tb_data := tb_data self; tb_stack := tb_stack self;
     tb_index := tb_index self; tb_events := tb_events self;
     tb_start_event_obj := start_;
     tb_end_event_obj := end_;
     tb_start_ns_event_obj := start_ns;
     tb_end_ns_event_obj := end_ns |}.

(** The C string a [char * ] points to: the bytes up to the first NUL. *)
Fixpoint c_str (s : string) : string :=
  match s with
  | EmptyString => EmptyString
  | String c rest =>
      if Ascii.eqb c Ascii.zero then EmptyString else String c (c_str rest)
  end.

(** The loop of [xmlparser_setevents] over the event tuple.  The handlers
    it registers with expat for the namespace events are not part of the
    embedding. *)
Fixpoint setevents_loop (target : TreeBuilderObject) (event_set : list PyObject)
  : result PyObject * TreeBuilderObject :=
  match event_set with
  | [] => (Ok Py_None, target)
  | item :: rest =>
      match item with
      | PyUnicode s | PyBytes s =>
          let event := c_str s in
          if String.eqb event "start" then
            setevents_loop
              (set_tb_event_objs target (Some item) (tb_end_event_obj target)
                 (tb_start_ns_event_obj target) (tb_end_ns_event_obj target)) rest
          else if String.eqb event "end" then
            setevents_loop
              (set_tb_event_objs target (tb_start_event_obj target) (Some item)
                 (tb_start_ns_event_obj target) (tb_end_ns_event_obj target)) rest
          else if String.eqb event "start-ns" then
            setevents_loop
              (set_tb_event_objs target (tb_start_event_obj target)
                 (tb_end_event_obj target) (Some item) (tb_end_ns_event_obj target)) rest
          else if String.eqb event "end-ns" then
            setevents_loop
              (set_tb_event_objs target (tb_start_event_obj target)
                 (tb_end_event_obj target) (tb_start_ns_event_obj target) (Some item)) rest
          else
            (Raise (PyErr_SetString PyExc_ValueError
                      ("unknown event '" +:+ event +:+ "'")), target)
      | _ => (Raise (PyErr_SetString PyExc_TypeError "invalid event tuple"), target)
      end
  end.

(** [xmlparser_setevents]; [events] is the content of the list given as
    the event collector. *)
Definition xmlparser_setevents (self : XMLParserObject) (events : list PyObject)
  (event_set : PyObject) : result PyObject * XMLParserObject :=
  match xp_target self with
  | TargetObject _ =>
      (Raise (PyErr_SetString PyExc_TypeError
                "event handling only supported for ElementTree.TreeBuilder targets"),
       self)
  | TargetTreeBuilder target =>
      let target := set_tb_events target (Some events) in
      (* clear out existing events *)
      let target := set_tb_event_objs target None None None None in
      if PyObject_eqb event_set Py_None then
        (* default is "end" only *)
        (Ok Py_None,
         set_xp_target self
           (TargetTreeBuilder
              (set_tb_event_objs target None (Some (PyUnicode "end")) None None)))
      else
        match event_set with
        | PyTuple items =>
            let '(r, target) := setevents_loop target items in
            (r, set_xp_target self (TargetTreeBuilder target))
        | _ =>
            (Raise (PyErr_SetString PyExc_TypeError "invalid event tuple"),
             set_xp_target self (TargetTreeBuilder target))
        end
  end.

(** The events a session with the default event set reports: one pair of
    the end marker and the element for every [End] call that returned an
    element. *)
Definition end_event (action : PyObject) (cr : call * result PyObject)
  : option PyObject :=
  match cr with
  | (End _, Ok node) => Some (PyTuple [action; node])
  | _ => None
  end.

(** The event settings of a builder, which no handler changes. *)
Definition same_settings (s s' : TreeBuilderObject) : Prop :=
  tb_start_event_obj s' = tb_start_event_obj s
  /\ tb_end_event_obj s' = tb_end_event_obj s
  /\ tb_start_ns_event_obj s' = tb_start_ns_event_obj s
  /\ tb_end_ns_event_obj s' = tb_end_ns_event_obj s.

(** The event a successful start reports, if start events are on. *)
Definition start_event (self : TreeBuilderObject) (node : PyObject) : list PyObject :=
  match tb_start_event_obj self with
  | Some action => [PyTuple [action; node]]
  | None => []
  end.

(** The event a successful end reports, if end events are on. *)
Definition end_event_of (self : TreeBuilderObject) (node : PyObject) : list PyObject :=
  match tb_end_event_obj self with
  | Some action => [PyTuple [action; node]]
  | None => []
  end.


(** The events a call reports, given what it returned: a successful start
    or end reports the element, under the marker set for it. *)
Definition reported (self : TreeBuilderObject) (cr : call * result PyObject)
  : list PyObject :=
  match cr with
  | (Start _ _, Ok node) => start_event self node
  | (End _, Ok node) => end_event_of self node
  | _ => []
  end.

(** ** Universal names *)

(** No namespace separator [}] in a string. *)
Definition no_separator (s : string) : bool :=
  string_forall (fun c => negb (Ascii.eqb c (chr "}"))) s.

(** An expat name with a namespace, [uri}local], and its universal form
    [{uri}local]. *)
Definition expat_name (uri local : string) : string := uri +:+ "}" +:+ local.

Definition universal_name (uri local : string) : string :=
  "{" +:+ uri +:+ "}" +:+ local.


(** ** Attributes through the parser *)





(** ** Creating elements *)









(** ** Choosing the events *)

(** The event an item of the event tuple names: the C string of a str or
    bytes object. *)
Definition event_name (item : PyObject) : option string :=
  match item with
  | PyUnicode s | PyBytes s => Some (c_str s)
  | _ => None
  end.

Definition named (name : string) (item : PyObject) : bool :=
  match event_name item with
  | Some s => String.eqb s name
  | None => false
  end.

(** An item that names one of the four events. *)
Definition known_event (item : PyObject) : bool :=
  named "start" item || named "end" item
  || named "start-ns" item || named "end-ns" item.

(** The last item of the tuple that names the event. *)
Fixpoint marker (name : string) (items : list PyObject) : option PyObject :=
  match items with
  | [] => None
  | item :: rest =>
      match marker name rest with
      | Some m => Some m
      | None => if named name item then Some item else None
      end
  end.

(** The exception [xmlparser_setevents] raises at an item that names no
    event. *)
Definition bad_event (item : PyObject) : exception :=
  match event_name item with
  | Some name => PyErr_SetString PyExc_ValueError ("unknown event '" +:+ name +:+ "'")
  | None => PyErr_SetString PyExc_TypeError "invalid event tuple"
  end.
(** * Properties *)

(** ** Machine integers *)

Lemma int_wrap_id (z : Z) : INT_MIN <= z <= INT_MAX -> int_wrap z = z.
Proof.
  unfold INT_MIN, INT_MAX, int_wrap. intros Hz.
  rewrite Z.mod_small by lia. lia.
Qed.

Lemma shiftr3_div8 (z : Z) : Z.shiftr z 3 = z / 8.
Proof. rewrite Z.shiftr_div_pow2 by lia. reflexivity. Qed.

Lemma grown_lower (size : Z) : 1 <= size -> 4 <= grown size.
Proof.
  intros Hs. unfold grown.
  assert (0 <= size / 8) by (apply Z.div_pos; lia).
  destruct (size <? 9); lia.
Qed.

(** ** The extra block *)

Lemma ensure_extra_set (self : ElementObject) (x : ElementObjectExtra) :
  ensure_extra (set_extra self (Some x)) = x.
Proof. reflexivity. Qed.

Lemma PyObject_eqb_None (o : PyObject) :
  PyObject_eqb o Py_None = true <-> o = Py_None.
Proof. destruct o; simpl; split; intros H; congruence. Qed.

(** [element_resize] when the request exceeds the capacity and nothing
    overflows. *)
Lemma element_resize_grows (self : ElementObject) (extra : Z) :
  let x := ensure_extra self in
  let size := ex_length x + extra in
  INT_MIN <= size <= INT_MAX ->
  INT_MIN <= grown size <= INT_MAX ->
  ex_allocated x < size ->
  let capacity := if grown size =? 0 then 1 else grown size in
  element_resize self extra =
  set_extra self
    (Some {| ex_attrib := ex_attrib x; ex_length := ex_length x;
             ex_allocated := capacity;
             ex_children :=
               if ex_static x
               then malloc_children (ex_children x) (ex_length x) capacity
               else realloc_children (ex_children x) capacity;
             ex_static := false |}).
Proof.
  intros x size Hsize Hgrown Hlt. unfold element_resize.
  fold x. rewrite (int_wrap_id (ex_length x + extra)) by exact Hsize. fold size.
  destruct (Z.ltb_spec (ex_allocated x) size) as [_|Hge]; [|lia].
  rewrite shiftr3_div8.
  assert (Hin : INT_MIN <= size / 8 + (if size <? 9 then 3 else 6) <= INT_MAX).
  { unfold INT_MIN, INT_MAX in *.
    assert (- 2 ^ 31 <= size / 8) by (apply Z.div_le_lower_bound; lia).
    assert (size / 8 <= 2 ^ 28) by (apply Z.div_le_upper_bound; lia).
    destruct (size <? 9); lia. }
  rewrite (int_wrap_id _ Hin).
  assert (Hg : size / 8 + (if size <? 9 then 3 else 6) + size = grown size)
    by (unfold grown; lia).
  rewrite Hg, (int_wrap_id _ Hgrown).
  reflexivity.
Qed.

(** C7 -- Child-array growth policy.  Whenever [element_resize] is asked
    for [extra] more slots and the total [size = length + extra] exceeds
    the allocated capacity, the new capacity is
    [size + size/8 + (3 if size < 9 else 6)], replaced by 1 should that be
    0; with a non-negative capacity before, it is that number itself and at
    least 1.  Appending ([element_add_subelement]) and inserting
    ([element_insert]) ask for one more slot and grow by the same rule.
    Sizes are taken within the range of a C [int]. *)
Theorem child_buffer_growth (self : ElementObject) (extra : Z) :
  INT_MIN <= ex_length (ensure_extra self) + extra <= INT_MAX ->
  INT_MIN <= grown (ex_length (ensure_extra self) + extra) <= INT_MAX ->
  ex_allocated (ensure_extra self) < ex_length (ensure_extra self) + extra ->
  let size := ex_length (ensure_extra self) + extra in
  ex_allocated (ensure_extra (element_resize self extra))
  = (if grown size =? 0 then 1 else grown size)
  /\ (0 <= ex_allocated (ensure_extra self) ->
      ex_allocated (ensure_extra (element_resize self extra)) = grown size
      /\ 1 <= grown size)
  /\ (extra = 1 ->
      forall child : PyObject,
        ex_allocated (ensure_extra (element_add_subelement self child))
        = (if grown size =? 0 then 1 else grown size))
  /\ (extra = 1 ->
      forall (index : Z) (child : PyObject),
        INT_MIN <= index <= INT_MAX ->
        Element_CheckExact child = true ->
        ex_allocated (ensure_extra (element_insert self index child).2)
        = (if grown size =? 0 then 1 else grown size)).
Proof.
  intros Hsize Hgrown Hlt size.
  pose proof (element_resize_grows self extra Hsize Hgrown Hlt) as Hres.
  cbv zeta in Hres. fold size in Hres.
  split; [|split; [|split]].
  - rewrite Hres. reflexivity.
  - intros Hnonneg. rewrite Hres. simpl.
    assert (4 <= grown size) by (apply grown_lower; lia).
    destruct (Z.eqb_spec (grown size) 0); lia.
  - intros -> child. unfold element_add_subelement.
    rewrite Hres. reflexivity.
  - intros -> index child Hindex Hchild. unfold element_insert.
    destruct (Z.leb_spec INT_MIN index) as [_|Hbad]; [|lia].
    destruct (Z.leb_spec index INT_MAX) as [_|Hbad]; [|lia].
    rewrite Hchild. simpl negb. cbv iota zeta.
    set (self0 := set_extra self (Some (ensure_extra self))).
    assert (Hx0 : ensure_extra self0 = ensure_extra self) by reflexivity.
    assert (Hsize0 : INT_MIN <= ex_length (ensure_extra self0) + 1 <= INT_MAX)
      by (rewrite Hx0; exact Hsize).
    assert (Hgrown0 : INT_MIN <= grown (ex_length (ensure_extra self0) + 1) <= INT_MAX)
      by (rewrite Hx0; exact Hgrown).
    assert (Hlt0 : ex_allocated (ensure_extra self0) < ex_length (ensure_extra self0) + 1)
      by (rewrite Hx0; exact Hlt).
    pose proof (element_resize_grows self0 1 Hsize0 Hgrown0 Hlt0) as Hres0.
    cbv zeta in Hres0. rewrite Hres0. rewrite Hx0. reflexivity.
Qed.

Lemma child_buffer_growth_witness :
  let self := fold_left element_add_subelement
                [PyElement 1; PyElement 2; PyElement 3; PyElement 4]%nat
                (create_new_element (PyUnicode "root") None) in
  ex_allocated (ensure_extra self) = 4
  /\ ex_allocated (ensure_extra (element_add_subelement self (PyElement 5%nat))) = 8.
Proof.
  split; [reflexivity|].
  refine (proj1 (proj2 (proj2 (child_buffer_growth _ 1 _ _ _))) eq_refl (PyElement 5%nat));
    vm_compute; intuition discriminate.
Defined.

(** ** Attribute storage *)

Lemma PyObject_eqb_refl : forall o : PyObject, PyObject_eqb o o = true.
Proof.
  fix IH 1. intros [ | s | s | n | l | l | l | a]; simpl.
  - reflexivity.
  - apply String.eqb_refl.
  - apply String.eqb_refl.
  - apply Z.eqb_refl.
  - induction l as [|x l IHl]; [reflexivity|]. rewrite IH, IHl. reflexivity.
  - induction l as [|x l IHl]; [reflexivity|]. rewrite IH, IHl. reflexivity.
  - induction l as [|[k v] l IHl]; [reflexivity|]. rewrite !IH, IHl. reflexivity.
  - apply Nat.eqb_refl.
Qed.

Lemma no_attrib_after_set (self : ElementObject) (key value : PyObject) :
  no_attrib (element_set self key value).2 = false.
Proof.
  unfold element_set, element_get_attrib.
  destruct (PyObject_eqb (ex_attrib (ensure_extra self)) Py_None) eqn:Hnone.
  - destruct (PyDict_SetItem (PyDict []) key value) as [attrib'|e] eqn:Hset.
    + unfold PyDict_SetItem in Hset. destruct (hashable key); [|discriminate].
      injection Hset as <-. reflexivity.
    + reflexivity.
  - destruct (PyDict_SetItem (ex_attrib (ensure_extra self)) key value)
      as [attrib'|e] eqn:Hset.
    + unfold PyDict_SetItem in Hset.
      destruct (ex_attrib (ensure_extra self)); try discriminate.
      destruct (hashable key); [|discriminate].
      injection Hset as <-. reflexivity.
    + simpl. unfold no_attrib. simpl. exact Hnone.
Qed.

Lemma queries_without_attrib (self : ElementObject) (key default_value : PyObject) :
  no_attrib self = true ->
  element_get self key default_value = (Ok default_value, self)
  /\ element_items self = (Ok (PyList []), self)
  /\ element_keys self = (Ok (PyList []), self).
Proof.
  intros Hno. unfold element_get, element_items, element_keys.
  unfold no_attrib in Hno.
  destruct (e_extra self) as [x|]; [rewrite Hno|]; auto.
Qed.

(** C8 -- Read-only attribute queries do not allocate.  On an element
    without attribute storage (no extra block, or an extra block whose
    attrib is None), [get(key, default)] returns the default, [items()] and
    [keys()] return empty lists, and each of them leaves the element as it
    was, so that it still has no attribute storage; [set] leaves the
    element with attribute storage, and a [get] of the key just set then
    returns the value. *)
Theorem readonly_queries_do_not_allocate
  (self : ElementObject) (key default_value : PyObject) :
  no_attrib self = true ->
  element_get self key default_value = (Ok default_value, self)
  /\ element_items self = (Ok (PyList []), self)
  /\ element_keys self = (Ok (PyList []), self)
  /\ no_attrib (element_get self key default_value).2 = true
  /\ no_attrib (element_items self).2 = true
  /\ no_attrib (element_keys self).2 = true
  /\ (forall value : PyObject,
        no_attrib (element_set self key value).2 = false
        /\ (hashable key = true ->
            (element_set self key value).1 = Ok Py_None
            /\ (element_get (element_set self key value).2 key default_value).1
               = Ok value)).
Proof.
  intros Hno.
  destruct (queries_without_attrib self key default_value Hno)
    as (Hget & Hitems & Hkeys).
  rewrite Hget, Hitems, Hkeys. simpl.
  repeat split; try assumption.
  - apply no_attrib_after_set.
  - unfold element_set, element_get_attrib.
    assert (Hx : PyObject_eqb (ex_attrib (ensure_extra self)) Py_None = true).
    { unfold no_attrib in Hno. unfold ensure_extra.
      destruct (e_extra self); [exact Hno|reflexivity]. }
    rewrite Hx. unfold PyDict_SetItem. rewrite H. reflexivity.
  - unfold element_set, element_get_attrib.
    assert (Hx : PyObject_eqb (ex_attrib (ensure_extra self)) Py_None = true).
    { unfold no_attrib in Hno. unfold ensure_extra.
      destruct (e_extra self); [exact Hno|reflexivity]. }
    rewrite Hx. unfold PyDict_SetItem. rewrite H. simpl.
    unfold element_get. simpl. rewrite H, PyObject_eqb_refl. reflexivity.
Qed.

Lemma readonly_queries_do_not_allocate_witness :
  let self := create_new_element (PyUnicode "leaf") (Some (PyDict [])) in
  no_attrib self = true
  /\ element_get self (PyUnicode "id") (PyUnicode "none") = (Ok (PyUnicode "none"), self)
  /\ e_extra (element_get self (PyUnicode "id") (PyUnicode "none")).2 = None.
Proof.
  split; [reflexivity|].
  pose proof (readonly_queries_do_not_allocate
                (create_new_element (PyUnicode "leaf") (Some (PyDict [])))
                (PyUnicode "id") (PyUnicode "none") eq_refl) as [Hget _].
  split; [exact Hget|]. cbv zeta. rewrite Hget. reflexivity.
Defined.

(** C9 -- Reading [attrib] materializes storage.  On an element without
    attribute storage, reading the attribute [attrib] returns a new empty
    dictionary and stores an extra block holding it in the element: the
    block the element had with its attrib replaced, or a fresh block (no
    children, [STATIC_CHILDREN] inline slots) when it had none.  After the
    read the element has attribute storage, whereas [get], [items] and
    [keys] leave it without. *)
Theorem attrib_read_materializes
  (h : store) (self : ElementObject) (key default_value : PyObject) :
  no_attrib self = true ->
  element_getattro h self "attrib"
  = (Ok (AttrValue (PyDict [])),
     set_extra self (Some (set_attrib (ensure_extra self) (PyDict []))))
  /\ no_attrib (element_getattro h self "attrib").2 = false
  /\ (e_extra self = None ->
      e_extra (element_getattro h self "attrib").2
      = Some {| ex_attrib := PyDict []; ex_length := 0;
                ex_allocated := STATIC_CHILDREN;
                ex_children := replicate (Z.to_nat STATIC_CHILDREN) None;
                ex_static := true |})
  /\ (element_getattro h self "attrib").2 <> self
  /\ (element_get self key default_value).2 = self
  /\ (element_items self).2 = self
  /\ (element_keys self).2 = self.
Proof.
  intros Hno.
  assert (Hx : PyObject_eqb (ex_attrib (ensure_extra self)) Py_None = true).
  { unfold no_attrib in Hno. unfold ensure_extra.
    destruct (e_extra self); [exact Hno|reflexivity]. }
  assert (Hread : element_getattro h self "attrib"
                  = (Ok (AttrValue (PyDict [])),
                     set_extra self (Some (set_attrib (ensure_extra self) (PyDict []))))).
  { unfold element_getattro. simpl. unfold element_get_attrib. rewrite Hx. reflexivity. }
  destruct (queries_without_attrib self key default_value Hno)
    as (Hget & Hitems & Hkeys).
  rewrite Hread, Hget, Hitems, Hkeys. simpl.
  repeat split.
  - intros Hnone. unfold ensure_extra. rewrite Hnone. reflexivity.
  - intros Heq. apply (f_equal no_attrib) in Heq. rewrite Hno in Heq. discriminate.
Qed.

Lemma attrib_read_materializes_witness :
  let self := create_new_element (PyUnicode "leaf") None in
  e_extra self = None
  /\ (element_getattro ∅ self "attrib").1 = Ok (AttrValue (PyDict []))
  /\ no_attrib (element_getattro ∅ self "attrib").2 = false.
Proof.
  split; [reflexivity|].
  pose proof (attrib_read_materializes ∅
                (create_new_element (PyUnicode "leaf") None) Py_None Py_None eq_refl)
    as (Hread & Hno & _).
  split; [cbv zeta; rewrite Hread; reflexivity|exact Hno].
Defined.

(** ** Join-pending text *)

Lemma PyUnicode_Join_fragments (frags : list string) :
  PyUnicode_Join (PyUnicode <$> frags) = Some (concat_fragments frags).
Proof.
  induction frags as [|s frags IH]; [reflexivity|].
  rewrite fmap_cons. cbn [PyUnicode_Join]. rewrite IH. reflexivity.
Qed.

Lemma list_join_fragments (h : store) (frags : list string) :
  list_join h (PyList (PyUnicode <$> frags))
  = Ok (PyUnicode (concat_fragments frags)).
Proof.
  unfold list_join. simpl. rewrite PyUnicode_Join_fragments. reflexivity.
Qed.

Lemma read_text_untagged (h : store) (e : ElementObject) (v : PyObject) :
  element_get_text h (set_text e (untagged v)) = (Ok v, set_text e (untagged v)).
Proof. reflexivity. Qed.

Lemma read_tail_untagged (h : store) (e : ElementObject) (v : PyObject) :
  element_get_tail h (set_tail e (untagged v)) = (Ok v, set_tail e (untagged v)).
Proof. reflexivity. Qed.

Lemma read_text_times_untagged (h : store) (e : ElementObject) (v : PyObject) (n : nat) :
  read_text_times h n (set_text e (untagged v)) = set_text e (untagged v).
Proof.
  induction n as [|n IH]; [reflexivity|].
  unfold read_text_times in *. simpl. rewrite IH. reflexivity.
Qed.

Lemma read_tail_times_untagged (h : store) (e : ElementObject) (v : PyObject) (n : nat) :
  read_tail_times h n (set_tail e (untagged v)) = set_tail e (untagged v).
Proof.
  induction n as [|n IH]; [reflexivity|].
  unfold read_tail_times in *. simpl. rewrite IH. reflexivity.
Qed.

Lemma getattro_text (h : store) (e : ElementObject) :
  element_getattro h e "text"
  = match element_get_text h e with
    | (Ok res, self) => (Ok (AttrValue res), self)
    | (Raise err, self) => (Raise err, self)
    end.
Proof. reflexivity. Qed.

Lemma getattro_tail (h : store) (e : ElementObject) :
  element_getattro h e "tail"
  = match element_get_tail h e with
    | (Ok res, self) => (Ok (AttrValue res), self)
    | (Raise err, self) => (Raise err, self)
    end.
Proof. reflexivity. Qed.

Lemma read_flagged_text (h : store) (e : ElementObject) (frags : list string) :
  element_get_text h
    (set_text e {| JOIN_OBJ := PyList (PyUnicode <$> frags); JOIN_GET := true |})
  = (Ok (PyUnicode (concat_fragments frags)),
     set_text e (untagged (PyUnicode (concat_fragments frags)))).
Proof.
  unfold element_get_text. simpl e_text. cbv beta iota zeta.
  simpl JOIN_GET. simpl JOIN_OBJ. simpl PyList_CheckExact. cbv iota.
  rewrite list_join_fragments. reflexivity.
Qed.

Lemma read_flagged_tail (h : store) (e : ElementObject) (frags : list string) :
  element_get_tail h
    (set_tail e {| JOIN_OBJ := PyList (PyUnicode <$> frags); JOIN_GET := true |})
  = (Ok (PyUnicode (concat_fragments frags)),
     set_tail e (untagged (PyUnicode (concat_fragments frags)))).
Proof.
  unfold element_get_tail. simpl e_tail. cbv beta iota zeta.
  simpl JOIN_GET. simpl JOIN_OBJ. simpl PyList_CheckExact. cbv iota.
  rewrite list_join_fragments. reflexivity.
Qed.

(** C2 -- Join-pending text.  When the tree builder has stored a list of
    string fragments as the text (or tail) of an element, the first read,
    by [element_get_text] ([element_get_tail]) as by the attribute read
    [element_getattro], returns the concatenation of the fragments and
    leaves that single string, unflagged, in the slot, so that a second
    read returns the same string and changes nothing.  A value assigned to
    [text] or [tail] through [element_setattro], a list included, is
    returned as it is by every later read, however many reads came before,
    and no read changes the element. *)
Theorem join_pending_text
  (h : store) (a : nat) (e : ElementObject) (frags : list string)
  (v : PyObject) (n : nat) :
  h !! a = Some e ->
  let joined := PyUnicode (concat_fragments frags) in
  (exists e1 : ElementObject,
      (treebuilder_set_element_text h (PyElement a) (PyList (PyUnicode <$> frags))).2
        !! a = Some e1
      /\ e_text e1 = {| JOIN_OBJ := PyList (PyUnicode <$> frags); JOIN_GET := true |}
      /\ element_get_text h e1 = (Ok joined, set_text e1 (untagged joined))
      /\ element_getattro h e1 "text"
         = (Ok (AttrValue joined), set_text e1 (untagged joined))
      /\ element_get_text h (element_get_text h e1).2
         = (Ok joined, (element_get_text h e1).2))
  /\ (exists e2 : ElementObject,
      (treebuilder_set_element_tail h (PyElement a) (PyList (PyUnicode <$> frags))).2
        !! a = Some e2
      /\ e_tail e2 = {| JOIN_OBJ := PyList (PyUnicode <$> frags); JOIN_GET := true |}
      /\ element_get_tail h e2 = (Ok joined, set_tail e2 (untagged joined))
      /\ element_getattro h e2 "tail"
         = (Ok (AttrValue joined), set_tail e2 (untagged joined))
      /\ element_get_tail h (element_get_tail h e2).2
         = (Ok joined, (element_get_tail h e2).2))
  /\ (let e' := (element_setattro e "text" v).2 in
      element_get_text h (read_text_times h n e') = (Ok v, e')
      /\ element_getattro h (read_text_times h n e') "text" = (Ok (AttrValue v), e'))
  /\ (let e' := (element_setattro e "tail" v).2 in
      element_get_tail h (read_tail_times h n e') = (Ok v, e')
      /\ element_getattro h (read_tail_times h n e') "tail" = (Ok (AttrValue v), e')).
Proof.
  intros Ha joined. subst joined. split; [|split; [|split]].
  - exists (set_text e {| JOIN_OBJ := PyList (PyUnicode <$> frags); JOIN_GET := true |}).
    split; [|split; [reflexivity|]].
    + simpl. rewrite lookup_alter_eq, Ha. reflexivity.
    + rewrite getattro_text, !read_flagged_text. repeat split; reflexivity.
  - exists (set_tail e {| JOIN_OBJ := PyList (PyUnicode <$> frags); JOIN_GET := true |}).
    split; [|split; [reflexivity|]].
    + simpl. rewrite lookup_alter_eq, Ha. reflexivity.
    + rewrite getattro_tail, !read_flagged_tail. repeat split; reflexivity.
  - cbv zeta. change (element_setattro e "text" v).2 with (set_text e (untagged v)).
    rewrite getattro_text, read_text_times_untagged. split; reflexivity.
  - cbv zeta. change (element_setattro e "tail" v).2 with (set_tail e (untagged v)).
    rewrite getattro_tail, read_tail_times_untagged. split; reflexivity.
Qed.

Lemma join_pending_text_witness :
  let e := create_new_element (PyUnicode "p") None in
  let h : store := {[ 0%nat := e ]} in
  h !! 0%nat = Some e
  /\ element_get_text h
       (read_text_times h 3 (element_setattro e "text" (PyList [PyUnicode "a"; PyUnicode "b"])).2)
     = (Ok (PyList [PyUnicode "a"; PyUnicode "b"]),
        (element_setattro e "text" (PyList [PyUnicode "a"; PyUnicode "b"])).2).
Proof.
  split; [reflexivity|].
  exact (proj1 (proj1 (proj2 (proj2
           (join_pending_text {[ 0%nat := create_new_element (PyUnicode "p") None ]}
              0%nat (create_new_element (PyUnicode "p") None) ["x"; "y"]%string
              (PyList [PyUnicode "a"; PyUnicode "b"]) 3 eq_refl))))).
Defined.

(** ** The flush of pending data *)

Lemma fresh_not_in (h : store) : h !! fresh (dom h) = None.
Proof. apply not_elem_of_dom. apply is_fresh. Qed.

Lemma flush_data_none (self : TreeBuilderObject) (h : store) :
  tb_data self = None -> flush_data self h = (Ok (), self, h).
Proof. intros Hd. unfold flush_data. rewrite Hd. reflexivity. Qed.

Lemma flush_data_element (self : TreeBuilderObject) (h : store)
  (d : PyObject) (a : nat) :
  tb_data self = Some d ->
  tb_last self = PyElement a ->
  flush_data self h
  = (Ok (), set_tb_data self None,
     alter (store_dest
              (if PyObject_eqb (tb_this self) (tb_last self)
               then dest_text else dest_tail)
              (flushed d)) a h).
Proof.
  intros Hd Hl. unfold flush_data. rewrite Hd.
  destruct (PyObject_eqb (tb_this self) (tb_last self)); rewrite Hl; reflexivity.
Qed.

Lemma set_tb_data_same (self : TreeBuilderObject) :
  set_tb_data self (tb_data self) = self.
Proof. destruct self; reflexivity. Qed.

(** In the states a builder goes through the flush never fails; it leaves
    the builder with an empty accumulator and changes the store at most in
    the text or tail of [last]. *)
Lemma flush_data_ok (self : TreeBuilderObject) (h : store) :
  builder_ok self = true ->
  exists h1 : store,
    flush_data self h = (Ok (), set_tb_data self None, h1)
    /\ (h1 = h
        \/ exists (a : nat) (dst : dest) (t : tagged),
             tb_last self = PyElement a /\ h1 = alter (store_dest dst t) a h).
Proof.
  intros Hok. unfold builder_ok in Hok.
  destruct (tb_data self) as [d|] eqn:Hd.
  - destruct (tb_last self) as [ | | | | | | | a] eqn:Hl; try discriminate.
    exists (alter (store_dest
                     (if PyObject_eqb (tb_this self) (tb_last self)
                      then dest_text else dest_tail) (flushed d)) a h).
    split.
    + rewrite (flush_data_element self h d a Hd Hl). reflexivity.
    + right. eexists _, _, _. rewrite Hl. split; reflexivity.
  - exists h. split; [|left; reflexivity].
    rewrite (flush_data_none self h Hd).
    pose proof (set_tb_data_same self) as Hsame. rewrite Hd in Hsame.
    rewrite Hsame. reflexivity.
Qed.


Lemma add_position_text (e : ElementObject) (end_ : bool) (line col pos : Z) :
  e_text (element_add_position e end_ line col pos) = e_text e
  /\ e_tail (element_add_position e end_ line col pos) = e_tail e.
Proof. destruct end_; split; reflexivity. Qed.

Lemma add_subelement_text (e : ElementObject) (child : PyObject) :
  e_text (element_add_subelement e child) = e_text e
  /\ e_tail (element_add_subelement e child) = e_tail e.
Proof.
  unfold element_add_subelement, element_resize.
  destruct (ex_allocated (ensure_extra e) <? int_wrap (ex_length (ensure_extra e) + 1));
    split; reflexivity.
Qed.

#[local] Arguments element_add_subelement : simpl never.
#[local] Arguments element_add_position : simpl never.
#[local] Arguments create_new_element : simpl never.

(** What [treebuilder_handle_start] does to an element that was in the
    store after the flush: it stays, with the same text and tail. *)
Lemma handle_start_keeps_text (self : TreeBuilderObject) (h : store)
  (tag attrib : PyObject) (line col pos : Z) (h1 : store) (self1 : TreeBuilderObject)
  (a : nat) (e1 : ElementObject) :
  flush_data self h = (Ok (), self1, h1) ->
  h1 !! a = Some e1 ->
  exists e' : ElementObject,
    (treebuilder_handle_start self h tag attrib line col pos).2 !! a = Some e'
    /\ e_text e' = e_text e1 /\ e_tail e' = e_tail e1.
Proof.
  intros Hflush Ha. unfold treebuilder_handle_start. rewrite Hflush.
  assert (Hne : fresh (dom h1) <> a).
  { intros Heq. rewrite <- Heq, fresh_not_in in Ha. discriminate. }
  set (a' := fresh (dom h1)) in *.
  set (node := element_add_position (create_new_element tag (Some attrib)) false line col pos).
  assert (Hins : <[a' := node]> h1 !! a = Some e1)
    by (rewrite lookup_insert_ne by exact Hne; exact Ha).
  destruct (PyObject_eqb (tb_this self1) Py_None) eqn:Hthis; simpl negb; cbv iota.
  - destruct (tb_root self1) as [r|].
    + exists e1. simpl. rewrite lookup_delete_ne by exact Hne. auto.
    + exists e1. simpl. auto.
  - unfold treebuilder_add_subelement.
    destruct (tb_this self1) as [ | | | | | | | b] eqn:Hb;
      try (exists e1; simpl; rewrite lookup_delete_ne by exact Hne; auto; fail).
    simpl. destruct (decide (b = a)) as [->|Hba].
    + exists (element_add_subelement e1 (PyElement a')).
      rewrite lookup_alter_eq, Hins. simpl.
      split; [reflexivity|exact (add_subelement_text e1 (PyElement a'))].
    + exists e1. rewrite lookup_alter_ne by exact Hba. auto.
Qed.

(** The same for [treebuilder_handle_end]. *)
Lemma handle_end_keeps_text (self : TreeBuilderObject) (h : store)
  (tag : PyObject) (line col pos : Z) (h1 : store) (self1 : TreeBuilderObject)
  (a : nat) (e1 : ElementObject) :
  flush_data self h = (Ok (), self1, h1) ->
  h1 !! a = Some e1 ->
  exists e' : ElementObject,
    (treebuilder_handle_end self h tag line col pos).2 !! a = Some e'
    /\ e_text e' = e_text e1 /\ e_tail e' = e_tail e1.
Proof.
  intros Hflush Ha. unfold treebuilder_handle_end. rewrite Hflush.
  destruct (tb_index self1 =? 0); [exists e1; auto|].
  simpl. destruct (tb_this self1) as [ | | | | | | | b] eqn:Hb;
    try (destruct (tb_end_event_obj self1); exists e1; simpl; auto; fail).
  destruct (decide (b = a)) as [->|Hba].
  - exists (element_add_position e1 true line col pos).
    destruct (tb_end_event_obj self1); simpl;
      rewrite lookup_alter_eq, Ha; simpl;
      (split; [reflexivity|exact (add_position_text e1 true line col pos)]).
  - exists e1.
    destruct (tb_end_event_obj self1); simpl;
      rewrite lookup_alter_ne by exact Hba; auto.
Qed.

Lemma handle_start_data (self : TreeBuilderObject) (h : store)
  (tag attrib : PyObject) (line col pos : Z) (h1 : store) (self1 : TreeBuilderObject) :
  flush_data self h = (Ok (), self1, h1) ->
  tb_data (treebuilder_handle_start self h tag attrib line col pos).1.2 = tb_data self1.
Proof.
  intros Hflush. unfold treebuilder_handle_start. rewrite Hflush.
  destruct (PyObject_eqb (tb_this self1) Py_None); simpl negb; cbv iota.
  - destruct (tb_root self1); simpl; [reflexivity|].
    destruct (tb_start_event_obj self1); [|reflexivity].
    unfold append_event. simpl. destruct (tb_events self1); reflexivity.
  - destruct (treebuilder_add_subelement (<[fresh (dom h1):=_]> h1) (tb_this self1) _)
      as [[u|e] h2]; simpl; [|reflexivity].
    destruct (tb_start_event_obj self1); [|reflexivity].
    unfold append_event. simpl. destruct (tb_events self1); reflexivity.
Qed.

Lemma handle_end_data (self : TreeBuilderObject) (h : store)
  (tag : PyObject) (line col pos : Z) (h1 : store) (self1 : TreeBuilderObject) :
  flush_data self h = (Ok (), self1, h1) ->
  tb_data (treebuilder_handle_end self h tag line col pos).1.2 = tb_data self1.
Proof.
  intros Hflush. unfold treebuilder_handle_end. rewrite Hflush.
  destruct (tb_index self1 =? 0); [reflexivity|]. simpl.
  destruct (tb_end_event_obj self1); [|reflexivity].
  unfold append_event. simpl. destruct (tb_events self1); reflexivity.
Qed.

(** C1 -- TreeBuilder flush rule.  In a builder state with pending data
    [d] whose [last] is an element of the store, both a start and an end
    transition leave the accumulator empty and leave the pending data,
    flagged for joining when it is a list, in the text of [last] when
    [this == last] (the tail being as before), and in the tail of [last]
    otherwise (the text being as before). *)
Theorem flush_rule (self : TreeBuilderObject) (h : store) (d : PyObject)
  (a : nat) (e : ElementObject) (tag attrib : PyObject) (line col pos : Z) :
  tb_data self = Some d ->
  tb_last self = PyElement a ->
  h !! a = Some e ->
  let after_start := treebuilder_handle_start self h tag attrib line col pos in
  let after_end := treebuilder_handle_end self h tag line col pos in
  (tb_data after_start.1.2 = None
   /\ exists e' : ElementObject,
        after_start.2 !! a = Some e'
        /\ if PyObject_eqb (tb_this self) (tb_last self)
           then e_text e' = flushed d /\ e_tail e' = e_tail e
           else e_tail e' = flushed d /\ e_text e' = e_text e)
  /\ (tb_data after_end.1.2 = None
      /\ exists e' : ElementObject,
           after_end.2 !! a = Some e'
           /\ if PyObject_eqb (tb_this self) (tb_last self)
              then e_text e' = flushed d /\ e_tail e' = e_tail e
              else e_tail e' = flushed d /\ e_text e' = e_text e).
Proof.
  intros Hd Hl Ha after_start after_end.
  pose proof (flush_data_element self h d a Hd Hl) as Hflush.
  set (dst := if PyObject_eqb (tb_this self) (tb_last self)
              then dest_text else dest_tail) in *.
  assert (H1 : alter (store_dest dst (flushed d)) a h !! a
               = Some (store_dest dst (flushed d) e))
    by (rewrite lookup_alter_eq, Ha; reflexivity).
  split.
  - split.
    + subst after_start. rewrite (handle_start_data _ _ _ _ _ _ _ _ _ Hflush). reflexivity.
    + destruct (handle_start_keeps_text self h tag attrib line col pos _ _ a _ Hflush H1)
        as (e' & He' & Htext & Htail).
      exists e'. split; [exact He'|].
      rewrite Htext, Htail. subst dst.
      destruct (PyObject_eqb (tb_this self) (tb_last self)); split; reflexivity.
  - split.
    + subst after_end. rewrite (handle_end_data _ _ _ _ _ _ _ _ Hflush). reflexivity.
    + destruct (handle_end_keeps_text self h tag line col pos _ _ a _ Hflush H1)
        as (e' & He' & Htext & Htail).
      exists e'. split; [exact He'|].
      rewrite Htext, Htail. subst dst.
      destruct (PyObject_eqb (tb_this self) (tb_last self)); split; reflexivity.
Qed.

Lemma flush_rule_witness :
  let s := run [Start (PyUnicode "a") (PyDict []); Data (PyUnicode "hi")]
               (treebuilder_new, ∅, []) in
  tb_data s.1.1 = Some (PyUnicode "hi")
  /\ tb_last s.1.1 = PyElement 0%nat
  /\ tb_data (treebuilder_handle_end s.1.1 s.1.2 Py_None 1 0 9).1.2 = None.
Proof.
  split; [reflexivity|]. split; [reflexivity|].
  cbv zeta.
  set (s := run [Start (PyUnicode "a") (PyDict []); Data (PyUnicode "hi")]
                (treebuilder_new, ∅, [])).
  assert (Hlook : exists e, s.1.2 !! 0%nat = Some e) by (vm_compute; eauto).
  destruct Hlook as [e He].
  exact (proj1 (proj2 (flush_rule s.1.1 s.1.2 (PyUnicode "hi") 0%nat e
                         Py_None Py_None 1 0 9 eq_refl eq_refl He))).
Defined.

(** ** Start and end transitions *)




(** C10 -- [end] ignores its tag argument.  [treebuilder_handle_end] gives
    the same outcome whatever tag it is passed.  With a non-empty stack of
    open elements, in a state satisfying [builder_ok], it returns the
    element that was current, makes it [last],
    decrements the index and makes the popped stack entry current.  The
    parser's [expat_end_handler], when the target is the built-in tree
    builder, passes [Py_None] as the tag, whatever name expat reports. *)
Theorem end_ignores_tag (self : TreeBuilderObject) (h : store)
  (t t' : PyObject) (line col pos : Z) :
  builder_ok self = true ->
  tb_index self <> 0 ->
  let after := treebuilder_handle_end self h t line col pos in
  treebuilder_handle_end self h t' line col pos = after
  /\ treebuilder_end self h t = treebuilder_end self h t'
  /\ after.1.1 = Ok (tb_this self)
  /\ tb_last after.1.2 = tb_this self
  /\ tb_index after.1.2 = tb_index self - 1
  /\ (forall item : PyObject,
        buf_get (tb_stack self) (tb_index self - 1) = Some item ->
        tb_this after.1.2 = item)
  /\ (forall (w : world) (tb : TreeBuilderObject) (tag_in : string),
        xp_target (w_self w) = TargetTreeBuilder tb ->
        let ended :=
          treebuilder_handle_end tb (w_store w) Py_None
            (XML_GetCurrentLineNumber (xp_parser (w_self w)))
            (XML_GetCurrentColumnNumber (xp_parser (w_self w)))
            (XML_GetCurrentByteIndex (xp_parser (w_self w))) in
        xp_target (w_self (expat_end_handler w tag_in)) = TargetTreeBuilder ended.1.2
        /\ w_store (expat_end_handler w tag_in) = ended.2
        /\ w_err (expat_end_handler w tag_in) = after_call ended.1.1 (w_err w)).
Proof.
  intros Hok Hindex after.
  destruct (flush_data_ok self h Hok) as (h1 & Hflush & _).
  split; [reflexivity|]. split; [reflexivity|].
  assert (Hz : (tb_index self =? 0) = false) by (apply Z.eqb_neq; exact Hindex).
  assert (Hparser :
    forall (w : world) (tb : TreeBuilderObject) (tag_in : string),
      xp_target (w_self w) = TargetTreeBuilder tb ->
      let ended :=
        treebuilder_handle_end tb (w_store w) Py_None
          (XML_GetCurrentLineNumber (xp_parser (w_self w)))
          (XML_GetCurrentColumnNumber (xp_parser (w_self w)))
          (XML_GetCurrentByteIndex (xp_parser (w_self w))) in
      xp_target (w_self (expat_end_handler w tag_in)) = TargetTreeBuilder ended.1.2
      /\ w_store (expat_end_handler w tag_in) = ended.2
      /\ w_err (expat_end_handler w tag_in) = after_call ended.1.1 (w_err w)).
  { intros w tb tag_in Ht ended. unfold expat_end_handler. rewrite Ht.
    subst ended.
    destruct (treebuilder_handle_end tb (w_store w) Py_None _ _ _) as [[res tb'] h'].
    repeat split; reflexivity. }
  subst after. unfold treebuilder_handle_end. rewrite Hflush. simpl tb_index.
  rewrite Hz. simpl.
  repeat split; try (apply Hparser; assumption).
  - destruct (tb_end_event_obj self); [|reflexivity].
    unfold append_event. simpl. destruct (tb_events self); reflexivity.
  - destruct (tb_end_event_obj self); [|reflexivity].
    unfold append_event. simpl. destruct (tb_events self); reflexivity.
  - destruct (tb_end_event_obj self); [|reflexivity].
    unfold append_event. simpl. destruct (tb_events self); reflexivity.
  - intros item Hitem. rewrite Hitem.
    destruct (tb_end_event_obj self); [|reflexivity].
    unfold append_event. simpl. destruct (tb_events self); reflexivity.
Qed.

Lemma end_ignores_tag_witness :
  let s := run [Start (PyUnicode "a") (PyDict [])] (treebuilder_new, ∅, []) in
  builder_ok s.1.1 = true
  /\ tb_index s.1.1 <> 0
  /\ (treebuilder_handle_end s.1.1 s.1.2 (PyUnicode "mismatch") 1 3 5).1.1
     = Ok (PyElement 0%nat).
Proof.
  split; [reflexivity|]. split; [vm_compute; discriminate|].
  cbv zeta.
  set (s := run [Start (PyUnicode "a") (PyDict [])] (treebuilder_new, ∅, [])).
  assert (Hindex : tb_index s.1.1 <> 0) by (vm_compute; discriminate).
  exact (proj1 (proj2 (proj2 (end_ignores_tag s.1.1 s.1.2 (PyUnicode "mismatch") Py_None
                                1 3 5 eq_refl Hindex)))).
Defined.

(** ** Data fragments *)














Lemma step_data (self : TreeBuilderObject) (h : store)
  (out : list (result PyObject)) (d : PyObject) :
  step (self, h, out) (Data d)
  = ((treebuilder_handle_data self d false).2, h,
     out ++ [(treebuilder_handle_data self d false).1]).
Proof.
  unfold step, treebuilder_data.
  destruct (treebuilder_handle_data self d false); reflexivity.
Qed.

Lemma step_end (self : TreeBuilderObject) (h : store)
  (out : list (result PyObject)) (tag : PyObject) :
  step (self, h, out) (End tag)
  = ((treebuilder_handle_end self h tag (-1) (-1) (-1)).1.2,
     (treebuilder_handle_end self h tag (-1) (-1) (-1)).2,
     out ++ [(treebuilder_handle_end self h tag (-1) (-1) (-1)).1.1]).
Proof.
  unfold step, treebuilder_end.
  destruct (treebuilder_handle_end self h tag (-1) (-1) (-1)) as [[r tb] h'].
  reflexivity.
Qed.



(** ** Reachable builder states *)

Lemma forallb_list_insert {A} (f : A -> bool) (l : list A) (i : nat) (x : A) :
  forallb f l = true -> f x = true -> forallb f (<[i := x]> l) = true.
Proof.
  revert i. induction l as [|y l IH]; intros i Hl Hx; [reflexivity|].
  simpl in Hl. apply andb_true_iff in Hl as [Hy Hl].
  destruct i as [|i]; simpl.
  - rewrite Hx, Hl. reflexivity.
  - rewrite Hy, (IH i Hl Hx). reflexivity.
Qed.

Lemma forallb_lookup {A} (f : A -> bool) (l : list A) (i : nat) (x : A) :
  forallb f l = true -> l !! i = Some x -> f x = true.
Proof.
  revert i. induction l as [|y l IH]; intros i Hl Hi; [discriminate|].
  simpl in Hl. apply andb_true_iff in Hl as [Hy Hl].
  destruct i as [|i]; simpl in Hi.
  - injection Hi as <-. exact Hy.
  - exact (IH i Hl Hi).
Qed.

Lemma buf_set_ok (stack : list (option PyObject)) (i : Z) (p : PyObject) :
  forallb slot_ok stack = true -> is_node p = true ->
  forallb slot_ok (buf_set stack i (Some p)) = true.
Proof.
  intros Hs Hp. unfold buf_set. destruct (i <? 0); [exact Hs|].
  apply forallb_list_insert; assumption.
Qed.

Lemma buf_get_ok (stack : list (option PyObject)) (i : Z) :
  forallb slot_ok stack = true ->
  is_node (default Py_None (buf_get stack i)) = true.
Proof.
  intros Hs. unfold buf_get. destruct (i <? 0); [reflexivity|].
  destruct (stack !! Z.to_nat i) as [[p|]|] eqn:Hi; try reflexivity.
  exact (forallb_lookup slot_ok stack _ _ Hs Hi).
Qed.

Lemma builder_inv_intro (self : TreeBuilderObject) :
  builder_ok self = true -> is_node (tb_this self) = true ->
  forallb slot_ok (tb_stack self) = true -> builder_inv self = true.
Proof.
  intros H1 H2 H3. unfold builder_inv. rewrite H1, H2, H3. reflexivity.
Qed.

Lemma builder_inv_elim (self : TreeBuilderObject) :
  builder_inv self = true ->
  builder_ok self = true /\ is_node (tb_this self) = true
  /\ forallb slot_ok (tb_stack self) = true.
Proof.
  unfold builder_inv. intros H.
  apply andb_true_iff in H as [H H3]. apply andb_true_iff in H as [H1 H2]. auto.
Qed.

Lemma append_event_inv (self : TreeBuilderObject) (ev : PyObject) :
  builder_inv (append_event self ev) = builder_inv self.
Proof. unfold append_event. destruct (tb_events self); reflexivity. Qed.

Lemma handle_start_inv (self : TreeBuilderObject) (h : store)
  (tag attrib : PyObject) (line col pos : Z) :
  builder_inv self = true ->
  builder_inv (treebuilder_handle_start self h tag attrib line col pos).1.2 = true.
Proof.
  intros Hinv. destruct (builder_inv_elim self Hinv) as (Hok & Hthis & Hstack).
  destruct (flush_data_ok self h Hok) as (h1 & Hflush & _).
  unfold treebuilder_handle_start. rewrite Hflush. simpl tb_this.
  assert (Hflushed : builder_inv (set_tb_data self None) = true).
  { apply builder_inv_intro; [|exact Hthis|exact Hstack].
    unfold builder_ok in *. simpl. destruct (tb_last self); congruence. }
  assert (Hpushed : forall (s : TreeBuilderObject) (node : nat),
             tb_stack s = tb_stack self -> tb_index s = tb_index self ->
             builder_inv
               (set_tb_cursor s
                  (if tb_index s <? Z.of_nat (length (tb_stack s))
                   then buf_set (tb_stack s) (tb_index s) (Some (tb_this self))
                   else tb_stack s ++ [Some (tb_this self)])
                  (tb_index s + 1) (PyElement node) (PyElement node)) = true).
  { intros s node Hs Hi. apply builder_inv_intro; [reflexivity|reflexivity|].
    simpl. rewrite Hs, Hi. destruct (tb_index self <? _).
    - apply buf_set_ok; assumption.
    - rewrite forallb_app, Hstack. simpl. rewrite Hthis. reflexivity. }
  destruct (tb_this self) as [ | | | | | | | b] eqn:Hb; try discriminate; simpl.
  - destruct (tb_root self) as [r|]; simpl; [exact Hflushed|].
    destruct (tb_start_event_obj self); [rewrite append_event_inv|];
      apply (Hpushed (set_tb_root (set_tb_data self None) _)); reflexivity.
  - destruct (tb_start_event_obj self); [rewrite append_event_inv|];
      apply (Hpushed (set_tb_data self None)); reflexivity.
Qed.

Lemma handle_data_inv (self : TreeBuilderObject) (d : PyObject) (rc : bool) :
  builder_inv self = true ->
  builder_inv (treebuilder_handle_data self d rc).2 = true.
Proof.
  intros Hinv. destruct (builder_inv_elim self Hinv) as (Hok & Hthis & Hstack).
  assert (Hset : forall x : option PyObject,
             (exists a : nat, tb_last self = PyElement a) ->
             builder_inv (set_tb_data self x) = true).
  { intros x [a Ha]. apply builder_inv_intro; [|exact Hthis|exact Hstack].
    unfold builder_ok. simpl. rewrite Ha. reflexivity. }
  unfold treebuilder_handle_data. unfold builder_ok in Hok.
  destruct (tb_data self) as [pending|] eqn:Hd.
  - assert (Hl : exists a : nat, tb_last self = PyElement a)
      by (destruct (tb_last self); try discriminate; eauto).
    destruct pending, d; try destruct (rc && _); simpl; apply Hset; exact Hl.
  - destruct (tb_last self) as [ | | | | | | | a] eqn:Hl; try discriminate; simpl.
    + exact Hinv.
    + apply Hset. eauto.
Qed.

Lemma handle_end_inv (self : TreeBuilderObject) (h : store)
  (tag : PyObject) (line col pos : Z) :
  builder_inv self = true ->
  builder_inv (treebuilder_handle_end self h tag line col pos).1.2 = true.
Proof.
  intros Hinv. destruct (builder_inv_elim self Hinv) as (Hok & Hthis & Hstack).
  destruct (flush_data_ok self h Hok) as (h1 & Hflush & _).
  unfold treebuilder_handle_end. rewrite Hflush. simpl tb_index.
  assert (Hflushed : builder_inv (set_tb_data self None) = true).
  { apply builder_inv_intro; [|exact Hthis|exact Hstack].
    unfold builder_ok in *. simpl. destruct (tb_last self); congruence. }
  destruct (tb_index self =? 0); [exact Hflushed|]. simpl.
  assert (Hpopped :
    builder_inv
      (set_tb_cursor (set_tb_data self None) (tb_stack self) (tb_index self - 1)
         (default Py_None (buf_get (tb_stack self) (tb_index self - 1)))
         (tb_this self)) = true).
  { apply builder_inv_intro; simpl; [|apply buf_get_ok; exact Hstack|exact Hstack].
    unfold builder_ok. simpl. destruct (tb_this self); try discriminate; reflexivity. }
  destruct (tb_end_event_obj self); [rewrite append_event_inv|]; exact Hpopped.
Qed.

(** Every state a builder reaches from [treebuilder_new] satisfies the
    invariant, hence [builder_ok]. *)
Lemma builder_inv_run (calls : list call) (s : session) :
  builder_inv s.1.1 = true -> builder_inv (run calls s).1.1 = true.
Proof.
  revert s. induction calls as [|c calls IH]; intros s Hs; [exact Hs|].
  unfold run. cbn [fold_left]. apply IH.
  destruct s as [[self h] out]. destruct c as [tag attrib|d|tag]; simpl.
  - unfold treebuilder_start.
    pose proof (handle_start_inv self h tag attrib (-1) (-1) (-1) Hs) as H.
    destruct (treebuilder_handle_start self h tag attrib (-1) (-1) (-1)) as [[r tb] h'].
    exact H.
  - unfold treebuilder_data.
    pose proof (handle_data_inv self d false Hs) as H.
    destruct (treebuilder_handle_data self d false) as [r tb]. exact H.
  - unfold treebuilder_end.
    pose proof (handle_end_inv self h tag (-1) (-1) (-1) Hs) as H.
    destruct (treebuilder_handle_end self h tag (-1) (-1) (-1)) as [[r tb] h'].
    exact H.
Qed.

Lemma builder_ok_reachable (calls : list call) (h : store)
  (out : list (result PyObject)) :
  builder_ok (run calls (treebuilder_new, h, out)).1.1 = true.
Proof.
  apply builder_inv_elim. apply builder_inv_run. reflexivity.
Qed.

(** ** Undefined entities *)

Lemma string_cons_append (c : Ascii.ascii) (s t : string) :
  String c s +:+ t = String c (s +:+ t).
Proof. reflexivity. Qed.

Lemma string_length_append (s t : string) :
  String.length (s +:+ t) = (String.length s + String.length t)%nat.
Proof.
  induction s as [|c s IH]; [reflexivity|].
  rewrite string_cons_append. simpl. rewrite IH. reflexivity.
Qed.

Lemma substring_prefix (s t : string) :
  String.substring 0 (String.length s) (s +:+ t) = s.
Proof.
  induction s as [|c s IH].
  - simpl. destruct t; reflexivity.
  - rewrite string_cons_append. simpl. rewrite IH. reflexivity.
Qed.












(** ** The child buffer *)

Lemma buf_set_length (b : list (option PyObject)) (i : Z) (v : option PyObject) :
  length (buf_set b i v) = length b.
Proof. unfold buf_set. destruct (i <? 0); [reflexivity|apply length_insert]. Qed.

Lemma buf_get_set (b : list (option PyObject)) (i j : Z) (v : option PyObject) :
  0 <= i < Z.of_nat (length b) ->
  buf_get (buf_set b i v) j = if j =? i then v else buf_get b j.
Proof.
  intros Hi. unfold buf_get, buf_set.
  destruct (Z.ltb_spec i 0) as [Hneg|_]; [lia|].
  destruct (Z.eqb_spec j i) as [->|Hne].
  - destruct (Z.ltb_spec i 0) as [Hneg|_]; [lia|].
    rewrite list_lookup_insert_eq by lia. reflexivity.
  - destruct (Z.ltb_spec j 0) as [_|Hj]; [reflexivity|].
    rewrite list_lookup_insert_ne by lia. reflexivity.
Qed.

Lemma buf_lookup (b : list (option PyObject)) (k : nat) :
  (k < length b)%nat -> b !! k = Some (buf_get b (Z.of_nat k)).
Proof.
  intros Hk. unfold buf_get.
  destruct (Z.ltb_spec (Z.of_nat k) 0) as [Hneg|_]; [lia|].
  rewrite Nat2Z.id.
  destruct (lookup_lt_is_Some_2 b k Hk) as [v Hv]. rewrite Hv. reflexivity.
Qed.

Ltac case_cmp :=
  repeat match goal with
    | |- context [Z.ltb ?a ?b] => destruct (Z.ltb_spec a b)
    | |- context [Z.leb ?a ?b] => destruct (Z.leb_spec a b)
    | |- context [Z.eqb ?a ?b] => destruct (Z.eqb_spec a b)
    end.

(** The descending copy loop shifts a block up by [d] slots. *)
Lemma move_descending_spec (n : nat) :
  forall (b : list (option PyObject)) (i d : Z),
    0 < d ->
    Z.of_nat n <= i + 1 ->
    i + d < Z.of_nat (length b) ->
    length (move_descending b i n d) = length b
    /\ forall j : Z,
         buf_get (move_descending b i n d) j
         = if (i - Z.of_nat n + d <? j) && (j <=? i + d)
           then buf_get b (j - d) else buf_get b j.
Proof.
  induction n as [|n IH]; intros b i d Hd Hn Hi.
  - split; [reflexivity|]. intros j. cbn [move_descending].
    case_cmp; simpl; try reflexivity; lia.
  - cbn [move_descending].
    destruct (IH (buf_set b (i + d) (buf_get b i)) (i - 1) d Hd) as [Hlen Hget].
    { lia. }
    { rewrite buf_set_length. lia. }
    rewrite buf_set_length in Hlen. split; [exact Hlen|].
    intros j. rewrite Hget. rewrite !buf_get_set by lia.
    case_cmp; simpl; try reflexivity; try lia; f_equal; lia.
Qed.

(** The ascending copy loop shifts a block down by [-d] slots. *)
Lemma move_ascending_spec (n : nat) :
  forall (b : list (option PyObject)) (i d : Z),
    d < 0 ->
    0 <= i + d ->
    i + Z.of_nat n <= Z.of_nat (length b) ->
    length (move_ascending b i n d) = length b
    /\ forall j : Z,
         buf_get (move_ascending b i n d) j
         = if (i + d <=? j) && (j <? i + Z.of_nat n + d)
           then buf_get b (j - d) else buf_get b j.
Proof.
  induction n as [|n IH]; intros b i d Hd Hlo Hhi.
  - split; [reflexivity|]. intros j. cbn [move_ascending].
    case_cmp; simpl; try reflexivity; lia.
  - cbn [move_ascending].
    destruct (IH (buf_set b (i + d) (buf_get b i)) (i + 1) d Hd) as [Hlen Hget].
    { lia. }
    { rewrite buf_set_length. lia. }
    rewrite buf_set_length in Hlen. split; [exact Hlen|].
    intros j. rewrite Hget. rewrite !buf_get_set by lia.
    case_cmp; simpl; try reflexivity; try lia; f_equal; lia.
Qed.


Lemma grown_ge (size : Z) : 0 <= size -> size + 3 <= grown size.
Proof.
  intros Hs. unfold grown.
  assert (0 <= size / 8) by (apply Z.div_pos; lia).
  destruct (size <? 9); lia.
Qed.

Lemma grown_mono (a b : Z) : a <= b -> grown a <= grown b.
Proof.
  intros Hab. unfold grown.
  assert (a / 8 <= b / 8) by (apply Z.div_le_mono; lia).
  case_cmp; lia.
Qed.

Lemma new_extra_wf (attrib : option PyObject) : extra_wf (new_extra attrib).
Proof. unfold extra_wf. simpl. unfold STATIC_CHILDREN. lia. Qed.

(** [element_resize] on a well-formed block, within the range of [int]:
    the block stays well-formed, has room for the request, and keeps its
    children. *)
Lemma element_resize_spec (self : ElementObject) (extra : Z) :
  let x := ensure_extra self in
  let x' := ensure_extra (element_resize self extra) in
  extra_wf x ->
  0 <= extra ->
  grown (ex_length x + extra) <= INT_MAX ->
  e_extra (element_resize self extra) = Some x'
  /\ ex_length x' = ex_length x
  /\ ex_attrib x' = ex_attrib x
  /\ extra_wf x'
  /\ ex_length x + extra <= ex_allocated x'
  /\ forall j : Z,
       0 <= j < ex_length x ->
       buf_get (ex_children x') j = buf_get (ex_children x) j.
Proof.
  intros x x' [[Hlen0 Hlen] Hbuf] Hextra Hbound. subst x'.
  pose proof (grown_ge (ex_length x + extra) ltac:(lia)) as Hge.
  destruct (Z.lt_ge_cases (ex_allocated x) (ex_length x + extra)) as [Hlt|Hfit].
  - assert (Hsize : INT_MIN <= ex_length x + extra <= INT_MAX)
      by (unfold INT_MIN, INT_MAX in *; lia).
    assert (Hgrown : INT_MIN <= grown (ex_length x + extra) <= INT_MAX)
      by (unfold INT_MIN, INT_MAX in *; lia).
    pose proof (element_resize_grows self extra Hsize Hgrown Hlt) as Hres.
    cbv zeta in Hres. fold x in Hres. rewrite Hres.
    destruct (Z.eqb_spec (grown (ex_length x + extra)) 0) as [Hz|_]; [lia|].
    set (g := grown (ex_length x + extra)) in *.
    cbn [e_extra set_extra ensure_extra ex_length ex_attrib ex_allocated ex_children].
    split; [reflexivity|]. split; [reflexivity|]. split; [reflexivity|].
    assert (Htake : length (take (Z.to_nat (ex_length x)) (ex_children x))
                    = Z.to_nat (ex_length x))
      by (rewrite length_take; lia).
    split; [|split; [lia|]].
    + unfold extra_wf. cbn [ex_length ex_allocated ex_children].
      split; [lia|].
      destruct (ex_static x).
      * unfold malloc_children. rewrite length_app, length_replicate, length_take, Htake.
        lia.
      * unfold realloc_children. rewrite length_app, length_replicate, length_take.
        lia.
    + intros j Hj. unfold buf_get.
      destruct (Z.ltb_spec j 0) as [Hneg|_]; [lia|]. f_equal.
      destruct (ex_static x).
      * unfold malloc_children.
        rewrite lookup_app_l by (rewrite length_take, Htake; lia).
        rewrite !lookup_take_lt by lia. reflexivity.
      * unfold realloc_children.
        rewrite lookup_app_l by (rewrite length_take; lia).
        rewrite lookup_take_lt by lia. reflexivity.
  - unfold element_resize. fold x.
    assert (Hsize : INT_MIN <= ex_length x + extra <= INT_MAX)
      by (unfold INT_MIN, INT_MAX in *; lia).
    rewrite (int_wrap_id _ Hsize).
    destruct (Z.ltb_spec (ex_allocated x) (ex_length x + extra)) as [Hlt|_]; [lia|].
    cbn [e_extra set_extra ensure_extra].
    repeat split; try reflexivity; try lia; exact Hbuf.
Qed.

(** What [PySlice_GetIndicesEx] yields for a step of 1. *)
Lemma slice_indices_step1 (start stop step : option Z) (len s0 s1 st L : Z) :
  0 <= len ->
  PySlice_GetIndicesEx start stop step len = Ok (s0, s1, st, L) ->
  st = 1 ->
  0 <= s0 <= len /\ 0 <= s1 <= len
  /\ L = (if s1 <=? s0 then 0 else s1 - s0).
Proof.
  intros Hlen Hidx ->. unfold PySlice_GetIndicesEx in Hidx.
  set (step' := match step with
                | Some s => Z.max (- PY_SSIZE_T_MAX) (slice_index s)
                | None => 1
                end) in *.
  destruct (Z.eqb_spec step' 0) as [|Hnz]; [discriminate|].
  injection Hidx as Hs0 Hs1 Hst HL. rewrite Hst in *. clear Hst.
  change (1 <? 0) with false in *. change (0 <? 1) with true in *.
  cbn [andb orb] in *.
  assert (Hclip : forall v : Z,
             0 <= (let v0 := slice_index v in
                   let v1 := if v0 <? 0 then v0 + len else v0 in
                   let v2 := if v1 <? 0 then 0 else v1 in
                   if len <=? v2 then len else v2) <= len).
  { intros v. cbv zeta. case_cmp; lia. }
  assert (H0 : 0 <= s0 <= len).
  { rewrite <- Hs0. destruct start as [v|]; [apply Hclip|lia]. }
  assert (H1 : 0 <= s1 <= len).
  { rewrite <- Hs1. destruct stop as [v|]; [apply Hclip|lia]. }
  split; [exact H0|]. split; [exact H1|].
  rewrite <- HL, Hs0, Hs1.
  destruct (Z.leb_spec s1 s0); [reflexivity|].
  rewrite Z.quot_1_r. lia.
Qed.


(** ** Slice assignment *)

Lemma element_length_ensure (self : ElementObject) :
  ex_length (ensure_extra self) = element_length self.
Proof. unfold ensure_extra, element_length. destruct (e_extra self); reflexivity. Qed.

Lemma element_children_ensure (self : ElementObject) :
  element_children (set_extra self (Some (ensure_extra self)))
  = element_children self.
Proof.
  unfold element_children, ensure_extra. simpl.
  destruct (e_extra self); reflexivity.
Qed.

Lemma child_slots_ensure (self : ElementObject) :
  child_slots (ensure_extra self) = element_children self.
Proof. unfold element_children, ensure_extra. destruct (e_extra self); reflexivity. Qed.





(** Appending keeps the block well-formed and adds the child at the end;
    every element built by appending has a well-formed block. *)
Lemma element_add_subelement_spec (self : ElementObject) (child : PyObject) :
  extra_wf (ensure_extra self) ->
  grown (element_length self + 1) <= INT_MAX ->
  extra_wf (ensure_extra (element_add_subelement self child))
  /\ element_children (element_add_subelement self child)
     = element_children self ++ [Some child].
Proof.
  intros Hwf Hbound.
  pose proof Hwf as [[Hlen0 Hcap] Hbuf].
  rewrite (element_length_ensure self) in Hlen0, Hcap.
  destruct (element_resize_spec self 1) as (_ & Hl & _ & Hwf1 & Hroom & Hkeep).
  { exact Hwf. }
  { lia. }
  { rewrite (element_length_ensure self). exact Hbound. }
  rewrite (element_length_ensure self) in Hl, Hroom, Hkeep.
  destruct Hwf1 as [[_ Hcap1] Hbuf1]. rewrite Hl in Hcap1.
  pose proof (grown_ge (element_length self + 1) ltac:(lia)) as Hge.
  assert (Hwrap : int_wrap (element_length self + 1) = element_length self + 1).
  { apply int_wrap_id. unfold INT_MIN, INT_MAX in *. lia. }
  unfold element_add_subelement.
  set (x1 := ensure_extra (element_resize self 1)) in *.
  cbn [ensure_extra e_extra set_extra].
  unfold extra_wf, element_children at 1, child_slots.
  cbn [e_extra set_extra ex_length ex_allocated ex_children set_length set_children].
  rewrite Hl, Hwrap, buf_set_length.
  split; [split; [lia|exact Hbuf1]|].
  rewrite <- (child_slots_ensure self). unfold child_slots.
  rewrite (element_length_ensure self).
  apply list_eq. intros k.
  destruct (Nat.lt_ge_cases k (Z.to_nat (element_length self + 1))) as [Hk|Hk].
  - rewrite lookup_take_lt by exact Hk.
    rewrite (buf_lookup _ k) by (rewrite buf_set_length; lia).
    rewrite buf_get_set by lia.
    destruct (Z.eqb_spec (Z.of_nat k) (element_length self)) as [Heq|Hne].
    + rewrite lookup_app_r by (rewrite length_take; lia).
      rewrite length_take.
      replace (k - Z.to_nat (element_length self) `min` length (ex_children (ensure_extra self)))%nat
        with 0%nat by lia.
      reflexivity.
    + rewrite lookup_app_l by (rewrite length_take; lia).
      rewrite lookup_take_lt by lia.
      rewrite (buf_lookup (ex_children (ensure_extra self)) k) by lia.
      rewrite Hkeep by lia. reflexivity.
  - rewrite lookup_take_ge by exact Hk. symmetry.
    apply lookup_ge_None_2. rewrite length_app, length_take. simpl. lia.
Qed.


(** Step 1, in the usual order: [elem[1:3] = [x]] on five children. *)
Example slice_assignment_shrinks :
  element_children
    (element_ass_subscr ∅ five_children (Slice (Some 1) (Some 3) None)
       (Some (PyList [PyElement 9%nat]))).2
  = [Some (PyElement 0%nat); Some (PyElement 9%nat); Some (PyElement 3%nat);
     Some (PyElement 4%nat)].
Proof. vm_compute. reflexivity. Qed.

(** Step 1 with the start beyond the stop: [elem[3:1] = [x]] on five
    children.  The insertion loop shifts from [stop], the item is written
    at [start]: the child at index 1 is there twice and the child at
    index 2 is gone. *)
Example slice_assignment_start_beyond_stop :
  element_children
    (element_ass_subscr ∅ five_children (Slice (Some 3) (Some 1) None)
       (Some (PyList [PyElement 9%nat]))).2
  = [Some (PyElement 0%nat); Some (PyElement 1%nat); Some (PyElement 1%nat);
     Some (PyElement 9%nat); Some (PyElement 3%nat); Some (PyElement 4%nat)].
Proof. vm_compute. reflexivity. Qed.

(** Negative insert index: [insert(-1, child)] on three children puts the
    child at position 2 of 4. *)
Example insert_negative_index :
  element_children
    (element_insert
       (fold_left element_add_subelement
          [PyElement 0; PyElement 1; PyElement 2]%nat
          (create_new_element (PyUnicode "parent") None))
       (-1) (PyElement 9%nat)).2
  = [Some (PyElement 0%nat); Some (PyElement 1%nat); Some (PyElement 9%nat);
     Some (PyElement 2%nat)].
Proof. vm_compute. reflexivity. Qed.

(** The document [<a><b>hi<c/>there</b>tail</a>] through the builder:
    [b] has text "hi" and tail "tail", [c] has no text and tail "there". *)
Example mixed_content :
  let s := run [Start (PyUnicode "a") (PyDict []);
                Start (PyUnicode "b") (PyDict []);
                Data (PyUnicode "hi");
                Start (PyUnicode "c") (PyDict []);
                End (PyUnicode "c");
                Data (PyUnicode "there");
                End (PyUnicode "b");
                Data (PyUnicode "tail");
                End (PyUnicode "a")] (treebuilder_new, ∅, []) in
  (v_text <$> observe s.1.2 1%nat) = Some (Ok (PyUnicode "hi"))
  /\ (v_tail <$> observe s.1.2 1%nat) = Some (Ok (PyUnicode "tail"))
  /\ (v_text <$> observe s.1.2 2%nat) = Some (Ok Py_None)
  /\ (v_tail <$> observe s.1.2 2%nat) = Some (Ok (PyUnicode "there"))
  /\ treebuilder_close s.1.1 = PyElement 0%nat.
Proof. vm_compute. repeat split; reflexivity. Qed.

(** * More of the Element type *)

(** ** Elements in good order *)

Lemma has_children_length (self : ElementObject) (l : list PyObject) :
  has_children self l ->
  element_length self = Z.of_nat (length l)
  /\ 0 <= element_length self <= INT_MAX.
Proof.
  intros ([[Hlen0 Hcap] Hbuf] & Hint & Hkids).
  rewrite (element_length_ensure self) in Hlen0, Hcap.
  rewrite <- (child_slots_ensure self) in Hkids. unfold child_slots in Hkids.
  rewrite (element_length_ensure self) in Hkids.
  apply (f_equal length) in Hkids. rewrite length_take, length_fmap in Hkids.
  split; lia.
Qed.

Lemma has_children_get (self : ElementObject) (l : list PyObject) (j : Z) :
  has_children self l ->
  0 <= j < element_length self ->
  buf_get (ex_children (ensure_extra self)) j = l !! Z.to_nat j.
Proof.
  intros ([[Hlen0 Hcap] Hbuf] & Hint & Hkids) Hj.
  rewrite (element_length_ensure self) in Hlen0, Hcap.
  rewrite <- (child_slots_ensure self) in Hkids. unfold child_slots in Hkids.
  rewrite (element_length_ensure self) in Hkids.
  apply (f_equal (fun m => m !! Z.to_nat j)) in Hkids.
  rewrite lookup_take_lt, list_lookup_fmap in Hkids by lia.
  unfold buf_get. destruct (Z.ltb_spec j 0) as [Hneg|_]; [lia|].
  rewrite Hkids. destruct (l !! Z.to_nat j); reflexivity.
Qed.

Lemma has_children_intro (self : ElementObject) (x : ElementObjectExtra)
  (l : list PyObject) :
  e_extra self = Some x ->
  extra_wf x ->
  ex_allocated x <= INT_MAX ->
  ex_length x = Z.of_nat (length l) ->
  (forall k : nat, (k < length l)%nat ->
                   buf_get (ex_children x) (Z.of_nat k) = l !! k) ->
  has_children self l.
Proof.
  intros Hx Hwf Hint Hlen Hget. unfold has_children, ensure_extra, element_children.
  rewrite Hx. split; [exact Hwf|]. split; [exact Hint|].
  destruct Hwf as [[Hlen0 Hcap] Hbuf].
  unfold child_slots. rewrite Hlen, Nat2Z.id.
  apply list_eq. intros k.
  destruct (Nat.lt_ge_cases k (length l)) as [Hk|Hk].
  - rewrite lookup_take_lt by exact Hk.
    rewrite (buf_lookup _ k) by lia.
    rewrite (Hget k Hk), list_lookup_fmap.
    destruct (lookup_lt_is_Some_2 l k Hk) as [c Hc]. rewrite Hc. reflexivity.
  - rewrite lookup_take_ge by exact Hk. symmetry.
    apply lookup_ge_None_2. rewrite length_fmap. exact Hk.
Qed.


(** The reading loop on slots that hold objects. *)
Lemma read_items_spec (n : nat) :
  forall (b : list (option PyObject)) (cur step : Z) (items : list PyObject),
    length items = n ->
    (forall k : nat, (k < n)%nat ->
                     buf_get b (cur + Z.of_nat k * step) = items !! k) ->
    read_items b cur step n = Some items.
Proof.
  induction n as [|n IH]; intros b cur step items Hlen Hget.
  - destruct items; [reflexivity|discriminate].
  - destruct items as [|x items]; [discriminate|].
    cbn [read_items].
    pose proof (Hget 0%nat ltac:(lia)) as H0.
    replace (cur + Z.of_nat 0 * step) with cur in H0 by lia.
    rewrite H0. cbn.
    rewrite (IH b (cur + step) step items).
    + reflexivity.
    + cbn in Hlen. lia.
    + intros k Hk. pose proof (Hget (S k) ltac:(lia)) as HS.
      change ((x :: items) !! S k) with (items !! k) in HS.
      rewrite <- HS. f_equal. lia.
Qed.

(** What [PySlice_GetIndicesEx] promises for any step: every index of the
    slice is an index of the sequence. *)
Lemma slice_indices_bounds (start stop step : option Z) (len s0 s1 st L : Z) :
  0 <= len ->
  PySlice_GetIndicesEx start stop step len = Ok (s0, s1, st, L) ->
  0 <= L /\ forall k : Z, 0 <= k < L -> 0 <= s0 + k * st < len.
Proof.
  intros Hlen Hidx. unfold PySlice_GetIndicesEx in Hidx.
  set (step' := match step with
                | Some s => Z.max (- PY_SSIZE_T_MAX) (slice_index s)
                | None => 1
                end) in *.
  destruct (Z.eqb_spec step' 0) as [|Hnz]; [discriminate|].
  injection Hidx as Hs0 Hs1 Hst HL. rewrite Hst in *. clear Hst step'.
  destruct (Z.ltb_spec st 0) as [Hneg|Hpos].
  - assert (Hlt : (st <? 0) = true) by (apply Z.ltb_lt; exact Hneg).
    assert (Hgt0 : (0 <? st) = false) by (apply Z.ltb_ge; lia).
    rewrite ?Hlt, ?Hgt0 in HL. clear Hlt Hgt0.
    assert (Hclip : forall v : Z,
               -1 <= (let v0 := slice_index v in
                      let v1 := if v0 <? 0 then v0 + len else v0 in
                      let v2 := if v1 <? 0 then -1 else v1 in
                      if len <=? v2 then len - 1 else v2) <= len - 1).
    { intros v. cbv zeta. case_cmp; lia. }
    assert (H0 : -1 <= s0 <= len - 1).
    { rewrite <- Hs0. destruct start as [v|]; [apply Hclip|lia]. }
    assert (H1 : -1 <= s1 <= len - 1).
    { rewrite <- Hs1. destruct stop as [v|]; [apply Hclip|lia]. }
    rewrite Hs0, Hs1 in HL. cbn [andb orb] in HL.
    destruct (Z.leb_spec s0 s1) as [Hle|Hgt]; cbn [andb orb] in HL.
    + subst L. split; [lia|]. intros k Hk. lia.
    + assert (Hq : (s1 - s0 + 1) ÷ st = (s0 - s1 - 1) / (- st)).
      { replace (s1 - s0 + 1) with (- (s0 - s1 - 1)) by lia.
        rewrite <- (Z.opp_involutive st) at 1.
        rewrite Z.quot_opp_opp by lia.
        apply Z.quot_div_nonneg; lia. }
      rewrite Hq in HL.
      assert (Hq0 : 0 <= (s0 - s1 - 1) / (- st)) by (apply Z.div_pos; lia).
      pose proof (Z.mul_div_le (s0 - s1 - 1) (- st) ltac:(lia)) as Hmul.
      subst L. split; [lia|]. intros k Hk. nia.
  - assert (Hlt : (st <? 0) = false) by (apply Z.ltb_ge; exact Hpos).
    assert (Hgt0 : (0 <? st) = true) by (apply Z.ltb_lt; lia).
    rewrite ?Hlt, ?Hgt0 in HL. clear Hlt Hgt0.
    assert (Hclip : forall v : Z,
               0 <= (let v0 := slice_index v in
                     let v1 := if v0 <? 0 then v0 + len else v0 in
                     let v2 := if v1 <? 0 then 0 else v1 in
                     if len <=? v2 then len else v2) <= len).
    { intros v. cbv zeta. case_cmp; lia. }
    assert (H0 : 0 <= s0 <= len).
    { rewrite <- Hs0. destruct start as [v|]; [apply Hclip|lia]. }
    assert (H1 : 0 <= s1 <= len).
    { rewrite <- Hs1. destruct stop as [v|]; [apply Hclip|lia]. }
    rewrite Hs0, Hs1 in HL. cbn [andb orb] in HL.
    destruct (Z.leb_spec s1 s0) as [Hle|Hgt]; cbn [andb orb] in HL.
    + subst L. split; [lia|]. intros k Hk. lia.
    + rewrite Z.quot_div_nonneg in HL by lia.
      assert (Hq0 : 0 <= (s1 - s0 - 1) / st) by (apply Z.div_pos; lia).
      pose proof (Z.mul_div_le (s1 - s0 - 1) st ltac:(lia)) as Hmul.
      subst L. split; [lia|]. intros k Hk. nia.
Qed.

Lemma read_items_total (n : nat) :
  forall (b : list (option PyObject)) (cur step : Z),
    (forall k : nat, (k < n)%nat ->
                     is_Some (buf_get b (cur + Z.of_nat k * step))) ->
    exists items : list PyObject,
      read_items b cur step n = Some items
      /\ length items = n
      /\ forall k : nat, (k < n)%nat ->
                         items !! k = buf_get b (cur + Z.of_nat k * step).
Proof.
  induction n as [|n IH]; intros b cur step Hsome.
  - exists []. split; [reflexivity|]. split; [reflexivity|]. intros k Hk. lia.
  - destruct (Hsome 0%nat ltac:(lia)) as [x Hx].
    replace (cur + Z.of_nat 0 * step) with cur in Hx by lia.
    destruct (IH b (cur + step) step) as (items & Hread & Hlen & Hget).
    { intros k Hk. specialize (Hsome (S k) ltac:(lia)).
      replace (cur + step + Z.of_nat k * step)
        with (cur + Z.of_nat (S k) * step) by lia.
      exact Hsome. }
    exists (x :: items). cbn [read_items]. rewrite Hx. cbn. rewrite Hread. cbn.
    split; [reflexivity|]. split; [lia|].
    intros [|k] Hk.
    + replace (cur + Z.of_nat 0 * step) with cur by lia. rewrite Hx. reflexivity.
    + change ((x :: items) !! S k) with (items !! k).
      rewrite Hget by lia. f_equal. lia.
Qed.

(** ** Reading children by index and by slice *)

Lemma element_length_extra (self : ElementObject) (x : ElementObjectExtra) :
  e_extra self = Some x -> ensure_extra self = x /\ element_length self = ex_length x.
Proof. intros Hx. unfold ensure_extra, element_length. rewrite Hx. auto. Qed.

Lemma element_getitem_spec (self : ElementObject) (l : list PyObject) (j : Z) :
  has_children self l ->
  element_getitem self j
  = if (0 <=? j) && (j <? Z.of_nat (length l)) then Ok <$> l !! Z.to_nat j
    else Some (Raise (PyErr_SetString PyExc_IndexError "child index out of range")).
Proof.
  intros Hkids. destruct (has_children_length self l Hkids) as [Hlen Hrange].
  unfold element_getitem. destruct (e_extra self) as [x|] eqn:Hx.
  - destruct (element_length_extra self x Hx) as [Hens Hl].
    rewrite <- Hl, Hlen.
    destruct (Z.ltb_spec j 0) as [Hneg|Hpos];
      destruct (Z.leb_spec 0 j) as [Hpos'|Hneg']; try lia;
      [reflexivity|].
    destruct (Z.leb_spec (Z.of_nat (length l)) j) as [Hge|Hlt];
      destruct (Z.ltb_spec j (Z.of_nat (length l))) as [Hlt'|Hge']; try lia;
      cbn [orb andb]; [reflexivity|].
    rewrite <- Hens, (has_children_get self l j Hkids) by lia.
    destruct (l !! Z.to_nat j); reflexivity.
  - unfold element_length in Hlen. rewrite Hx in Hlen.
    destruct (Z.leb_spec 0 j); destruct (Z.ltb_spec j (Z.of_nat (length l)));
      try lia; reflexivity.
Qed.

(** X1 -- Reading a child by index.  On an element in good order with
    [n] children, [elem[i]] returns child [i] for [0 <= i < n], child
    [i + n] for [-n <= i < 0] (a negative index counts from the end), and
    raises IndexError ("child index out of range") for every other index;
    in particular every index is out of range on an element without
    children. *)
Theorem subscr_index (self : ElementObject) (l : list PyObject) (i : Z) :
  has_children self l ->
  PY_SSIZE_T_MIN <= i <= PY_SSIZE_T_MAX ->
  let n := Z.of_nat (length l) in
  (0 <= i < n -> element_subscr self (Index i) = Ok <$> l !! Z.to_nat i)
  /\ (- n <= i < 0 -> element_subscr self (Index i) = Ok <$> l !! Z.to_nat (i + n))
  /\ (i < - n \/ n <= i ->
      element_subscr self (Index i)
      = Some (Raise (PyErr_SetString PyExc_IndexError "child index out of range"))).
Proof.
  intros Hkids Hi n.
  destruct (has_children_length self l Hkids) as [Hlen Hrange].
  assert (Hsub : element_subscr self (Index i)
                 = element_getitem self
                     (match e_extra self with
                      | Some x => if i <? 0 then i + ex_length x else i
                      | None => i
                      end)).
  { unfold element_subscr.
    destruct (Z.leb_spec PY_SSIZE_T_MIN i); [|lia].
    destruct (Z.leb_spec i PY_SSIZE_T_MAX); [|lia]. reflexivity. }
  rewrite Hsub, (element_getitem_spec self l _ Hkids). fold n.
  destruct (e_extra self) as [x|] eqn:Hx.
  - destruct (element_length_extra self x Hx) as [_ Hl].
    rewrite <- Hl, Hlen. fold n.
    split; [|split]; intros Hcase;
      destruct (Z.ltb_spec i 0); try lia;
      case_cmp; try lia; reflexivity.
  - unfold element_length in Hlen. rewrite Hx in Hlen.
    split; [|split]; intros Hcase; case_cmp; try lia; reflexivity.
Qed.

Lemma subscr_index_witness :
  has_children five_children
    [PyElement 0; PyElement 1; PyElement 2; PyElement 3; PyElement 4]%nat
  /\ element_subscr five_children (Index (-1)) = Some (Ok (PyElement 4%nat))
  /\ element_subscr five_children (Index 5)
     = Some (Raise (PyErr_SetString PyExc_IndexError "child index out of range")).
Proof.
  assert (Hkids : has_children five_children
                    [PyElement 0; PyElement 1; PyElement 2; PyElement 3; PyElement 4]%nat).
  { unfold has_children, extra_wf. vm_compute. intuition discriminate. }
  assert (Hi : forall i : Z, -6 <= i <= 6 -> PY_SSIZE_T_MIN <= i <= PY_SSIZE_T_MAX).
  { intros i Hi6. unfold PY_SSIZE_T_MIN, PY_SSIZE_T_MAX. lia. }
  split; [exact Hkids|]. split.
  - apply (proj1 (proj2 (subscr_index five_children _ (-1) Hkids (Hi (-1) ltac:(lia))))).
    simpl. lia.
  - apply (proj2 (proj2 (subscr_index five_children _ 5 Hkids (Hi 5 ltac:(lia))))).
    simpl. lia.
Defined.

(** The items a slice reads, for any step. *)
Lemma subscr_slice_items (self : ElementObject) (l : list PyObject)
  (start stop step : option Z) (s0 s1 st L : Z) :
  has_children self l ->
  PySlice_GetIndicesEx start stop step (element_length self) = Ok (s0, s1, st, L) ->
  exists items : list PyObject,
    element_subscr self (Slice start stop step) = Some (Ok (PyList items))
    /\ Z.of_nat (length items) = L
    /\ forall k : nat, (k < length items)%nat ->
                       items !! k = l !! Z.to_nat (s0 + Z.of_nat k * st).
Proof.
  intros Hkids Hidx.
  destruct (has_children_length self l Hkids) as [Hlen Hrange].
  destruct (slice_indices_bounds start stop step (element_length self) s0 s1 st L
              (proj1 Hrange) Hidx) as [HL Hin].
  unfold element_subscr. destruct (e_extra self) as [x|] eqn:Hx.
  - destruct (element_length_extra self x Hx) as [Hens Hl].
    rewrite <- Hl, Hidx.
    destruct (Z.leb_spec L 0) as [Hz|Hpos].
    + exists []. split; [reflexivity|]. split; [simpl; lia|].
      intros k Hk. simpl in Hk. lia.
    + destruct (read_items_total (Z.to_nat L) (ex_children x) s0 st)
        as (items & Hread & Hlenitems & Hget).
      { intros k Hk. rewrite <- Hens.
        specialize (Hin (Z.of_nat k) ltac:(lia)).
        rewrite (has_children_get self l _ Hkids) by lia.
        apply lookup_lt_is_Some. lia. }
      exists items. rewrite Hread. split; [reflexivity|]. split; [lia|].
      intros k Hk. rewrite Hget by lia.
      specialize (Hin (Z.of_nat k) ltac:(lia)).
      rewrite <- Hens. apply (has_children_get self l _ Hkids). lia.
  - exists []. split; [reflexivity|].
    unfold element_length in Hlen, Hin. rewrite Hx in Hlen, Hin.
    split.
    + destruct (Z.eq_dec L 0) as [->|Hne]; [reflexivity|].
      specialize (Hin 0 ltac:(lia)). lia.
    + intros k Hk. simpl in Hk. lia.
Qed.

(** X2 -- Reading a slice.  On an element in good order, [elem[start:stop:step]]
    never fails and never reads outside the children: with the indices
    [(s0, s1, st, L)] the slice resolves to, it returns a list of [L] items
    whose item [k] is the child at index [s0 + k * st]; for a step of 1 that
    is the run of children from [s0] up to [s1]. *)
Theorem subscr_slice (self : ElementObject) (l : list PyObject)
  (start stop step : option Z) (s0 s1 st L : Z) :
  has_children self l ->
  PySlice_GetIndicesEx start stop step (element_length self) = Ok (s0, s1, st, L) ->
  exists items : list PyObject,
    element_subscr self (Slice start stop step) = Some (Ok (PyList items))
    /\ Z.of_nat (length items) = L
    /\ (forall k : nat, (k < length items)%nat ->
                        items !! k = l !! Z.to_nat (s0 + Z.of_nat k * st))
    /\ (st = 1 -> items = take (Z.to_nat (s1 - s0)) (drop (Z.to_nat s0) l)).
Proof.
  intros Hkids Hidx.
  destruct (subscr_slice_items self l start stop step s0 s1 st L Hkids Hidx)
    as (items & Hsub & Hlen & Hget).
  exists items. split; [exact Hsub|]. split; [exact Hlen|]. split; [exact Hget|].
  intros ->.
  destruct (has_children_length self l Hkids) as [Hl Hrange].
  destruct (slice_indices_step1 start stop step (element_length self) s0 s1 1 L
              (proj1 Hrange) Hidx eq_refl)
    as (H0 & H1 & HL).
  assert (HL' : L = Z.max 0 (s1 - s0)) by (destruct (Z.leb_spec s1 s0); lia).
  clear HL.
  apply list_eq. intros k.
  destruct (Nat.lt_ge_cases k (length items)) as [Hk|Hk].
  - rewrite (Hget k Hk), lookup_take_lt, lookup_drop by lia. f_equal. lia.
  - rewrite (lookup_ge_None_2 items k Hk). symmetry.
    apply lookup_ge_None_2. rewrite length_take, length_drop. lia.
Qed.

Lemma subscr_slice_witness :
  exists items : list PyObject,
    element_subscr five_children (Slice (Some 4) None (Some (-2)))
    = Some (Ok (PyList items))
    /\ Z.of_nat (length items) = 3
    /\ (forall k : nat, (k < length items)%nat ->
          items !! k
          = [PyElement 0; PyElement 1; PyElement 2; PyElement 3; PyElement 4]%nat
              !! Z.to_nat (4 + Z.of_nat k * (-2)))
    /\ (-2 = 1 -> items = take (Z.to_nat (-1 - 4))
                            (drop (Z.to_nat 4)
                               [PyElement 0; PyElement 1; PyElement 2;
                                PyElement 3; PyElement 4]%nat)).
Proof.
  apply (subscr_slice five_children
           [PyElement 0; PyElement 1; PyElement 2; PyElement 3; PyElement 4]%nat
           (Some 4) None (Some (-2)) 4 (-1) (-2) 3).
  - unfold has_children, extra_wf. vm_compute. intuition discriminate.
  - vm_compute. reflexivity.
Defined.

(** X3 -- All the children.  On an element in good order, [getchildren()]
    returns the list of the children in order, and so does the full slice
    [elem[:]]; without children both are the empty list. *)
Theorem getchildren_all (self : ElementObject) (l : list PyObject) :
  has_children self l ->
  element_getchildren self = Some (Ok (PyList l))
  /\ element_subscr self (Slice None None None) = Some (Ok (PyList l)).
Proof.
  intros Hkids.
  destruct (has_children_length self l Hkids) as [Hlen Hrange].
  split.
  - unfold element_getchildren. destruct (e_extra self) as [x|] eqn:Hx.
    + destruct (element_length_extra self x Hx) as [Hens Hl].
      rewrite <- Hl. destruct (Z.ltb_spec (element_length self) 0); [lia|].
      rewrite (read_items_spec _ _ 0 1 l).
      * reflexivity.
      * lia.
      * intros k Hk. rewrite <- Hens.
        rewrite (has_children_get self l _ Hkids) by lia. f_equal. lia.
    + unfold element_length in Hlen. rewrite Hx in Hlen.
      destruct l; [reflexivity|simpl in Hlen; lia].
  - assert (Hidx : PySlice_GetIndicesEx None None None (element_length self)
                   = Ok (0, element_length self, 1, element_length self)).
    { unfold PySlice_GetIndicesEx. cbn.
      destruct (Z.leb_spec (element_length self) 0) as [Hz|Hpos].
      - replace (element_length self) with 0 by lia. reflexivity.
      - rewrite Z.quot_1_r. do 4 f_equal. lia. }
    destruct (subscr_slice_items self l None None None _ _ _ _ Hkids Hidx)
      as (items & Hsub & Hlenitems & Hget).
    rewrite Hsub. do 3 f_equal.
    apply list_eq. intros k.
    destruct (Nat.lt_ge_cases k (length items)) as [Hk|Hk].
    + rewrite (Hget k Hk). f_equal. lia.
    + rewrite (lookup_ge_None_2 items k Hk). symmetry.
      apply lookup_ge_None_2. lia.
Qed.

Lemma getchildren_all_witness :
  element_getchildren five_children
  = Some (Ok (PyList [PyElement 0; PyElement 1; PyElement 2; PyElement 3;
                      PyElement 4]%nat))
  /\ element_subscr five_children (Slice None None None)
     = Some (Ok (PyList [PyElement 0; PyElement 1; PyElement 2; PyElement 3;
                         PyElement 4]%nat)).
Proof.
  apply (getchildren_all five_children).
  unfold has_children, extra_wf. vm_compute. intuition discriminate.
Defined.

(** ** Editing the children *)


(** [element_resize] on an element in good order. *)
Lemma element_resize_good (self : ElementObject) (l : list PyObject) (extra : Z) :
  has_children self l ->
  0 <= extra ->
  grown (Z.of_nat (length l) + extra) <= INT_MAX ->
  has_children (element_resize self extra) l
  /\ e_extra (element_resize self extra)
     = Some (ensure_extra (element_resize self extra))
  /\ ex_length (ensure_extra (element_resize self extra)) = Z.of_nat (length l)
  /\ Z.of_nat (length l) + extra <= ex_allocated (ensure_extra (element_resize self extra))
  /\ ex_attrib (ensure_extra (element_resize self extra)) = ex_attrib (ensure_extra self).
Proof.
  intros Hkids Hextra Hbound.
  destruct (has_children_length self l Hkids) as [Hlen Hrange].
  pose proof Hkids as (Hwf & Hint & _).
  rewrite <- Hlen, <- (element_length_ensure self) in Hbound.
  destruct (element_resize_spec self extra Hwf Hextra Hbound)
    as (Hx' & Hl & Hattr & Hwf' & Hroom & Hkeep).
  rewrite (element_length_ensure self) in Hl, Hroom, Hkeep, Hbound.
  assert (Hint' : ex_allocated (ensure_extra (element_resize self extra)) <= INT_MAX).
  { destruct (Z.lt_ge_cases (ex_allocated (ensure_extra self))
                            (ex_length (ensure_extra self) + extra)) as [Hlt|Hfit].
    - pose proof (grown_ge (element_length self + extra) ltac:(lia)) as Hge.
      rewrite (element_length_ensure self) in Hlt.
      rewrite (element_resize_grows self extra).
      + cbn [ensure_extra e_extra set_extra ex_allocated].
        rewrite (element_length_ensure self).
        destruct (Z.eqb_spec (grown (element_length self + extra)) 0); lia.
      + rewrite (element_length_ensure self). unfold INT_MIN, INT_MAX in *. lia.
      + rewrite (element_length_ensure self). unfold INT_MIN, INT_MAX in *. lia.
      + rewrite (element_length_ensure self). exact Hlt.
    - unfold element_resize.
      rewrite int_wrap_id.
      + destruct (Z.ltb_spec (ex_allocated (ensure_extra self))
                             (ex_length (ensure_extra self) + extra)); [lia|].
        exact Hint.
      + rewrite (element_length_ensure self).
        pose proof (grown_ge (element_length self + extra) ltac:(lia)).
        unfold INT_MIN, INT_MAX in *. lia. }
  split; [|split; [exact Hx'|split; [lia|split; [lia|exact Hattr]]]].
  apply (has_children_intro _ _ l Hx' Hwf' Hint'); [lia|].
  intros k Hk. rewrite Hkeep by lia.
  rewrite (has_children_get self l _ Hkids) by lia. f_equal. lia.
Qed.

Lemma lookup_insert_middle {A} (l : list A) (x : A) (p k : nat) :
  (p <= length l)%nat ->
  (take p l ++ x :: drop p l) !! k
  = if (k <? p)%nat then l !! k
    else if (k =? p)%nat then Some x else l !! (k - 1)%nat.
Proof.
  intros Hp.
  destruct (Nat.ltb_spec k p) as [Hlt|Hge].
  - rewrite lookup_app_l by (rewrite length_take; lia).
    apply lookup_take_lt. exact Hlt.
  - rewrite lookup_app_r by (rewrite length_take; lia).
    rewrite length_take. replace (p `min` length l)%nat with p by lia.
    destruct (Nat.eqb_spec k p) as [->|Hne].
    + rewrite Nat.sub_diag. reflexivity.
    + replace (k - p)%nat with (S (k - p - 1)) by lia.
      change ((x :: drop p l) !! S (k - p - 1)) with (drop p l !! (k - p - 1)%nat).
      rewrite lookup_drop. f_equal. lia.
Qed.

(** X4 -- Insertion.  On an element in good order with [n] children,
    [insert(index, child)] with an Element [child] succeeds and puts the
    child at position [insert_position index n]: a negative index counts
    from the end, and an index beyond either end is clamped to that end.
    The children before that position keep their place, those from it on
    move up by one.  The new capacity is within the range of a C [int]. *)
Theorem insert_spec (self : ElementObject) (l : list PyObject)
  (index : Z) (element : PyObject) :
  has_children self l ->
  grown (Z.of_nat (length l) + 1) <= INT_MAX ->
  INT_MIN <= index <= INT_MAX ->
  Element_CheckExact element = true ->
  let p := insert_position index (Z.of_nat (length l)) in
  (element_insert self index element).1 = Ok Py_None
  /\ has_children (element_insert self index element).2
       (take p l ++ element :: drop p l).
Proof.
  intros Hkids Hbound Hindex Helem p.
  destruct (has_children_length self l Hkids) as [Hlen Hrange].
  unfold element_insert.
  destruct (Z.leb_spec INT_MIN index) as [_|Hbad]; [|lia].
  destruct (Z.leb_spec index INT_MAX) as [_|Hbad]; [|lia].
  rewrite Helem. cbn [negb andb]. cbv iota zeta.
  set (self0 := set_extra self (Some (ensure_extra self))).
  assert (Hkids0 : has_children self0 l).
  { destruct Hkids as (Hwf & Hint & Hl). split; [exact Hwf|]. split; [exact Hint|].
    subst self0. rewrite element_children_ensure. exact Hl. }
  rewrite (element_length_ensure self), Hlen.
  set (n := Z.of_nat (length l)) in *.
  assert (Hwrap : int_wrap (index + n) = index + n \/ 0 <= index).
  { destruct (Z.lt_ge_cases index 0); [left|right; lia].
    apply int_wrap_id. unfold INT_MIN, INT_MAX in *. lia. }
  set (idx := let i := if index <? 0
                       then (if int_wrap (index + n) <? 0 then 0 else int_wrap (index + n))
                       else index in
              if n <? i then n else i).
  assert (Hidx : idx = Z.of_nat p /\ 0 <= idx <= n).
  { subst idx p. unfold insert_position. cbv zeta.
    destruct (Z.ltb_spec index 0) as [Hneg|Hpos].
    - destruct Hwrap as [->|]; [|lia].
      destruct (Z.ltb_spec (index + n) 0); case_cmp; lia.
    - case_cmp; lia. }
  destruct Hidx as [Hidxp Hidxr].
  destruct (element_resize_good self0 l 1 Hkids0 ltac:(lia) Hbound)
    as (Hkids1 & Hx1 & Hl1 & Hroom & _).
  set (self1 := element_resize self0 1) in *.
  set (x1 := ensure_extra self1) in *.
  pose proof Hkids1 as ([[_ Hcap1] Hbuf1] & Hint1 & _). fold x1 in Hcap1, Hbuf1, Hint1.
  pose proof (grown_ge (n + 1) ltac:(lia)) as Hge.
  assert (Hwrap1 : int_wrap (ex_length x1 + 1) = n + 1).
  { rewrite Hl1. apply int_wrap_id. unfold INT_MIN, INT_MAX in *. lia. }
  split; [reflexivity|]. cbn [snd].
  destruct (move_descending_spec (Z.to_nat (ex_length x1 - idx)) (ex_children x1)
              (ex_length x1 - 1) 1) as [Hmlen Hmget]; [lia|lia|lia|].
  eapply has_children_intro; [cbn [e_extra set_extra]; reflexivity| | | |].
  - unfold extra_wf. cbn [ex_length ex_allocated ex_children set_length set_children].
    rewrite Hwrap1, buf_set_length, Hmlen. split; [lia|exact Hbuf1].
  - exact Hint1.
  - cbn [ex_length set_length]. rewrite Hwrap1, length_app.
    cbn [length]. rewrite length_take, length_drop. lia.
  - intros k Hk. cbn [ex_children set_children set_length].
    rewrite length_app in Hk. cbn [length] in Hk.
    rewrite length_take, length_drop in Hk.
    rewrite buf_get_set by (rewrite Hmlen; lia).
    rewrite Hmget, lookup_insert_middle by lia.
    destruct (Z.eqb_spec (Z.of_nat k) idx) as [Heq|Hne].
    + destruct (Nat.ltb_spec k p); [lia|].
      destruct (Nat.eqb_spec k p); [reflexivity|lia].
    + destruct (Nat.eqb_spec k p) as [|_]; [lia|].
      destruct (Nat.ltb_spec k p) as [Hlt|Hgt].
      * replace ((ex_length x1 - 1 - Z.of_nat (Z.to_nat (ex_length x1 - idx)) + 1
                  <? Z.of_nat k) && (Z.of_nat k <=? ex_length x1 - 1 + 1))
          with false by (symmetry; apply andb_false_iff; left; apply Z.ltb_ge; lia).
        fold x1. rewrite (has_children_get self1 l _ Hkids1)
          by (rewrite (proj1 (has_children_length self1 l Hkids1)); lia).
        f_equal. lia.
      * replace ((ex_length x1 - 1 - Z.of_nat (Z.to_nat (ex_length x1 - idx)) + 1
                  <? Z.of_nat k) && (Z.of_nat k <=? ex_length x1 - 1 + 1))
          with true by (symmetry; apply andb_true_iff; split;
                        [apply Z.ltb_lt|apply Z.leb_le]; lia).
        fold x1. rewrite (has_children_get self1 l _ Hkids1)
          by (rewrite (proj1 (has_children_length self1 l Hkids1)); lia).
        f_equal. lia.
Qed.

Lemma insert_spec_witness :
  (element_insert five_children (-2) (PyElement 9%nat)).1 = Ok Py_None
  /\ has_children (element_insert five_children (-2) (PyElement 9%nat)).2
       [PyElement 0; PyElement 1; PyElement 2; PyElement 9; PyElement 3;
        PyElement 4]%nat.
Proof.
  apply (insert_spec five_children
           [PyElement 0; PyElement 1; PyElement 2; PyElement 3; PyElement 4]%nat
           (-2) (PyElement 9%nat)).
  - unfold has_children, extra_wf. vm_compute. intuition discriminate.
  - vm_compute. discriminate.
  - vm_compute. intuition discriminate.
  - reflexivity.
Defined.

Lemma has_children_append (self : ElementObject) (l : list PyObject)
  (child : PyObject) :
  has_children self l ->
  grown (Z.of_nat (length l) + 1) <= INT_MAX ->
  has_children (element_add_subelement self child) (l ++ [child]).
Proof.
  intros Hkids Hbound.
  destruct (has_children_length self l Hkids) as [Hlen Hrange].
  pose proof Hkids as (Hwf & Hint & Hl).
  destruct (element_add_subelement_spec self child Hwf) as [Hwf' Hkids'].
  { rewrite Hlen. exact Hbound. }
  split; [exact Hwf'|]. split.
  - destruct (element_resize_good self l 1 Hkids ltac:(lia) Hbound)
      as ((_ & Hint1 & _) & _).
    exact Hint1.
  - rewrite Hkids', Hl, fmap_app. reflexivity.
Qed.

(** X5 -- Appending.  On an element in good order, [append(child)] with
    an Element adds the child after the last child and returns None; with
    any other object it raises TypeError and leaves the element as it
    is. *)
Theorem append_spec (self : ElementObject) (l : list PyObject) (child : PyObject) :
  has_children self l ->
  grown (Z.of_nat (length l) + 1) <= INT_MAX ->
  (Element_CheckExact child = true ->
   (element_append self child).1 = Ok Py_None
   /\ has_children (element_append self child).2 (l ++ [child]))
  /\ (Element_CheckExact child = false ->
      (exists e : exception,
          (element_append self child).1 = Raise e
          /\ exc_type e = PyExc_TypeError)
      /\ (element_append self child).2 = self).
Proof.
  intros Hkids Hbound. unfold element_append. split; intros Hc; rewrite Hc.
  - split; [reflexivity|]. apply has_children_append; assumption.
  - split; [|reflexivity]. eexists. split; reflexivity.
Qed.

Lemma append_spec_witness :
  (element_append five_children (PyElement 7%nat)).1 = Ok Py_None
  /\ has_children (element_append five_children (PyElement 7%nat)).2
       ([PyElement 0; PyElement 1; PyElement 2; PyElement 3; PyElement 4]%nat
        ++ [PyElement 7%nat]).
Proof.
  apply (append_spec five_children
           [PyElement 0; PyElement 1; PyElement 2; PyElement 3; PyElement 4]%nat
           (PyElement 7%nat)).
  - unfold has_children, extra_wf. vm_compute. intuition discriminate.
  - vm_compute. discriminate.
  - reflexivity.
Defined.

Lemma element_prefix_length (seq : list PyObject) :
  (length (element_prefix seq) <= length seq)%nat.
Proof.
  induction seq as [|c seq IH]; [reflexivity|].
  cbn [element_prefix]. destruct (Element_CheckExact c); cbn [length]; lia.
Qed.

Lemma extend_loop_spec (seq : list PyObject) :
  forall (self : ElementObject) (l : list PyObject),
    has_children self l ->
    grown (Z.of_nat (length l) + Z.of_nat (length seq)) <= INT_MAX ->
    has_children (extend_loop self seq).2 (l ++ element_prefix seq)
    /\ (element_prefix seq = seq -> (extend_loop self seq).1 = Ok Py_None)
    /\ (element_prefix seq <> seq ->
        exists e : exception,
          (extend_loop self seq).1 = Raise e /\ exc_type e = PyExc_TypeError).
Proof.
  induction seq as [|c seq IH]; intros self l Hkids Hbound.
  - cbn. rewrite app_nil_r. split; [exact Hkids|]. split; [reflexivity|].
    intros Hne. contradiction.
  - cbn [extend_loop element_prefix]. cbn [length] in Hbound.
    destruct (Element_CheckExact c) eqn:Hc; cbn [negb].
    + destruct (IH (element_add_subelement self c) (l ++ [c])) as (Hk & Hok & Hbad).
      { apply has_children_append; [exact Hkids|].
        etransitivity; [apply grown_mono|exact Hbound]. lia. }
      { rewrite length_app. cbn [length].
        etransitivity; [apply grown_mono|exact Hbound]. lia. }
      rewrite <- app_assoc in Hk. split; [exact Hk|]. split.
      * intros Heq. apply Hok. congruence.
      * intros Hne. apply Hbad. congruence.
    + cbn [fst snd]. rewrite app_nil_r. split; [exact Hkids|]. split.
      * discriminate.
      * intros _. eexists. split; reflexivity.
Qed.

(** X6 -- Extending.  On an element in good order, [extend(seq)] appends
    the items of the sequence one by one, in order.  It stops at the first
    item that is not an Element and raises TypeError there, with the items
    before it already appended; when every item is an Element it returns
    None and the children are the old ones followed by the items.  An
    object that is not a sequence raises TypeError and nothing changes. *)
Theorem extend_spec (h : store) (self : ElementObject) (l : list PyObject)
  (seq_in : PyObject) :
  has_children self l ->
  (PySequence_Fast h seq_in = None ->
   (exists e : exception,
       (element_extend h self seq_in).1 = Raise e /\ exc_type e = PyExc_TypeError)
   /\ (element_extend h self seq_in).2 = self)
  /\ (forall seq : list PyObject,
         PySequence_Fast h seq_in = Some seq ->
         grown (Z.of_nat (length l) + Z.of_nat (length seq)) <= INT_MAX ->
         has_children (element_extend h self seq_in).2 (l ++ element_prefix seq)
         /\ (element_prefix seq = seq ->
             (element_extend h self seq_in).1 = Ok Py_None)
         /\ (element_prefix seq <> seq ->
             exists e : exception,
               (element_extend h self seq_in).1 = Raise e
               /\ exc_type e = PyExc_TypeError)).
Proof.
  intros Hkids. unfold element_extend. split.
  - intros ->. split; [|reflexivity]. eexists. split; reflexivity.
  - intros seq -> Hbound. apply extend_loop_spec; assumption.
Qed.

Lemma extend_spec_witness :
  has_children
    (element_extend ∅ five_children
       (PyList [PyElement 7%nat; PyUnicode "x"; PyElement 8%nat])).2
    ([PyElement 0; PyElement 1; PyElement 2; PyElement 3; PyElement 4]%nat
     ++ [PyElement 7%nat])
  /\ exists e : exception,
       (element_extend ∅ five_children
          (PyList [PyElement 7%nat; PyUnicode "x"; PyElement 8%nat])).1 = Raise e
       /\ exc_type e = PyExc_TypeError.
Proof.
  assert (Hkids : has_children five_children
                    [PyElement 0; PyElement 1; PyElement 2; PyElement 3; PyElement 4]%nat).
  { unfold has_children, extra_wf. vm_compute. intuition discriminate. }
  destruct (proj2 (extend_spec ∅ five_children _
                     (PyList [PyElement 7%nat; PyUnicode "x"; PyElement 8%nat]) Hkids)
              [PyElement 7%nat; PyUnicode "x"; PyElement 8%nat] eq_refl)
    as (Hk & _ & Hbad).
  - vm_compute. discriminate.
  - split; [exact Hk|]. apply Hbad. discriminate.
Defined.

(** The loop [for (i = p; i < length - 1; i++) children[i] = children[i+1]]
    after the length was decremented: the child at [p] is gone. *)
Lemma has_children_delete (self : ElementObject) (x : ElementObjectExtra)
  (l : list PyObject) (p : Z) :
  has_children self l ->
  e_extra self = Some x ->
  0 <= p < Z.of_nat (length l) ->
  let len := int_wrap (ex_length x - 1) in
  has_children
    (set_extra self
       (Some (set_length
                (set_children x
                   (move_ascending (ex_children x) (p + 1) (Z.to_nat (len - p)) (-1)))
                len)))
    (delete (Z.to_nat p) l).
Proof.
  intros Hkids Hx Hp len.
  destruct (has_children_length self l Hkids) as [Hlen Hrange].
  destruct (element_length_extra self x Hx) as [Hens Hl].
  pose proof Hkids as ([[_ Hcap] Hbuf] & Hint & _). rewrite Hens in Hcap, Hbuf, Hint.
  assert (Hwrap : len = Z.of_nat (length l) - 1).
  { subst len. rewrite <- Hl, Hlen. apply int_wrap_id.
    unfold INT_MIN, INT_MAX in *. lia. }
  rewrite Hwrap.
  destruct (move_ascending_spec (Z.to_nat (Z.of_nat (length l) - 1 - p))
              (ex_children x) (p + 1) (-1)) as [Hmlen Hmget]; [lia|lia|lia|].
  assert (Hdel : length (delete (Z.to_nat p) l) = (length l - 1)%nat).
  { rewrite length_delete; [reflexivity|]. apply lookup_lt_is_Some. lia. }
  eapply has_children_intro; [cbn [e_extra set_extra]; reflexivity| | | |].
  - unfold extra_wf. cbn [ex_length ex_allocated ex_children set_length set_children].
    rewrite Hmlen. split; [lia|exact Hbuf].
  - exact Hint.
  - cbn [ex_length set_length]. rewrite Hdel. lia.
  - intros k Hk. rewrite Hdel in Hk.
    cbn [ex_children set_children set_length]. rewrite Hmget.
    destruct (Nat.lt_ge_cases k (Z.to_nat p)) as [Hlt|Hge].
    + rewrite list_lookup_delete_lt by exact Hlt.
      replace ((p + 1 + -1 <=? Z.of_nat k)
               && (Z.of_nat k <? p + 1 + Z.of_nat (Z.to_nat (Z.of_nat (length l) - 1 - p)) + -1))
        with false by (symmetry; apply andb_false_iff; left; apply Z.leb_gt; lia).
      rewrite <- Hens, (has_children_get self l _ Hkids) by lia. f_equal. lia.
    + rewrite list_lookup_delete_ge by exact Hge.
      replace ((p + 1 + -1 <=? Z.of_nat k)
               && (Z.of_nat k <? p + 1 + Z.of_nat (Z.to_nat (Z.of_nat (length l) - 1 - p)) + -1))
        with true by (symmetry; apply andb_true_iff; split;
                      [apply Z.leb_le|apply Z.ltb_lt]; lia).
      rewrite <- Hens, (has_children_get self l _ Hkids) by lia. f_equal. lia.
Qed.

Lemma PyObject_eqb_element (c : PyObject) (a : nat) :
  PyObject_eqb c (PyElement a) = true <-> c = PyElement a.
Proof.
  destruct c; simpl; split; intros H; try discriminate.
  - apply Nat.eqb_eq in H. congruence.
  - injection H as ->. apply Nat.eqb_refl.
Qed.

(** The search loop stops at the first slot that holds the element. *)
Lemma remove_scan_spec (seg : list PyObject) :
  forall (b : list (option PyObject)) (i : Z) (a : nat),
    (forall k : nat, (k < length seg)%nat ->
                     buf_get b (i + Z.of_nat k) = seg !! k) ->
    (PyElement a ∉ seg ->
     remove_scan b i (length seg) (PyElement a) = Some (i + Z.of_nat (length seg)))
    /\ (forall l1 l2 : list PyObject,
           seg = l1 ++ PyElement a :: l2 -> PyElement a ∉ l1 ->
           remove_scan b i (length seg) (PyElement a) = Some (i + Z.of_nat (length l1))).
Proof.
  induction seg as [|c seg IH]; intros b i a Hget.
  - split.
    + intros _. cbn. f_equal. lia.
    + intros l1 l2 Heq. destruct l1; discriminate.
  - pose proof (Hget 0%nat ltac:(cbn; lia)) as H0.
    replace (i + Z.of_nat 0) with i in H0 by lia. cbn in H0.
    destruct (IH b (i + 1) a) as [IHno IHyes].
    { intros k Hk. pose proof (Hget (S k) ltac:(cbn; lia)) as HS.
      change ((c :: seg) !! S k) with (seg !! k) in HS.
      rewrite <- HS. f_equal. lia. }
    cbn [length remove_scan]. rewrite H0. cbn. unfold PyObject_RichCompareBool.
    split.
    + intros Hnotin. apply not_elem_of_cons in Hnotin as [Hne Hnotin].
      destruct (PyObject_eqb c (PyElement a)) eqn:Heqb.
      * apply PyObject_eqb_element in Heqb. congruence.
      * rewrite (IHno Hnotin). f_equal. lia.
    + intros l1 l2 Heq Hnotin. destruct l1 as [|c1 l1].
      * injection Heq as -> _. rewrite PyObject_eqb_refl. f_equal. cbn. lia.
      * injection Heq as -> Heq.
        apply not_elem_of_cons in Hnotin as [Hne Hnotin].
        destruct (PyObject_eqb c1 (PyElement a)) eqn:Heqb.
        -- apply PyObject_eqb_element in Heqb. congruence.
        -- rewrite (IHyes l1 l2 Heq Hnotin). f_equal. cbn [length]. lia.
Qed.

(** X7 -- Removal.  On an element in good order, [remove(child)] with an
    Element takes out the first child that is this very element and moves
    the later children down by one; the children before it, and later
    occurrences of the element, stay.  When no child is that element --
    in particular when there are no children -- it raises ValueError
    ("list.remove(x): x not in list") and the element is as before. *)
Theorem remove_spec (self : ElementObject) (l : list PyObject) (a : nat) :
  has_children self l ->
  (PyElement a ∉ l ->
   element_remove self (PyElement a)
   = Some (Raise (PyErr_SetString PyExc_ValueError "list.remove(x): x not in list"),
           self))
  /\ (forall l1 l2 : list PyObject,
         l = l1 ++ PyElement a :: l2 -> PyElement a ∉ l1 ->
         exists self' : ElementObject,
           element_remove self (PyElement a) = Some (Ok Py_None, self')
           /\ has_children self' (l1 ++ l2)).
Proof.
  intros Hkids.
  destruct (has_children_length self l Hkids) as [Hlen Hrange].
  unfold element_remove. cbn [Element_CheckExact negb].
  destruct (e_extra self) as [x|] eqn:Hx.
  - destruct (element_length_extra self x Hx) as [Hens Hl].
    destruct (remove_scan_spec l (ex_children x) 0 a) as [Hno Hyes].
    { intros k Hk. rewrite <- Hens.
      rewrite (has_children_get self l _ Hkids) by lia. f_equal. lia. }
    rewrite <- Hl, Hlen, Nat2Z.id. split.
    + intros Hnotin. rewrite (Hno Hnotin), Z.add_0_l. cbn.
      rewrite Z.eqb_refl. reflexivity.
    + intros l1 l2 Heq Hnotin. rewrite (Hyes l1 l2 Heq Hnotin), Z.add_0_l. cbn.
      assert (Hlt : Z.of_nat (length l1) < Z.of_nat (length l)).
      { rewrite Heq, length_app. cbn [length]. lia. }
      destruct (Z.eqb_spec (Z.of_nat (length l1)) (Z.of_nat (length l))); [lia|].
      eexists. split; [reflexivity|].
      pose proof (has_children_delete self x l (Z.of_nat (length l1)) Hkids Hx
                    ltac:(lia)) as Hdel.
      cbv zeta in Hdel. rewrite Nat2Z.id, <- Hl, Hlen in Hdel.
      replace (delete (length l1) l) with (l1 ++ l2) in Hdel
        by (rewrite Heq, delete_middle; reflexivity).
      exact Hdel.
  - split.
    + intros _. reflexivity.
    + intros l1 l2 Heq _. exfalso.
      unfold element_length in Hlen. rewrite Hx in Hlen.
      rewrite Heq, length_app in Hlen. cbn [length] in Hlen. lia.
Qed.

Lemma remove_spec_witness :
  exists self' : ElementObject,
    element_remove five_children (PyElement 2%nat) = Some (Ok Py_None, self')
    /\ has_children self'
         ([PyElement 0; PyElement 1]%nat ++ [PyElement 3; PyElement 4]%nat).
Proof.
  apply (proj2 (remove_spec five_children
                  [PyElement 0; PyElement 1; PyElement 2; PyElement 3; PyElement 4]%nat
                  2%nat
                  ltac:(unfold has_children, extra_wf; vm_compute;
                        intuition discriminate))).
  - reflexivity.
  - intros Hin. apply elem_of_cons in Hin as [Hin|Hin]; [discriminate|].
    apply elem_of_cons in Hin as [Hin|Hin]; [discriminate|].
    apply elem_of_nil in Hin. exact Hin.
Defined.

(** X8 -- Item assignment and deletion.  On an element in good order with
    [n] children, [elem[i] = item] and [del elem[i]] take a negative index
    from the end.  For an index within the children the item replaces that
    child (whatever object the item is, and with the other children in
    place), and the deletion takes that child out and moves the later ones
    down by one.  For any other index both raise IndexError ("child
    assignment index out of range") and change nothing. *)
Theorem ass_subscr_index (h : store) (self : ElementObject) (l : list PyObject)
  (i : Z) (value : option PyObject) :
  has_children self l ->
  PY_SSIZE_T_MIN <= i <= PY_SSIZE_T_MAX ->
  let n := Z.of_nat (length l) in
  let j := if i <? 0 then i + n else i in
  let after := element_ass_subscr h self (Index i) value in
  (0 <= j < n ->
   after.1 = Ok ()
   /\ has_children after.2
        (match value with
         | Some item => <[Z.to_nat j := item]> l
         | None => delete (Z.to_nat j) l
         end))
  /\ (j < 0 \/ n <= j ->
      after = (Raise (PyErr_SetString PyExc_IndexError
                        "child assignment index out of range"), self)).
Proof.
  intros Hkids Hi n j after.
  destruct (has_children_length self l Hkids) as [Hlen Hrange].
  assert (Hafter : after
                   = element_setitem self
                       (match e_extra self with
                        | Some x => if i <? 0 then i + ex_length x else i
                        | None => i
                        end) value).
  { subst after. unfold element_ass_subscr.
    destruct (Z.leb_spec PY_SSIZE_T_MIN i); [|lia].
    destruct (Z.leb_spec i PY_SSIZE_T_MAX); [|lia]. reflexivity. }
  rewrite Hafter. clear Hafter after. unfold element_setitem.
  destruct (e_extra self) as [x|] eqn:Hx.
  - destruct (element_length_extra self x Hx) as [Hens Hl].
    pose proof Hkids as ([[_ Hcap] Hbuf] & Hint & _).
    rewrite Hens in Hcap, Hbuf, Hint.
    assert (Hn : ex_length x = n) by (rewrite <- Hl; exact Hlen).
    rewrite Hn. fold j. split.
    + intros Hj.
      destruct (Z.ltb_spec j 0); [lia|]. destruct (Z.leb_spec n j); [lia|].
      cbn [orb]. destruct value as [item|].
      * split; [reflexivity|]. cbn [snd].
        eapply has_children_intro; [cbn [e_extra set_extra]; reflexivity| | | |].
        -- unfold extra_wf. cbn [ex_length ex_allocated ex_children set_children].
           rewrite buf_set_length. split; [lia|exact Hbuf].
        -- exact Hint.
        -- cbn [ex_length set_children]. rewrite length_insert. exact Hn.
        -- intros k Hk. rewrite length_insert in Hk.
           cbn [ex_children set_children]. rewrite buf_get_set by lia.
           destruct (Z.eqb_spec (Z.of_nat k) j) as [Heq|Hne].
           ++ replace (Z.to_nat j) with k by lia.
              rewrite list_lookup_insert_eq by exact Hk. reflexivity.
           ++ rewrite list_lookup_insert_ne by lia.
              rewrite <- Hens, (has_children_get self l _ Hkids) by lia.
              f_equal. lia.
      * split; [reflexivity|]. cbn [snd].
        pose proof (has_children_delete self x l j Hkids Hx Hj) as Hdel.
        cbv zeta in Hdel. rewrite Hn in Hdel. exact Hdel.
    + intros Hj.
      assert (Hout : (j <? 0) || (n <=? j) = true).
      { apply orb_true_iff. destruct Hj; [left; apply Z.ltb_lt|right; apply Z.leb_le]; lia. }
      rewrite Hout. reflexivity.
  - split; [|intros _; reflexivity].
    intros Hj. exfalso. unfold element_length in Hlen. rewrite Hx in Hlen.
    subst j n. destruct (i <? 0); lia.
Qed.

Lemma ass_subscr_index_witness :
  (element_ass_subscr ∅ five_children (Index (-1)) None).1 = Ok ()
  /\ has_children (element_ass_subscr ∅ five_children (Index (-1)) None).2
       (delete 4%nat [PyElement 0; PyElement 1; PyElement 2; PyElement 3; PyElement 4]%nat)
  /\ (element_ass_subscr ∅ five_children (Index 1) (Some (PyUnicode "x"))).1 = Ok ()
  /\ has_children
       (element_ass_subscr ∅ five_children (Index 1) (Some (PyUnicode "x"))).2
       (<[1%nat := PyUnicode "x"]>
          [PyElement 0; PyElement 1; PyElement 2; PyElement 3; PyElement 4]%nat).
Proof.
  assert (Hkids : has_children five_children
                    [PyElement 0; PyElement 1; PyElement 2; PyElement 3; PyElement 4]%nat).
  { unfold has_children, extra_wf. vm_compute. intuition discriminate. }
  assert (Hi : forall i : Z, -6 <= i <= 6 -> PY_SSIZE_T_MIN <= i <= PY_SSIZE_T_MAX).
  { intros i Hi6. unfold PY_SSIZE_T_MIN, PY_SSIZE_T_MAX. lia. }
  destruct (proj1 (ass_subscr_index ∅ five_children _ (-1) None Hkids
                     (Hi (-1) ltac:(lia))) ltac:(simpl; lia)) as [H1 H2].
  destruct (proj1 (ass_subscr_index ∅ five_children _ 1 (Some (PyUnicode "x")) Hkids
                     (Hi 1 ltac:(lia))) ltac:(simpl; lia)) as [H3 H4].
  split; [exact H1|]. split; [exact H2|]. split; [exact H3|exact H4].
Defined.

(** ** Copying *)





(** ** Attributes *)

Lemma PyObject_eqb_eq : forall a b : PyObject, PyObject_eqb a b = true -> a = b.
Proof.
  fix IH 1.
  intros [ | s | s | n | l | l | l | r] [ | t | t | m | l' | l' | l' | r'];
    simpl; try discriminate; intros H.
  - reflexivity.
  - apply String.eqb_eq in H. congruence.
  - apply String.eqb_eq in H. congruence.
  - apply Z.eqb_eq in H. congruence.
  - f_equal. revert l' H. induction l as [|x l IHl]; intros [|y l'] H;
      try discriminate; [reflexivity|].
    apply andb_true_iff in H as [Hx Hl]. f_equal; [apply IH; exact Hx|apply IHl; exact Hl].
  - f_equal. revert l' H. induction l as [|x l IHl]; intros [|y l'] H;
      try discriminate; [reflexivity|].
    apply andb_true_iff in H as [Hx Hl]. f_equal; [apply IH; exact Hx|apply IHl; exact Hl].
  - f_equal. revert l' H. induction l as [|[k v] l IHl]; intros [|[k' v'] l'] H;
      try discriminate; [reflexivity|].
    apply andb_true_iff in H as [H Hl]. apply andb_true_iff in H as [Hk Hv].
    f_equal; [|apply IHl; exact Hl].
    f_equal; apply IH; assumption.
  - apply Nat.eqb_eq in H. congruence.
Qed.

Lemma dict_lookup_store (d : list (PyObject * PyObject)) (key value : PyObject) :
  dict_lookup (dict_store d key value) key = Some value.
Proof.
  induction d as [|[k v] d IH]; cbn [dict_store dict_lookup].
  - rewrite PyObject_eqb_refl. reflexivity.
  - destruct (PyObject_eqb k key) eqn:Hk; cbn [dict_lookup]; rewrite Hk;
      [reflexivity|exact IH].
Qed.

Lemma dict_lookup_store_other (d : list (PyObject * PyObject))
  (key value key' : PyObject) :
  key' <> key ->
  dict_lookup (dict_store d key value) key' = dict_lookup d key'.
Proof.
  intros Hne.
  assert (Hboth : forall k : PyObject,
             PyObject_eqb k key = true -> PyObject_eqb k key' = false).
  { intros k Hk. apply PyObject_eqb_eq in Hk. subst k.
    destruct (PyObject_eqb key key') eqn:Hkk; [|reflexivity].
    apply PyObject_eqb_eq in Hkk. congruence. }
  induction d as [|[k v] d IH]; cbn [dict_store dict_lookup].
  - rewrite (Hboth key (PyObject_eqb_refl key)). reflexivity.
  - destruct (PyObject_eqb k key) eqn:Hk; cbn [dict_lookup].
    + rewrite (Hboth k Hk). reflexivity.
    + rewrite IH. reflexivity.
Qed.

(** X10 -- Attribute store and lookup.  On an element whose attribute
    storage is absent or a dictionary, [set(key, value)] with a hashable
    key returns None; afterwards [get(key, default)] returns the value,
    whether the key is new or was there before, [get] of every other key
    answers as it did before the call, and the children are the same. *)
Theorem set_then_get (self : ElementObject) (key value : PyObject) :
  (ex_attrib (ensure_extra self) = Py_None
   \/ exists items, ex_attrib (ensure_extra self) = PyDict items) ->
  hashable key = true ->
  let after := element_set self key value in
  after.1 = Ok Py_None
  /\ (forall default_value : PyObject,
         (element_get after.2 key default_value).1 = Ok value)
  /\ (forall key' default_value : PyObject,
         key' <> key ->
         (element_get after.2 key' default_value).1
         = (element_get self key' default_value).1)
  /\ element_children after.2 = element_children self.
Proof.
  intros Hattr Hkey after. subst after.
  unfold element_set, element_get_attrib.
  assert (Hget : forall key' d : PyObject,
             (element_get self key' d).1
             = if PyObject_eqb (ex_attrib (ensure_extra self)) Py_None then Ok d
               else match PyDict_GetItem (ex_attrib (ensure_extra self)) key' with
                    | Some v => Ok v
                    | None => Ok d
                    end).
  { intros key' d. unfold element_get, ensure_extra.
    destruct (e_extra self) as [x|]; [|reflexivity].
    destruct (PyObject_eqb (ex_attrib x) Py_None); [reflexivity|].
    destruct (PyDict_GetItem (ex_attrib x) key'); reflexivity. }
  assert (Hkids : forall x' : ElementObjectExtra,
             ex_length x' = ex_length (ensure_extra self) ->
             ex_children x' = ex_children (ensure_extra self) ->
             element_children (set_extra self (Some x')) = element_children self).
  { intros x' Hl Hc. rewrite <- (child_slots_ensure self).
    unfold element_children, child_slots. cbn. rewrite Hl, Hc. reflexivity. }
  destruct Hattr as [Hnone|[items Hitems]].
  - rewrite Hnone. cbn [PyObject_eqb]. unfold PyDict_SetItem. rewrite Hkey.
    cbn [fst snd dict_store].
    split; [reflexivity|]. split; [|split].
    + intros d. unfold element_get. cbn. rewrite Hkey, PyObject_eqb_refl. reflexivity.
    + intros key' d Hne. rewrite Hget, Hnone. unfold element_get. cbn.
      destruct (hashable key'); [|reflexivity].
      destruct (PyObject_eqb key key') eqn:Hkk; [|reflexivity].
      apply PyObject_eqb_eq in Hkk. congruence.
    + apply Hkids; reflexivity.
  - rewrite Hitems. cbn [PyObject_eqb]. unfold PyDict_SetItem. rewrite Hkey.
    cbn [fst snd].
    split; [reflexivity|]. split; [|split].
    + intros d. unfold element_get. cbn. rewrite Hkey, dict_lookup_store. reflexivity.
    + intros key' d Hne. rewrite Hget, Hitems. unfold element_get. cbn.
      destruct (hashable key'); [|reflexivity].
      rewrite (dict_lookup_store_other items key value key' Hne).
      destruct (dict_lookup items key'); reflexivity.
    + apply Hkids; reflexivity.
Qed.

Lemma set_then_get_witness :
  let self := create_new_element (PyUnicode "a")
                (Some (PyDict [(PyUnicode "x", PyUnicode "1");
                               (PyUnicode "y", PyUnicode "2")])) in
  (element_get (element_set self (PyUnicode "x") (PyUnicode "3")).2
     (PyUnicode "x") Py_None).1 = Ok (PyUnicode "3")
  /\ (element_get (element_set self (PyUnicode "x") (PyUnicode "3")).2
        (PyUnicode "y") Py_None).1
     = (element_get self (PyUnicode "y") Py_None).1.
Proof.
  cbv zeta.
  destruct (set_then_get
              (create_new_element (PyUnicode "a")
                 (Some (PyDict [(PyUnicode "x", PyUnicode "1");
                                (PyUnicode "y", PyUnicode "2")])))
              (PyUnicode "x") (PyUnicode "3"))
    as (_ & Hsame & Hother & _).
  - right. eexists. reflexivity.
  - reflexivity.
  - split; [apply Hsame|]. apply Hother. discriminate.
Defined.

(** X11 -- Assigned attributes read back as they are.  Assigning [tag],
    [text], [tail], [start] or [end] stores the object given, and reading
    the attribute afterwards returns that very object and changes nothing:
    a list assigned to [text] or [tail] by the application is not joined.
    The same holds for [attrib] unless the object is None, which reads as
    a new empty dictionary.  No assignment changes the local name, the
    namespace or the children, and a name outside this set is rejected
    with the element left as it was. *)
Theorem assigned_attribute_reads_back (h : store) (self : ElementObject)
  (name : string) (value : PyObject) :
  let after := (element_setattro self name value).2 in
  (name ∈ ["tag"; "text"; "tail"; "start"; "end"]%string ->
   element_getattro h after name = (Ok (AttrValue value), after))
  /\ (name = "attrib"%string -> value <> Py_None ->
      element_getattro h after name = (Ok (AttrValue value), after))
  /\ e_localName after = e_localName self
  /\ e_ns after = e_ns self
  /\ element_children after = element_children self
  /\ (name ∉ ["tag"; "text"; "tail"; "attrib"; "start"; "end"]%string ->
      after = self).
Proof.
  cbv zeta. split; [|split; [|split; [|split; [|split]]]].
  - intros Hin.
    repeat (apply elem_of_cons in Hin as [->|Hin]; [reflexivity|]).
    apply elem_of_nil in Hin. contradiction.
  - intros -> Hvalue. unfold element_setattro, element_getattro. cbn.
    unfold element_get_attrib. cbn.
    destruct (PyObject_eqb value Py_None) eqn:Hnone; [|reflexivity].
    apply PyObject_eqb_None in Hnone. contradiction.
  - unfold element_setattro.
    repeat (destruct (String.eqb name _); [reflexivity|]). reflexivity.
  - unfold element_setattro.
    repeat (destruct (String.eqb name _); [reflexivity|]). reflexivity.
  - unfold element_setattro.
    repeat (destruct (String.eqb name _);
            [try reflexivity; apply (child_slots_ensure self)|]).
    reflexivity.
  - intros Hnot. unfold element_setattro.
    repeat match goal with
           | |- context [String.eqb name ?s] =>
               destruct (String.eqb_spec name s) as [Heq|_];
               [exfalso; apply Hnot; rewrite Heq; set_solver|]
           end.
    reflexivity.
Qed.

Lemma assigned_attribute_reads_back_witness :
  element_getattro ∅
    (element_setattro (create_new_element (PyUnicode "a") None) "text"
       (PyList [PyUnicode "x"; PyUnicode "y"])).2 "text"
  = (Ok (AttrValue (PyList [PyUnicode "x"; PyUnicode "y"])),
     (element_setattro (create_new_element (PyUnicode "a") None) "text"
        (PyList [PyUnicode "x"; PyUnicode "y"])).2).
Proof.
  apply (proj1 (assigned_attribute_reads_back ∅
                  (create_new_element (PyUnicode "a") None) "text"
                  (PyList [PyUnicode "x"; PyUnicode "y"]))).
  set_solver.
Defined.

(** ** Searching the children *)

Lemma live_cons (h : store) (c : PyObject) (l : list PyObject) :
  live h (c :: l) -> live h l.
Proof. intros Hlive a Ha. apply Hlive. apply elem_of_cons. right. exact Ha. Qed.

Lemma segment_tail (b : list (option PyObject)) (i : Z) (c : PyObject)
  (seg : list PyObject) :
  (forall k : nat, (k < length (c :: seg))%nat ->
                   buf_get b (i + Z.of_nat k) = (c :: seg) !! k) ->
  buf_get b i = Some c
  /\ forall k : nat, (k < length seg)%nat ->
                     buf_get b (i + 1 + Z.of_nat k) = seg !! k.
Proof.
  intros Hget. split.
  - pose proof (Hget 0%nat ltac:(cbn; lia)) as H0.
    replace (i + Z.of_nat 0) with i in H0 by lia. exact H0.
  - intros k Hk. pose proof (Hget (S k) ltac:(cbn; lia)) as HS.
    change ((c :: seg) !! S k) with (seg !! k) in HS.
    rewrite <- HS. f_equal. lia.
Qed.

Lemma findall_loop_spec (h : store) (tag : PyObject) (seg : list PyObject) :
  forall (b : list (option PyObject)) (i : Z),
    (forall k : nat, (k < length seg)%nat ->
                     buf_get b (i + Z.of_nat k) = seg !! k) ->
    live h seg ->
    findall_loop h b i (length seg) tag = Some (List.filter (has_tag h tag) seg).
Proof.
  induction seg as [|c seg IH]; intros b i Hget Hlive; [reflexivity|].
  destruct (segment_tail b i c seg Hget) as [H0 Hrest].
  specialize (IH b (i + 1) Hrest (live_cons h c seg Hlive)).
  cbn [length findall_loop List.filter]. rewrite H0. cbn.
  destruct c as [ | | | | | | | a]; try exact IH.
  destruct (Hlive a ltac:(apply elem_of_cons; left; reflexivity)) as [e He].
  cbn [has_tag]. rewrite He. cbn. rewrite IH. cbn.
  destruct (PyObject_RichCompareBool (e_tag e) tag); reflexivity.
Qed.

Lemma find_loop_spec (h : store) (tag : PyObject) (seg : list PyObject) :
  forall (b : list (option PyObject)) (i : Z),
    (forall k : nat, (k < length seg)%nat ->
                     buf_get b (i + Z.of_nat k) = seg !! k) ->
    live h seg ->
    find_loop h b i (length seg) tag
    = Some (default Py_None (head (List.filter (has_tag h tag) seg))).
Proof.
  induction seg as [|c seg IH]; intros b i Hget Hlive; [reflexivity|].
  destruct (segment_tail b i c seg Hget) as [H0 Hrest].
  specialize (IH b (i + 1) Hrest (live_cons h c seg Hlive)).
  cbn [length find_loop List.filter]. rewrite H0. cbn.
  destruct c as [ | | | | | | | a]; try exact IH.
  destruct (Hlive a ltac:(apply elem_of_cons; left; reflexivity)) as [e He].
  cbn [has_tag]. rewrite He. cbn.
  destruct (PyObject_RichCompareBool (e_tag e) tag); [reflexivity|exact IH].
Qed.

Lemma findtext_loop_spec (h : store) (tag d : PyObject) (seg : list PyObject) :
  forall (b : list (option PyObject)) (i : Z),
    (forall k : nat, (k < length seg)%nat ->
                     buf_get b (i + Z.of_nat k) = seg !! k) ->
    live h seg ->
    (head (List.filter (has_tag h tag) seg) = None ->
     findtext_loop h b i (length seg) tag d = Some (Ok d, h))
    /\ (forall (a : nat) (e : ElementObject),
           head (List.filter (has_tag h tag) seg) = Some (PyElement a) ->
           h !! a = Some e ->
           findtext_loop h b i (length seg) tag d
           = Some (match element_get_text h e with
                   | (Ok text, e') =>
                       (Ok (if PyObject_eqb text Py_None then PyUnicode EmptyString
                            else text), <[a := e']> h)
                   | (Raise err, _) => (Raise err, h)
                   end)).
Proof.
  induction seg as [|c seg IH]; intros b i Hget Hlive.
  - split; [reflexivity|]. intros a e Hhead. discriminate.
  - destruct (segment_tail b i c seg Hget) as [H0 Hrest].
    specialize (IH b (i + 1) Hrest (live_cons h c seg Hlive)).
    cbn [length findtext_loop List.filter]. rewrite H0. cbn.
    destruct c as [ | | | | | | | a0]; try exact IH.
    destruct (Hlive a0 ltac:(apply elem_of_cons; left; reflexivity)) as [e0 He0].
    cbn [has_tag]. rewrite He0. cbn.
    destruct (PyObject_RichCompareBool (e_tag e0) tag); [|exact IH].
    split; [discriminate|].
    intros a e Hhead He. cbn in Hhead. injection Hhead as <-.
    rewrite He0 in He. injection He as <-.
    destruct (element_get_text h e0) as [[text|err] e']; reflexivity.
Qed.

Lemma has_children_segment (self : ElementObject) (x : ElementObjectExtra)
  (l : list PyObject) :
  has_children self l ->
  e_extra self = Some x ->
  Z.to_nat (ex_length x) = length l
  /\ forall k : nat, (k < length l)%nat ->
                     buf_get (ex_children x) (0 + Z.of_nat k) = l !! k.
Proof.
  intros Hkids Hx.
  destruct (has_children_length self l Hkids) as [Hlen Hrange].
  destruct (element_length_extra self x Hx) as [Hens Hl].
  split; [lia|].
  intros k Hk. rewrite <- Hens.
  rewrite (has_children_get self l _ Hkids) by lia. f_equal. lia.
Qed.

Lemma has_children_none (self : ElementObject) (l : list PyObject) :
  has_children self l -> e_extra self = None -> l = [].
Proof.
  intros Hkids Hx.
  destruct (has_children_length self l Hkids) as [Hlen _].
  unfold element_length in Hlen. rewrite Hx in Hlen.
  destruct l; [reflexivity|cbn in Hlen; lia].
Qed.

(** X12 -- Searching by tag.  For a tag that is no path expression and
    without namespaces, on an element in good order whose children are
    objects of the store, [findall(tag)] returns the children that are
    Elements with an equal tag, in the order of the children, and
    [find(tag)] returns the first of them, or None when there is none.
    With a path expression or with namespaces both searches are handed to
    the ElementPath module. *)
Theorem find_first_of_findall (h : store) (self : ElementObject)
  (l : list PyObject) (tag : PyObject) :
  has_children self l ->
  live h l ->
  (checkpath tag = false ->
   element_findall h self tag Py_None
   = Some (Direct (PyList (List.filter (has_tag h tag) l)))
   /\ element_find h self tag Py_None
      = Some (Direct (default Py_None (head (List.filter (has_tag h tag) l)))))
  /\ (forall namespaces : PyObject,
         checkpath tag = true \/ namespaces <> Py_None ->
         element_findall h self tag namespaces
         = Some (ViaElementPath "findall" [tag; namespaces])
         /\ element_find h self tag namespaces
            = Some (ViaElementPath "find" [tag; namespaces])).
Proof.
  intros Hkids Hlive. unfold element_findall, element_find. split.
  - intros ->. cbn [PyObject_eqb negb orb].
    destruct (e_extra self) as [x|] eqn:Hx.
    + destruct (has_children_segment self x l Hkids Hx) as [Hn Hseg].
      rewrite Hn, (findall_loop_spec h tag l _ 0 Hseg Hlive),
        (find_loop_spec h tag l _ 0 Hseg Hlive).
      split; reflexivity.
    + rewrite (has_children_none self l Hkids Hx). split; reflexivity.
  - intros namespaces Hcase.
    assert (Hvia : checkpath tag || negb (PyObject_eqb namespaces Py_None) = true).
    { destruct Hcase as [->|Hns]; [reflexivity|].
      apply orb_true_iff. right.
      destruct (PyObject_eqb namespaces Py_None) eqn:Hnone; [|reflexivity].
      apply PyObject_eqb_None in Hnone. contradiction. }
    rewrite Hvia. split; reflexivity.
Qed.

(** X13 -- Text of the first match.  Under the conditions of the direct
    search, [findtext(tag, default)] returns the default when no child has
    the tag; otherwise it reads the text of the first such child the way
    the [text] attribute does -- a pending list of fragments is joined and
    stored in the child -- and returns it, with the empty string in place
    of None. *)
Theorem findtext_of_first (h : store) (self : ElementObject)
  (l : list PyObject) (tag default_value : PyObject) :
  has_children self l ->
  live h l ->
  checkpath tag = false ->
  (head (List.filter (has_tag h tag) l) = None ->
   element_findtext h self tag default_value Py_None
   = Some (Direct (Ok default_value, h)))
  /\ (forall (a : nat) (e : ElementObject),
         head (List.filter (has_tag h tag) l) = Some (PyElement a) ->
         h !! a = Some e ->
         element_findtext h self tag default_value Py_None
         = Some (Direct
                   (match element_get_text h e with
                    | (Ok text, e') =>
                        (Ok (if PyObject_eqb text Py_None then PyUnicode EmptyString
                             else text), <[a := e']> h)
                    | (Raise err, _) => (Raise err, h)
                    end))).
Proof.
  intros Hkids Hlive Hpath. unfold element_findtext. rewrite Hpath.
  cbn [PyObject_eqb negb orb].
  destruct (e_extra self) as [x|] eqn:Hx.
  - destruct (has_children_segment self x l Hkids Hx) as [Hn Hseg].
    rewrite Hn.
    destruct (findtext_loop_spec h tag default_value l _ 0 Hseg Hlive) as [Hnone Hsome].
    split.
    + intros Hhead. rewrite (Hnone Hhead). reflexivity.
    + intros a e Hhead He. rewrite (Hsome a e Hhead He). reflexivity.
  - rewrite (has_children_none self l Hkids Hx). split; [reflexivity|].
    intros a e Hhead. discriminate.
Qed.

Lemma sample_root_children :
  has_children sample_root [PyElement 1; PyElement 2; PyElement 3]%nat
  /\ live sample_tree [PyElement 1; PyElement 2; PyElement 3]%nat.
Proof.
  split.
  - unfold has_children, extra_wf. vm_compute. intuition discriminate.
  - intros a Ha.
    repeat (apply elem_of_cons in Ha as [Ha|Ha];
            [injection Ha as ->; vm_compute; eexists; reflexivity|]).
    apply elem_of_nil in Ha. contradiction.
Qed.

Lemma find_first_of_findall_witness :
  element_findall sample_tree sample_root xhtml_p Py_None
  = Some (Direct (PyList [PyElement 1; PyElement 3]%nat))
  /\ element_find sample_tree sample_root xhtml_p Py_None
     = Some (Direct (PyElement 1%nat))
  /\ element_find sample_tree sample_root (PyUnicode "./q") Py_None
     = Some (ViaElementPath "find" [PyUnicode "./q"; Py_None]).
Proof.
  destruct sample_root_children as [Hkids Hlive].
  destruct (proj1 (find_first_of_findall sample_tree sample_root _ xhtml_p Hkids Hlive)
              eq_refl) as [Hall Hfirst].
  destruct (proj2 (find_first_of_findall sample_tree sample_root _ (PyUnicode "./q")
                     Hkids Hlive) Py_None (or_introl eq_refl)) as [_ Hvia].
  split; [exact Hall|]. split; [exact Hfirst|exact Hvia].
Defined.

Lemma findtext_of_first_witness :
  exists h' : store,
    element_findtext sample_tree sample_root xhtml_p Py_None Py_None
    = Some (Direct (Ok (PyUnicode "one"), h'))
    /\ (e_text <$> h' !! 1%nat) = Some (untagged (PyUnicode "one"))
    /\ (e_text <$> sample_tree !! 1%nat)
       = Some {| JOIN_OBJ := PyList [PyUnicode "o"; PyUnicode "ne"];
                 JOIN_GET := true |}.
Proof.
  destruct sample_root_children as [Hkids Hlive].
  assert (He : exists e, sample_tree !! 1%nat = Some e) by (vm_compute; eexists; reflexivity).
  destruct He as [e He].
  pose proof (proj2 (findtext_of_first sample_tree sample_root _ xhtml_p Py_None
                       Hkids Hlive eq_refl) 1%nat e eq_refl He) as Hfind.
  assert (Hval : sample_tree !! 1%nat = Some e) by exact He.
  vm_compute in He. injection He as <-.
  eexists. split; [exact Hfind|]. split; vm_compute; reflexivity.
Defined.

(** ** Path expressions *)

Lemma checkpath_scan_plain (s : string) (check : bool) :
  string_forall (fun c => negb (is_brace c)) s = true ->
  checkpath_scan check s
  = check && negb (string_forall (fun c => negb (PATHCHAR c)) s).
Proof.
  induction s as [|c s IH]; intros Hs.
  - destruct check; reflexivity.
  - cbn [string_forall] in Hs. apply andb_true_iff in Hs as [Hc Hs].
    unfold is_brace in Hc. apply negb_true_iff, orb_false_iff in Hc as [Hl Hr].
    cbn [checkpath_scan string_forall]. rewrite Hl, Hr, (IH Hs).
    destruct check; [|reflexivity].
    cbn [andb]. destruct (PATHCHAR c); reflexivity.
Qed.

Lemma checkpath_scan_uri (uri rest : string) :
  string_forall (fun c => negb (is_brace c)) uri = true ->
  checkpath_scan false (uri +:+ "}" +:+ rest) = checkpath_scan true rest.
Proof.
  induction uri as [|c uri IH]; intros Hs.
  - reflexivity.
  - cbn [string_forall] in Hs. apply andb_true_iff in Hs as [Hc Hs].
    unfold is_brace in Hc. apply negb_true_iff, orb_false_iff in Hc as [Hl Hr].
    rewrite string_cons_append. cbn [checkpath_scan].
    rewrite Hl, Hr. cbn [andb]. exact (IH Hs).
Qed.

(** X14 -- What counts as a path expression.  For a tag in universal form
    [{uri}local], with no brace inside [uri] and [local], only [local]
    decides: the tag is a path expression exactly when [local] holds one
    of the characters [/ * [ @ .], however many of them the URI holds.
    The same goes for a plain name, for str and for bytes tags; a tag of
    another type is always taken as a path expression. *)
Theorem universal_name_path (uri local : string) :
  string_forall (fun c => negb (is_brace c)) uri = true ->
  string_forall (fun c => negb (is_brace c)) local = true ->
  let tag := "{" +:+ uri +:+ "}" +:+ local in
  let in_local := negb (string_forall (fun c => negb (PATHCHAR c)) local) in
  checkpath (PyUnicode tag) = in_local
  /\ checkpath (PyBytes tag) = in_local
  /\ checkpath (PyUnicode local) = in_local
  /\ checkpath (PyBytes local) = in_local
  /\ forall o : PyObject,
       (forall s : string, o <> PyUnicode s /\ o <> PyBytes s) -> checkpath o = true.
Proof.
  intros Huri Hlocal tag in_local.
  assert (Htag : checkpath_scan true tag = in_local).
  { subst tag. change ("{" +:+ uri +:+ "}" +:+ local)
      with (String (chr "{") (uri +:+ "}" +:+ local)).
    cbn [checkpath_scan]. change (Ascii.eqb (chr "{") (chr "{")) with true.
    cbv iota. rewrite (checkpath_scan_uri uri local Huri).
    apply (checkpath_scan_plain local true Hlocal). }
  assert (Hplain : checkpath_scan true local = in_local)
    by apply (checkpath_scan_plain local true Hlocal).
  split; [exact Htag|]. split; [exact Htag|].
  split; [exact Hplain|]. split; [exact Hplain|].
  intros o Ho. destruct o as [ |s|s| | | | | ]; try reflexivity.
  - destruct (Ho s) as [H _]. contradiction.
  - destruct (Ho s) as [_ H]. contradiction.
Qed.

Lemma universal_name_path_witness :
  checkpath xhtml_p = false
  /\ checkpath (PyUnicode "{http://www.w3.org/1999/xhtml}p/a") = true.
Proof.
  split.
  - apply (proj1 (universal_name_path "http://www.w3.org/1999/xhtml" "p"
                    eq_refl eq_refl)).
  - apply (proj1 (universal_name_path "http://www.w3.org/1999/xhtml" "p/a"
                    eq_refl eq_refl)).
Defined.

(** * More of the tree builder *)

(** ** Single calls *)

Lemma append_event_fields (s : TreeBuilderObject) (ev : PyObject) :
  tb_root (append_event s ev) = tb_root s
  /\ tb_this (append_event s ev) = tb_this s
  /\ tb_last (append_event s ev) = tb_last s
  /\ tb_data (append_event s ev) = tb_data s
  /\ tb_stack (append_event s ev) = tb_stack s
  /\ tb_index (append_event s ev) = tb_index s
  /\ same_settings s (append_event s ev)
  /\ tb_events (append_event s ev) = (fun l => l ++ [ev]) <$> tb_events s.
Proof.
  unfold append_event, same_settings.
  destruct (tb_events s) eqn:He; cbn; rewrite ?He; repeat split; reflexivity.
Qed.

Lemma maybe_event_fields (o : option PyObject) (s : TreeBuilderObject)
  (f : PyObject -> PyObject) :
  let s' := match o with
            | Some action => append_event s (f action)
            | None => s
            end in
  tb_root s' = tb_root s
  /\ tb_this s' = tb_this s
  /\ tb_last s' = tb_last s
  /\ tb_data s' = tb_data s
  /\ tb_stack s' = tb_stack s
  /\ tb_index s' = tb_index s
  /\ same_settings s s'
  /\ tb_events s'
     = (fun l => l ++ match o with Some action => [f action] | None => [] end)
         <$> tb_events s.
Proof.
  destruct o as [action|]; cbv zeta.
  - apply append_event_fields.
  - unfold same_settings. repeat split; try reflexivity.
    destruct (tb_events s); cbn; [rewrite app_nil_r|]; reflexivity.
Qed.

(** A start call inside an open element. *)
Lemma handle_start_open (self : TreeBuilderObject) (h : store)
  (tag attrib : PyObject) (line col pos : Z) (p : nat) :
  builder_ok self = true ->
  tb_this self = PyElement p ->
  let r := treebuilder_handle_start self h tag attrib line col pos in
  exists a : nat,
    r.1.1 = Ok (PyElement a)
    /\ tb_this r.1.2 = PyElement a
    /\ tb_last r.1.2 = PyElement a
    /\ tb_index r.1.2 = tb_index self + 1
    /\ tb_root r.1.2 = tb_root self
    /\ tb_stack r.1.2
       = (if tb_index self <? Z.of_nat (length (tb_stack self))
          then buf_set (tb_stack self) (tb_index self) (Some (tb_this self))
          else tb_stack self ++ [Some (tb_this self)])
    /\ same_settings self r.1.2
    /\ tb_events r.1.2
       = (fun l => l ++ start_event self (PyElement a)) <$> tb_events self.
Proof.
  intros Hok Hthis r. subst r.
  destruct (flush_data_ok self h Hok) as (h1 & Hflush & _).
  unfold treebuilder_handle_start. rewrite Hflush. cbn [tb_this set_tb_data].
  rewrite Hthis. cbn [PyObject_eqb negb treebuilder_add_subelement].
  exists (fresh (dom h1)). cbn [fst snd].
  match goal with
  | |- context [match ?o with Some _ => _ | None => ?s0 end] =>
      destruct (maybe_event_fields o s0
                  (fun action => PyTuple [action; PyElement (fresh (dom h1))]))
        as (H1 & H2 & H3 & _ & H5 & H6 & H7 & H8)
  end.
  cbv beta zeta in H1, H2, H3, H5, H6, H7, H8.
  rewrite H1, H2, H3, H5, H6, H8.
  split; [reflexivity|]. split; [reflexivity|]. split; [reflexivity|].
  split; [reflexivity|]. split; [reflexivity|]. split; [reflexivity|].
  split; [exact H7|reflexivity].
Qed.

(** An end call with an element open. *)
Lemma handle_end_open (self : TreeBuilderObject) (h : store)
  (tag : PyObject) (line col pos : Z) :
  builder_ok self = true ->
  tb_index self <> 0 ->
  let r := treebuilder_handle_end self h tag line col pos in
  r.1.1 = Ok (tb_this self)
  /\ tb_this r.1.2 = default Py_None (buf_get (tb_stack self) (tb_index self - 1))
  /\ tb_last r.1.2 = tb_this self
  /\ tb_index r.1.2 = tb_index self - 1
  /\ tb_root r.1.2 = tb_root self
  /\ tb_stack r.1.2 = tb_stack self
  /\ same_settings self r.1.2
  /\ tb_events r.1.2
     = (fun l => l ++ end_event_of self (tb_this self)) <$> tb_events self.
Proof.
  intros Hok Hindex r. subst r.
  destruct (flush_data_ok self h Hok) as (h1 & Hflush & _).
  unfold treebuilder_handle_end. rewrite Hflush. cbn [tb_index set_tb_data].
  destruct (Z.eqb_spec (tb_index self) 0) as [|_]; [contradiction|].
  cbn [fst snd].
  match goal with
  | |- context [match ?o with Some _ => _ | None => ?s0 end] =>
      destruct (maybe_event_fields o s0
                  (fun action => PyTuple [action; tb_last s0]))
        as (H1 & H2 & H3 & _ & H5 & H6 & H7 & H8)
  end.
  cbv beta zeta in H1, H2, H3, H5, H6, H7, H8.
  rewrite H1, H2, H3, H5, H6, H8.
  split; [reflexivity|].
  split; [reflexivity|]. split; [reflexivity|].
  split; [reflexivity|]. split; [reflexivity|]. split; [reflexivity|].
  split; [exact H7|reflexivity].
Qed.

(** An end call with no element open. *)
Lemma handle_end_closed (self : TreeBuilderObject) (h : store)
  (tag : PyObject) (line col pos : Z) :
  builder_ok self = true ->
  tb_index self = 0 ->
  let r := treebuilder_handle_end self h tag line col pos in
  r.1.1 = Raise (PyErr_SetString PyExc_IndexError "pop from empty stack")
  /\ r.1.2 = set_tb_data self None.
Proof.
  intros Hok Hindex r. subst r.
  destruct (flush_data_ok self h Hok) as (h1 & Hflush & _).
  unfold treebuilder_handle_end. rewrite Hflush. cbn [tb_index set_tb_data].
  rewrite Hindex. split; reflexivity.
Qed.

(** A start call with no element open. *)
Lemma handle_start_closed (self : TreeBuilderObject) (h : store)
  (tag attrib : PyObject) (line col pos : Z) :
  builder_ok self = true ->
  tb_this self = Py_None ->
  let r := treebuilder_handle_start self h tag attrib line col pos in
  (tb_root self <> None ->
   is_Ok r.1.1 = false /\ r.1.2 = set_tb_data self None)
  /\ (tb_root self = None ->
      exists a : nat,
        r.1.1 = Ok (PyElement a)
        /\ tb_this r.1.2 = PyElement a
        /\ tb_last r.1.2 = PyElement a
        /\ tb_index r.1.2 = tb_index self + 1
        /\ tb_root r.1.2 = Some (PyElement a)
        /\ tb_stack r.1.2
           = (if tb_index self <? Z.of_nat (length (tb_stack self))
              then buf_set (tb_stack self) (tb_index self) (Some Py_None)
              else tb_stack self ++ [Some Py_None])
        /\ same_settings self r.1.2
        /\ tb_events r.1.2
           = (fun l => l ++ start_event self (PyElement a)) <$> tb_events self).
Proof.
  intros Hok Hthis r. subst r.
  destruct (flush_data_ok self h Hok) as (h1 & Hflush & _).
  unfold treebuilder_handle_start. rewrite Hflush. cbn [tb_this tb_root set_tb_data].
  rewrite Hthis. cbn [PyObject_eqb negb].
  destruct (tb_root self) as [root|] eqn:Hroot.
  - split; [|discriminate]. intros _. split; reflexivity.
  - split; [contradiction|]. intros _.
    exists (fresh (dom h1)). cbn [fst snd].
    match goal with
    | |- context [match ?o with Some _ => _ | None => ?s0 end] =>
        destruct (maybe_event_fields o s0
                    (fun action => PyTuple [action; PyElement (fresh (dom h1))]))
          as (H1 & H2 & H3 & _ & H5 & H6 & H7 & H8)
    end.
    cbv beta zeta in H1, H2, H3, H5, H6, H7, H8.
    rewrite H1, H2, H3, H5, H6, H8.
    split; [reflexivity|]. split; [reflexivity|]. split; [reflexivity|].
    split; [reflexivity|]. split; [reflexivity|]. split; [reflexivity|].
    split; [exact H7|reflexivity].
Qed.

(** A data call moves nothing but the accumulator. *)
Lemma handle_data_cursor (self : TreeBuilderObject) (d : PyObject) (rc : bool) :
  let r := treebuilder_handle_data self d rc in
  r.1 = Ok Py_None
  /\ tb_this r.2 = tb_this self
  /\ tb_last r.2 = tb_last self
  /\ tb_index r.2 = tb_index self
  /\ tb_root r.2 = tb_root self
  /\ tb_stack r.2 = tb_stack self
  /\ same_settings self r.2
  /\ tb_events r.2 = tb_events self.
Proof.
  cbv zeta. unfold treebuilder_handle_data, same_settings.
  destruct (tb_data self) as [pending|].
  - destruct pending, d; try destruct (rc && _); cbn; repeat split; reflexivity.
  - destruct (PyObject_eqb (tb_last self) Py_None); cbn; repeat split; reflexivity.
Qed.

(** ** The cursor *)










(** ** Well-nested calls *)

Lemma step_start (self : TreeBuilderObject) (h : store)
  (out : list (result PyObject)) (tag attrib : PyObject) :
  step (self, h, out) (Start tag attrib)
  = ((treebuilder_handle_start self h tag attrib (-1) (-1) (-1)).1.2,
     (treebuilder_handle_start self h tag attrib (-1) (-1) (-1)).2,
     out ++ [(treebuilder_handle_start self h tag attrib (-1) (-1) (-1)).1.1]).
Proof.
  unfold step, treebuilder_start.
  destruct (treebuilder_handle_start self h tag attrib (-1) (-1) (-1)) as [[r tb] h'].
  reflexivity.
Qed.








(** ** Event reporting *)

Lemma reported_settings (s s' : TreeBuilderObject) (cr : call * result PyObject) :
  same_settings s s' -> reported s' cr = reported s cr.
Proof.
  intros (H1 & H2 & _). destruct cr as [[tag attrib|d|tag] [node|e]]; try reflexivity;
    unfold reported, start_event, end_event_of; rewrite ?H1, ?H2; reflexivity.
Qed.

Lemma same_settings_trans (s1 s2 s3 : TreeBuilderObject) :
  same_settings s1 s2 -> same_settings s2 s3 -> same_settings s1 s3.
Proof.
  unfold same_settings. intros (A1 & A2 & A3 & A4) (B1 & B2 & B3 & B4).
  rewrite B1, B2, B3, B4. auto.
Qed.

Lemma same_settings_data (s : TreeBuilderObject) (d : option PyObject) :
  same_settings s (set_tb_data s d).
Proof. unfold same_settings. repeat split; reflexivity. Qed.

Lemma builder_inv_step (s : session) (c : call) :
  builder_inv s.1.1 = true -> builder_inv (step s c).1.1 = true.
Proof. exact (builder_inv_run [c] s). Qed.

(** What one call adds to the event list. *)
Lemma step_events (self : TreeBuilderObject) (h : store)
  (out : list (result PyObject)) (c : call) :
  builder_inv self = true ->
  exists r : result PyObject,
    (step (self, h, out) c).2 = out ++ [r]
    /\ tb_events (step (self, h, out) c).1.1
       = (fun l => l ++ reported self (c, r)) <$> tb_events self
    /\ same_settings self (step (self, h, out) c).1.1.
Proof.
  intros Hinv. destruct (builder_inv_elim self Hinv) as (Hok & Hnode & _).
  assert (Hnil : forall o : option (list PyObject), o = (fun l => l ++ []) <$> o).
  { intros [l|]; cbn; [rewrite app_nil_r|]; reflexivity. }
  destruct c as [tag attrib|d|tag].
  - rewrite step_start. cbn [fst snd].
    destruct (tb_this self) as [ | | | | | | | p] eqn:Hthis; try discriminate.
    + destruct (handle_start_closed self h tag attrib (-1) (-1) (-1) Hok Hthis)
        as [Hfail Hfirst].
      destruct (tb_root self) as [root|] eqn:Hroot.
      * destruct (Hfail ltac:(discriminate)) as [Hr ->].
        destruct (treebuilder_handle_start self h tag attrib (-1) (-1) (-1)).1.1
          as [node|e]; [discriminate|].
        exists (Raise e). split; [reflexivity|]. split; [apply Hnil|].
        apply same_settings_data.
      * destruct (Hfirst eq_refl) as (a & Hr & _ & _ & _ & _ & _ & Hset & Hev).
        exists (Ok (PyElement a)). rewrite Hr. auto.
    + destruct (handle_start_open self h tag attrib (-1) (-1) (-1) p Hok Hthis)
        as (a & Hr & _ & _ & _ & _ & _ & Hset & Hev).
      exists (Ok (PyElement a)). rewrite Hr. auto.
  - rewrite step_data. cbn [fst snd].
    destruct (handle_data_cursor self d false) as (Hr & _ & _ & _ & _ & _ & Hset & Hev).
    exists (Ok Py_None). rewrite Hr, Hev. split; [reflexivity|].
    split; [apply Hnil|exact Hset].
  - rewrite step_end. cbn [fst snd].
    destruct (Z.eq_dec (tb_index self) 0) as [Hz|Hnz].
    + destruct (handle_end_closed self h tag (-1) (-1) (-1) Hok Hz) as [Hr ->].
      eexists. rewrite Hr. split; [reflexivity|]. split; [apply Hnil|].
      apply same_settings_data.
    + destruct (handle_end_open self h tag (-1) (-1) (-1) Hok Hnz)
        as (Hr & _ & _ & _ & _ & _ & Hset & Hev).
      exists (Ok (tb_this self)). rewrite Hr. auto.
Qed.

Lemma run_events (calls : list call) :
  forall (self : TreeBuilderObject) (h : store) (out : list (result PyObject)),
    builder_inv self = true ->
    exists outs : list (result PyObject),
      (run calls (self, h, out)).2 = out ++ outs
      /\ length outs = length calls
      /\ tb_events (run calls (self, h, out)).1.1
         = (fun l => l ++ concat (reported self <$> zip calls outs)) <$> tb_events self
      /\ same_settings self (run calls (self, h, out)).1.1.
Proof.
  induction calls as [|c calls IH]; intros self h out Hinv.
  - exists []. cbn. rewrite app_nil_r. split; [reflexivity|]. split; [reflexivity|].
    split; [|unfold same_settings; auto].
    destruct (tb_events self); cbn; [rewrite app_nil_r|]; reflexivity.
  - change (run (c :: calls) (self, h, out))
      with (run calls (step (self, h, out) c)).
    destruct (step_events self h out c Hinv) as (r & Hout1 & Hev1 & Hset1).
    pose proof (builder_inv_step (self, h, out) c Hinv) as Hinv1.
    destruct (step (self, h, out) c) as [[self1 h1] out1]. cbn [fst snd] in *.
    subst out1.
    destruct (IH self1 h1 (out ++ [r]) Hinv1) as (outs & Hout & Hlen & Hev & Hset).
    exists (r :: outs). rewrite Hout, Hev, Hev1, <- app_assoc.
    split; [reflexivity|]. split; [cbn [length]; lia|].
    split; [|exact (same_settings_trans _ _ _ Hset1 Hset)].
    destruct (tb_events self) as [ev|]; [|reflexivity]. cbn. f_equal.
    rewrite <- app_assoc. f_equal. f_equal.
    f_equal. apply list_fmap_ext.
    intros i cr _. apply reported_settings. exact Hset1.
Qed.

Lemma reported_ends (s : TreeBuilderObject) (action : PyObject)
  (l : list (call * result PyObject)) :
  tb_start_event_obj s = None ->
  tb_end_event_obj s = Some action ->
  concat (reported s <$> l) = omap (end_event action) l.
Proof.
  intros Hstart Hend. induction l as [|cr l IH]; [reflexivity|].
  rewrite fmap_cons. cbn [concat omap]. rewrite IH.
  destruct cr as [[tag attrib|d|tag] [node|e]];
    unfold reported, start_event, end_event_of, end_event;
    rewrite ?Hstart, ?Hend; reflexivity.
Qed.

(** X18 -- The default event set.  [_setevents(events, None)] on a parser
    whose target is the built-in tree builder makes the list given the
    event collector and turns on end events only.  Whatever calls the
    builder then receives, the collector holds, after what it held, one
    pair ("end", element) for every end call that returned an element, in
    the order of the calls; start and data calls, and calls that fail,
    report nothing.  With any other target the call raises TypeError and
    changes nothing. *)
Theorem default_events_report_ends (self : XMLParserObject) (events : list PyObject) :
  (forall log : list (string * list PyObject),
      xp_target self = TargetObject log ->
      exists e : exception,
        xmlparser_setevents self events Py_None = (Raise e, self)
        /\ exc_type e = PyExc_TypeError)
  /\ (forall (calls0 : list call) (h0 : store),
         xp_target self
         = TargetTreeBuilder (run calls0 (treebuilder_new, h0, [])).1.1 ->
         exists tb : TreeBuilderObject,
           xmlparser_setevents self events Py_None
           = (Ok Py_None, set_xp_target self (TargetTreeBuilder tb))
           /\ forall (calls : list call) (h : store),
                let s := run calls (tb, h, []) in
                length s.2 = length calls
                /\ tb_events s.1.1
                   = Some (events
                           ++ omap (end_event (PyUnicode "end")) (zip calls s.2))).
Proof.
  split.
  - intros log Htarget. unfold xmlparser_setevents. rewrite Htarget.
    eexists. split; reflexivity.
  - intros calls0 h0 Htarget. unfold xmlparser_setevents. rewrite Htarget.
    cbn [PyObject_eqb].
    set (tb0 := (run calls0 (treebuilder_new, h0, [])).1.1).
    set (tb := set_tb_event_objs _ None (Some (PyUnicode "end")) None None).
    exists tb. split; [reflexivity|].
    assert (Hinv : builder_inv tb = true).
    { pose proof (builder_inv_run calls0 (treebuilder_new, h0, []) eq_refl) as Hinv0.
      fold tb0 in Hinv0. exact Hinv0. }
    intros calls h.
    destruct (run_events calls tb h [] Hinv) as (outs & Hout & Hlen & Hev & _).
    rewrite Hout, Hev. cbn [app]. split; [exact Hlen|].
    cbn. f_equal. f_equal. apply reported_ends; reflexivity.
Qed.

Lemma default_events_report_ends_witness :
  exists tb : TreeBuilderObject,
    xmlparser_setevents (w_self sample_world) [] Py_None
    = (Ok Py_None, set_xp_target (w_self sample_world) (TargetTreeBuilder tb))
    /\ tb_events
         (run [Start (PyUnicode "a") (PyDict []);
               Start (PyUnicode "b") (PyDict []); End (PyUnicode "b");
               End (PyUnicode "a"); End (PyUnicode "a")] (tb, ∅, [])).1.1
       = Some [PyTuple [PyUnicode "end"; PyElement 1%nat];
               PyTuple [PyUnicode "end"; PyElement 0%nat]].
Proof.
  destruct (proj2 (default_events_report_ends (w_self sample_world) [])
              [] ∅ eq_refl) as (tb & Hset & Hrun).
  exists tb. split; [exact Hset|].
  destruct (Hrun [Start (PyUnicode "a") (PyDict []);
                  Start (PyUnicode "b") (PyDict []); End (PyUnicode "b");
                  End (PyUnicode "a"); End (PyUnicode "a")] ∅) as [_ Hev].
  rewrite Hev. clear Hev Hrun.
  injection Hset as <-. vm_compute. reflexivity.
Defined.

(** * More of the parser adapter *)

(** ** Universal names *)

Lemma index_separator_cons (b : Ascii.ascii) (s : string) :
  String.index 0 "}" (String b s)
  = if Ascii.eqb b (chr "}") then Some 0%nat else S <$> String.index 0 "}" s.
Proof.
  cbn [String.index String.prefix].
  destruct (Ascii.ascii_dec _ b) as [<-|Hne].
  - destruct s; reflexivity.
  - destruct (Ascii.eqb_spec b (chr "}")) as [->|_]; [contradiction Hne; reflexivity|].
    destruct (String.index 0 "}" s); reflexivity.
Qed.

Lemma index_separator_none (s : string) :
  no_separator s = true -> String.index 0 "}" s = None.
Proof.
  induction s as [|c s IH]; intros Hs; [reflexivity|].
  cbn [no_separator string_forall] in Hs. apply andb_true_iff in Hs as [Hc Hs].
  apply negb_true_iff in Hc.
  rewrite index_separator_cons, Hc, (IH Hs). reflexivity.
Qed.

Lemma index_separator_first (pre rest : string) :
  no_separator pre = true ->
  String.index 0 "}" (pre +:+ "}" +:+ rest) = Some (String.length pre).
Proof.
  induction pre as [|c pre IH]; intros Hs.
  - change ("" +:+ "}" +:+ rest) with (String (chr "}") rest).
    rewrite index_separator_cons. reflexivity.
  - cbn [no_separator string_forall] in Hs. apply andb_true_iff in Hs as [Hc Hs].
    apply negb_true_iff in Hc.
    rewrite string_cons_append, index_separator_cons, Hc, (IH Hs). reflexivity.
Qed.

Lemma substring_all (s : string) : String.substring 0 (String.length s) s = s.
Proof. induction s as [|c s IH]; [reflexivity|]. cbn. rewrite IH. reflexivity. Qed.

Lemma substring_skip (pre s : string) (m : nat) :
  String.substring (String.length pre) m (pre +:+ s) = String.substring 0 m s.
Proof.
  induction pre as [|c pre IH]; [reflexivity|].
  rewrite string_cons_append. cbn. exact IH.
Qed.

Lemma substring_after (pre rest : string) (c : Ascii.ascii) (m : nat) :
  String.substring (String.length pre + 1) m (pre +:+ String c rest)
  = String.substring 0 m rest.
Proof.
  induction pre as [|b pre IH]; [reflexivity|].
  rewrite string_cons_append. cbn. exact IH.
Qed.

Lemma universal_name_index (uri local : string) :
  no_separator uri = true ->
  String.index 0 "}" (universal_name uri local) = Some (S (String.length uri)).
Proof.
  intros Huri. unfold universal_name.
  change ("{" +:+ uri +:+ "}" +:+ local) with (String (chr "{") (uri +:+ "}" +:+ local)).
  rewrite index_separator_cons.
  change (Ascii.eqb (chr "{") (chr "}")) with false. cbv iota.
  rewrite (index_separator_first uri local Huri). reflexivity.
Qed.

Lemma universal_name_length (uri local : string) :
  String.length (universal_name uri local)
  = S (String.length uri + S (String.length local)).
Proof.
  unfold universal_name.
  change ("{" +:+ uri +:+ "}" +:+ local)
    with (String (chr "{") (uri +:+ String (chr "}") local)).
  cbn [String.length]. rewrite string_length_append. reflexivity.
Qed.

Lemma universal_name_local (uri local : string) :
  String.substring (S (String.length uri) + 1)
    (String.length (universal_name uri local) - S (String.length uri) - 1)
    (universal_name uri local)
  = local.
Proof.
  rewrite universal_name_length.
  replace (S (String.length uri + S (String.length local)) - S (String.length uri) - 1)%nat
    with (String.length local) by lia.
  unfold universal_name.
  change ("{" +:+ uri +:+ "}" +:+ local)
    with (String (chr "{") (uri +:+ String (chr "}") local)).
  replace (S (String.length uri) + 1)%nat with (S (String.length uri + 1)) by lia.
  cbn [String.substring]. rewrite substring_after. apply substring_all.
Qed.

Lemma universal_name_uri (uri local : string) :
  String.substring 1 (S (String.length uri) - 1) (universal_name uri local) = uri.
Proof.
  unfold universal_name.
  change ("{" +:+ uri +:+ "}" +:+ local)
    with (String (chr "{") (uri +:+ String (chr "}") local)).
  replace (S (String.length uri) - 1)%nat with (String.length uri) by lia.
  cbn [String.substring]. apply substring_prefix.
Qed.

Lemma makeuniversal_new (self : XMLParserObject) (name : string)
  (names : list (PyObject * PyObject)) :
  xp_names self = PyDict names ->
  dict_lookup names (PyBytes name) = None ->
  makeuniversal self name
  = match PyUnicode_DecodeUTF8
            (match String.index 0 "}" name with
             | Some _ => "{" +:+ name
             | None => name
             end) with
    | Ok value =>
        (Ok value,
         set_xp_names self (PyDict (dict_store names (PyBytes name) value)))
    | Raise e => (Raise e, self)
    end.
Proof.
  intros Hnames Hnew. unfold makeuniversal. rewrite Hnames. cbn. rewrite Hnew.
  destruct (PyUnicode_DecodeUTF8 _); reflexivity.
Qed.



(** X20 -- Universal names round trip.  For a name that expat reports as
    [uri}local], with no separator inside [uri], that decodes and is not
    in the cache, [makeuniversal] returns the tag [{uri}local]; an element
    created with that tag has the namespace [uri] and the local name
    [local].  A name without a separator is returned as it is, and an
    element created with it has the tag as its local name and no
    namespace.  The split is the one [feed_new_element] makes of a str
    tag, in the branch it has for Unicode tags ([Py_USING_UNICODE]). *)
Theorem universal_name_round_trip (self : XMLParserObject)
  (names : list (PyObject * PyObject)) (uri local plain : string)
  (attrib : option PyObject) :
  xp_names self = PyDict names ->
  no_separator uri = true ->
  no_separator plain = true ->
  (dict_lookup names (PyBytes (expat_name uri local)) = None ->
   utf8_scan None (byte_values (universal_name uri local)) = true ->
   (makeuniversal self (expat_name uri local)).1
   = Ok (PyUnicode (universal_name uri local)))
  /\ e_ns (create_new_element (PyUnicode (universal_name uri local)) attrib)
     = PyUnicode uri
  /\ e_localName (create_new_element (PyUnicode (universal_name uri local)) attrib)
     = PyUnicode local
  /\ (dict_lookup names (PyBytes plain) = None ->
      utf8_scan None (byte_values plain) = true ->
      (makeuniversal self plain).1 = Ok (PyUnicode plain))
  /\ e_ns (create_new_element (PyUnicode plain) attrib) = Py_None
  /\ e_localName (create_new_element (PyUnicode plain) attrib) = PyUnicode plain.
Proof.
  intros Hnames Huri Hplain.
  assert (Hfields : forall (tag : PyObject),
             e_ns (create_new_element tag attrib) = (split_universal tag).2
             /\ e_localName (create_new_element tag attrib) = (split_universal tag).1).
  { intros tag. unfold create_new_element, feed_new_element.
    destruct attrib as [a|]; [|split; reflexivity].
    destruct (negb (PyObject_eqb a Py_None) && negb (is_empty_dict a));
      split; reflexivity. }
  assert (Hsplit : split_universal (PyUnicode (universal_name uri local))
                   = (PyUnicode local, PyUnicode uri)).
  { unfold split_universal. rewrite (universal_name_index uri local Huri).
    rewrite (universal_name_local uri local), (universal_name_uri uri local).
    reflexivity. }
  assert (Hplainsplit : split_universal (PyUnicode plain) = (PyUnicode plain, Py_None)).
  { unfold split_universal. rewrite (index_separator_none plain Hplain). reflexivity. }
  destruct (Hfields (PyUnicode (universal_name uri local))) as [Hns Hname].
  destruct (Hfields (PyUnicode plain)) as [Hns' Hname'].
  rewrite Hns, Hname, Hns', Hname', Hsplit, Hplainsplit.
  split; [|split; [reflexivity|split; [reflexivity|split; [|split; reflexivity]]]].
  - intros Hnew Hutf.
    rewrite (makeuniversal_new self _ names Hnames Hnew).
    unfold expat_name. rewrite (index_separator_first uri local Huri).
    unfold PyUnicode_DecodeUTF8. fold (universal_name uri local).
    change ("{" +:+ uri +:+ "}" +:+ local) with (universal_name uri local).
    rewrite Hutf. reflexivity.
  - intros Hnew Hutf.
    rewrite (makeuniversal_new self _ names Hnames Hnew).
    rewrite (index_separator_none plain Hplain).
    unfold PyUnicode_DecodeUTF8. rewrite Hutf. reflexivity.
Qed.

Lemma universal_name_round_trip_witness :
  (makeuniversal (w_self sample_world) "http://www.w3.org/1999/xhtml}p").1
  = Ok xhtml_p
  /\ e_ns (create_new_element xhtml_p None) = PyUnicode "http://www.w3.org/1999/xhtml"
  /\ e_localName (create_new_element xhtml_p None) = PyUnicode "p".
Proof.
  destruct (universal_name_round_trip (w_self sample_world) []
              "http://www.w3.org/1999/xhtml" "p" "q" None eq_refl eq_refl eq_refl)
    as (Hmake & Hns & Hname & _).
  split; [apply Hmake; reflexivity|]. split; [exact Hns|exact Hname].
Defined.

(** ** Errors raised in callbacks *)






(** ** Deleting a slice *)

Lemma fold_set_spec (g : nat -> option PyObject) (dst : Z) (m : nat) :
  forall b : list (option PyObject),
    0 <= dst ->
    dst + Z.of_nat m <= Z.of_nat (length b) ->
    let r := fold_left (fun acc kv => buf_set acc (dst + Z.of_nat kv.1) kv.2)
               (zip (seq 0 m) (map g (seq 0 m))) b in
    length r = length b
    /\ forall j : Z,
         buf_get r j
         = if (dst <=? j) && (j <? dst + Z.of_nat m) then g (Z.to_nat (j - dst))
           else buf_get b j.
Proof.
  induction m as [|m IH]; intros b Hdst Hroom; cbv zeta.
  - cbn. split; [reflexivity|]. intros j. case_cmp; simpl; try reflexivity; lia.
  - rewrite seq_S, map_app. cbn [map Nat.add].
    rewrite zip_with_app by (rewrite length_map; reflexivity).
    rewrite fold_left_app. cbn [zip_with fold_left fst snd].
    destruct (IH b Hdst ltac:(lia)) as [Hlen Hget]. cbv zeta in Hlen, Hget.
    rewrite buf_set_length. split; [exact Hlen|].
    intros j. rewrite buf_get_set by lia. rewrite Hget.
    case_cmp; simpl; try reflexivity; try lia.
    subst j. f_equal. lia.
Qed.

Lemma memmove_spec (b : list (option PyObject)) (dst src n : Z) :
  0 <= dst ->
  dst + Z.max 0 n <= Z.of_nat (length b) ->
  length (memmove b dst src n) = length b
  /\ forall j : Z,
       buf_get (memmove b dst src n) j
       = if (dst <=? j) && (j <? dst + n) then buf_get b (src + (j - dst))
         else buf_get b j.
Proof.
  intros Hdst Hroom. unfold memmove.
  destruct (fold_set_spec (fun k => buf_get b (src + Z.of_nat k)) dst (Z.to_nat n) b
              Hdst ltac:(lia)) as [Hlen Hget].
  cbv zeta in Hlen, Hget. split; [exact Hlen|].
  intros j. rewrite Hget.
  case_cmp; simpl; try reflexivity; try lia.
  f_equal. lia.
Qed.

(** The slice, seen from its lowest index upwards. *)
Lemma slice_indices_ascending (start stop step : option Z) (len s0 s1 st L : Z) :
  0 <= len ->
  PySlice_GetIndicesEx start stop step len = Ok (s0, s1, st, L) ->
  0 < L ->
  let a := if st <? 0 then s0 + 1 + st * (L - 1) - 1 else s0 in
  let b := if st <? 0 then s0 + 1 else s1 in
  let d := if st <? 0 then - st else st in
  0 <= a /\ 1 <= d /\ a + (L - 1) * d < b <= a + L * d /\ a + (L - 1) * d < len.
Proof.
  intros Hlen Hidx HLpos. unfold PySlice_GetIndicesEx in Hidx.
  set (step' := match step with
                | Some s => Z.max (- PY_SSIZE_T_MAX) (slice_index s)
                | None => 1
                end) in *.
  destruct (Z.eqb_spec step' 0) as [|Hnz]; [discriminate|].
  injection Hidx as Hs0 Hs1 Hst HL. rewrite Hst in *. clear Hst step'.
  destruct (Z.ltb_spec st 0) as [Hneg|Hpos].
  - assert (Hlt : (st <? 0) = true) by (apply Z.ltb_lt; exact Hneg).
    assert (Hgt0 : (0 <? st) = false) by (apply Z.ltb_ge; lia).
    rewrite ?Hlt, ?Hgt0 in HL. clear Hlt Hgt0.
    assert (Hclip : forall v : Z,
               -1 <= (let v0 := slice_index v in
                      let v1 := if v0 <? 0 then v0 + len else v0 in
                      let v2 := if v1 <? 0 then -1 else v1 in
                      if len <=? v2 then len - 1 else v2) <= len - 1).
    { intros v. cbv zeta. case_cmp; lia. }
    assert (H0 : -1 <= s0 <= len - 1).
    { rewrite <- Hs0. destruct start as [v|]; [apply Hclip|lia]. }
    assert (H1 : -1 <= s1 <= len - 1).
    { rewrite <- Hs1. destruct stop as [v|]; [apply Hclip|lia]. }
    rewrite Hs0, Hs1 in HL. cbn [andb orb] in HL.
    destruct (Z.leb_spec s0 s1) as [Hle|Hgt]; cbn [andb orb] in HL; [lia|].
    assert (Hq : (s1 - s0 + 1) ÷ st = (s0 - s1 - 1) / (- st)).
    { replace (s1 - s0 + 1) with (- (s0 - s1 - 1)) by lia.
      rewrite <- (Z.opp_involutive st) at 1.
      rewrite Z.quot_opp_opp by lia.
      apply Z.quot_div_nonneg; lia. }
    rewrite Hq in HL.
    pose proof (Z.mul_div_le (s0 - s1 - 1) (- st) ltac:(lia)) as Hmul.
    pose proof (Z.mul_succ_div_gt (s0 - s1 - 1) (- st) ltac:(lia)) as Hsucc.
    cbv zeta. subst L. nia.
  - assert (Hlt : (st <? 0) = false) by (apply Z.ltb_ge; exact Hpos).
    assert (Hgt0 : (0 <? st) = true) by (apply Z.ltb_lt; lia).
    rewrite ?Hlt, ?Hgt0 in HL. clear Hlt Hgt0.
    assert (Hclip : forall v : Z,
               0 <= (let v0 := slice_index v in
                     let v1 := if v0 <? 0 then v0 + len else v0 in
                     let v2 := if v1 <? 0 then 0 else v1 in
                     if len <=? v2 then len else v2) <= len).
    { intros v. cbv zeta. case_cmp; lia. }
    assert (H0 : 0 <= s0 <= len).
    { rewrite <- Hs0. destruct start as [v|]; [apply Hclip|lia]. }
    assert (H1 : 0 <= s1 <= len).
    { rewrite <- Hs1. destruct stop as [v|]; [apply Hclip|lia]. }
    rewrite Hs0, Hs1 in HL. cbn [andb orb] in HL.
    destruct (Z.leb_spec s1 s0) as [Hle|Hgt]; cbn [andb orb] in HL; [lia|].
    rewrite Z.quot_div_nonneg in HL by lia.
    pose proof (Z.mul_div_le (s1 - s0 - 1) st ltac:(lia)) as Hmul.
    pose proof (Z.mul_succ_div_gt (s1 - s0 - 1) st ltac:(lia)) as Hsucc.
    cbv zeta. subst L. nia.
Qed.

(** The deletion loop: after [i] rounds the slots from [start] on hold the
    children kept so far, moved down, and every other slot is as it was.
    The loop ends on its own test after [count] rounds. *)
Lemma delete_rounds_spec (b0 : list (option PyObject)) (start stop step len count : Z) :
  0 <= start -> 1 <= step -> 0 < count ->
  start + (count - 1) * step < stop <= start + count * step ->
  start + (count - 1) * step < len <= Z.of_nat (length b0) ->
  forall (fuel : nat) (i : Z) (b : list (option PyObject)),
    0 <= i <= count ->
    count - i <= Z.of_nat fuel ->
    length b = length b0 ->
    (forall j : Z,
        buf_get b j
        = if (start <=? j) && (j <? Z.min (start + i * (step - 1)) (len - i))
          then buf_get b0 (j + (j - start) / (step - 1) + 1)
          else buf_get b0 j) ->
    let r := delete_rounds fuel b (start + i * step) i stop step len in
    length r = length b0
    /\ forall j : Z,
         buf_get r j
         = if (start <=? j) && (j <? Z.min (start + count * (step - 1)) (len - count))
           then buf_get b0 (j + (j - start) / (step - 1) + 1)
           else buf_get b0 j.
Proof.
  intros Hstart Hstep Hcount Hstop Hlen.
  induction fuel as [|fuel IH]; intros i b Hi Hfuel Hb Hinv; cbv zeta.
  - cbn [delete_rounds]. replace count with i by lia. split; [exact Hb|exact Hinv].
  - cbn [delete_rounds].
    destruct (Z.ltb_spec (start + i * step) stop) as [Hcur|Hcur].
    + assert (Hi' : i < count) by nia.
      set (cur := start + i * step) in *.
      set (num_moved := if len <=? cur + step then len - cur - 1 else step - 1).
      assert (Hcurlen : cur < len) by (subst cur; nia).
      assert (Hzone : Z.min (start + i * (step - 1)) (len - i) = cur - i)
        by (subst cur; lia).
      assert (Hzone' : Z.min (start + (i + 1) * (step - 1)) (len - (i + 1))
                       = cur - i + num_moved).
      { subst num_moved cur. destruct (Z.leb_spec len (start + i * step + step)); lia. }
      assert (Hnm : 0 <= num_moved <= step - 1 /\ cur + 1 + num_moved <= len).
      { subst num_moved. destruct (Z.leb_spec len (cur + step)); lia. }
      rewrite Hzone in Hinv.
      destruct (memmove_spec b (cur - i) (cur + 1) num_moved) as [Hmlen Hmget].
      { subst cur. nia. }
      { rewrite Hb. lia. }
      replace (cur + step) with (start + (i + 1) * step) by (subst cur; lia).
      apply IH; [lia|lia|rewrite Hmlen; exact Hb|].
      intros j. rewrite Hmget, Hzone'.
      destruct (Z.leb_spec (cur - i) j) as [Hlo|Hlo]; cbn [andb].
      * destruct (Z.ltb_spec j (cur - i + num_moved)) as [Hhi|Hhi].
        -- rewrite Hinv.
           replace ((start <=? cur + 1 + (j - (cur - i)))
                    && (cur + 1 + (j - (cur - i)) <? cur - i))
             with false
             by (symmetry; apply andb_false_iff; right; apply Z.ltb_ge; lia).
           replace (start <=? j) with true
             by (symmetry; apply Z.leb_le; subst cur; nia).
           cbn [andb]. f_equal.
           assert (Hdiv : i = (j - start) / (step - 1)).
           { apply (Z.div_unique (j - start) (step - 1) i (j - start - (step - 1) * i));
               [left; subst cur; nia|lia]. }
           rewrite <- Hdiv. lia.
        -- rewrite Hinv.
           replace ((start <=? j) && (j <? cur - i)) with false
             by (symmetry; apply andb_false_iff; right; apply Z.ltb_ge; lia).
           rewrite andb_false_r. reflexivity.
      * rewrite Hinv.
        destruct (Z.leb_spec start j) as [Hs|Hs]; cbn [andb]; [|reflexivity].
        replace (j <? cur - i) with true by (symmetry; apply Z.ltb_lt; lia).
        replace (j <? cur - i + num_moved) with true by (symmetry; apply Z.ltb_lt; lia).
        reflexivity.
    + replace count with i by nia. split; [exact Hb|exact Hinv].
Qed.

(** The loop ends on its own test: once [cur] has reached [stop] within
    the rounds given, further rounds change nothing. *)
Lemma delete_rounds_fuel (fuel more : nat) :
  forall (b : list (option PyObject)) (cur i stop step len : Z),
    stop <= cur + Z.of_nat fuel * step ->
    delete_rounds (fuel + more) b cur i stop step len
    = delete_rounds fuel b cur i stop step len.
Proof.
  induction fuel as [|fuel IH]; intros b cur i stop step len Hstop.
  - cbn [Nat.add delete_rounds]. destruct more as [|more]; [reflexivity|].
    cbn [delete_rounds]. destruct (Z.ltb_spec cur stop); [lia|reflexivity].
  - cbn [Nat.add delete_rounds].
    destruct (Z.ltb_spec cur stop); [|reflexivity].
    apply IH. lia.
Qed.

(** The three places a kept child can come from: below the slice, between
    two deleted children, above the slice. *)
Lemma kept_index_cases (lo d L j : Z) :
  1 <= d -> 0 <= L ->
  (j < lo /\ kept_index lo d L j = j)
  \/ (exists q r : Z, 0 <= q < L /\ 0 <= r < d - 1 /\ j = lo + q * (d - 1) + r
                      /\ kept_index lo d L j = lo + q * d + r + 1)
  \/ (lo + L * (d - 1) <= j /\ kept_index lo d L j = j + L).
Proof.
  intros Hd HL. unfold kept_index.
  destruct (Z.ltb_spec j lo) as [Hlo|Hlo]; [left; split; [exact Hlo|reflexivity]|].
  destruct (Z.ltb_spec j (lo + L * (d - 1))) as [Hz|Hz];
    [|right; right; split; [exact Hz|reflexivity]].
  right; left.
  assert (Hm : 0 < d - 1) by nia.
  pose proof (Z.div_mod (j - lo) (d - 1) ltac:(lia)) as Hdm.
  pose proof (Z.mod_pos_bound (j - lo) (d - 1) Hm) as Hr.
  assert (Hq0 : 0 <= (j - lo) / (d - 1)) by (apply Z.div_pos; lia).
  exists ((j - lo) / (d - 1)), ((j - lo) mod (d - 1)).
  split; [nia|]. split; [exact Hr|]. split; nia.
Qed.

Lemma kept_index_range (lo d L n j : Z) :
  1 <= d -> 0 < L -> lo + (L - 1) * d < n ->
  0 <= j < n - L ->
  j <= kept_index lo d L j < n.
Proof.
  intros Hd HL Hn Hj.
  destruct (kept_index_cases lo d L j Hd ltac:(lia))
    as [[Hlo ->]|[(q & r & Hq & Hr & Hjq & ->)|[Hhi ->]]]; nia.
Qed.




(** The buffer after the loop and the move of the tail. *)
Lemma delete_slice_buffer (b0 : list (option PyObject)) (start stop step len count : Z) :
  0 <= start -> 1 <= step -> 0 < count ->
  start + (count - 1) * step < stop <= start + count * step ->
  start + (count - 1) * step < len <= Z.of_nat (length b0) ->
  let b := delete_rounds (Z.to_nat count) b0 start 0 stop step len in
  let cur := start + count * step in
  let b' := if cur <? len then memmove b (cur - count) cur (len - cur) else b in
  length b' = length b0
  /\ forall j : Z, 0 <= j < len - count ->
                   buf_get b' j = buf_get b0 (kept_index start step count j).
Proof.
  intros Hstart Hstep Hcount Hstop Hlen.
  destruct (delete_rounds_spec b0 start stop step len count Hstart Hstep Hcount
              Hstop Hlen (Z.to_nat count) 0 b0) as [Hrlen Hrget];
    [lia|lia|reflexivity| |].
  { intros j.
    replace ((start <=? j) && (j <? Z.min (start + 0 * (step - 1)) (len - 0)))
      with false; [reflexivity|].
    symmetry. destruct (Z.leb_spec start j); cbn [andb]; [|reflexivity].
    apply Z.ltb_ge. lia. }
  cbv zeta in Hrlen, Hrget. replace (start + 0 * step) with start in * by lia.
  cbv zeta.
  set (b := delete_rounds (Z.to_nat count) b0 start 0 stop step len) in *.
  destruct (Z.ltb_spec (start + count * step) len) as [Htail|Hnotail].
  - destruct (memmove_spec b (start + count * step - count) (start + count * step)
                (len - (start + count * step))) as [Hmlen Hmget]; [nia|rewrite Hrlen; nia|].
    split; [rewrite Hmlen; exact Hrlen|].
    intros j Hj. rewrite Hmget, !Hrget.
    replace (Z.min (start + count * (step - 1)) (len - count))
      with (start + count * (step - 1)) by lia.
    unfold kept_index.
    destruct (Z.ltb_spec j start) as [Hlo|Hlo].
    + replace (start + count * step - count <=? j) with false
        by (symmetry; apply Z.leb_gt; nia).
      replace (start <=? j) with false by (symmetry; apply Z.leb_gt; lia).
      reflexivity.
    + destruct (Z.ltb_spec j (start + count * (step - 1))) as [Hz|Hz].
      * replace (start + count * step - count <=? j) with false
          by (symmetry; apply Z.leb_gt; nia).
        replace (start <=? j) with true by (symmetry; apply Z.leb_le; lia).
        reflexivity.
      * replace (start + count * step - count <=? j) with true
          by (symmetry; apply Z.leb_le; nia).
        replace (j <? start + count * step - count + (len - (start + count * step)))
          with true by (symmetry; apply Z.ltb_lt; lia).
        cbn [andb].
        replace (start + count * step + (j - (start + count * step - count)) <? start + count * (step - 1))
          with false by (symmetry; apply Z.ltb_ge; nia).
        rewrite andb_false_r. f_equal. lia.
  - split; [exact Hrlen|].
    intros j Hj. rewrite Hrget.
    replace (Z.min (start + count * (step - 1)) (len - count))
      with (len - count) by nia.
    unfold kept_index.
    destruct (Z.ltb_spec j start) as [Hlo|Hlo].
    + replace (start <=? j) with false by (symmetry; apply Z.leb_gt; lia).
      reflexivity.
    + replace (start <=? j) with true by (symmetry; apply Z.leb_le; lia).
      replace (j <? len - count) with true by (symmetry; apply Z.ltb_lt; lia).
      replace (j <? start + count * (step - 1)) with true
        by (symmetry; apply Z.ltb_lt; nia).
      reflexivity.
Qed.

(** The element the slice deletion leaves, for a slice that runs upwards
    from [a] in steps of [d]. *)
Lemma delete_slice_install (self : ElementObject) (l : list PyObject) (a b d L : Z) :
  has_children self l ->
  0 <= a -> 1 <= d -> 0 < L ->
  a + (L - 1) * d < b <= a + L * d ->
  a + (L - 1) * d < Z.of_nat (length l) ->
  let x := ensure_extra self in
  let n := Z.of_nat (length l) in
  let buf := delete_rounds (Z.to_nat L) (ex_children x) a 0 b d n in
  let buf' := if a + L * d <? n
              then memmove buf (a + L * d - L) (a + L * d) (n - (a + L * d))
              else buf in
  exists l' : list PyObject,
    has_children
      (set_extra (set_extra self (Some x))
                 (Some (set_length (set_children x buf') (int_wrap (n - L))))) l'
    /\ Z.of_nat (length l') = n - L
    /\ forall j : nat, (j < length l')%nat ->
                       l' !! j = l !! Z.to_nat (kept_index a d L (Z.of_nat j)).
Proof.
  intros Hkids Ha Hd HL Hb Hn x n buf buf'.
  destruct (has_children_length self l Hkids) as [Hlen Hrange].
  pose proof Hkids as ([[_ Hcap] Hbuf] & Hint & _).
  rewrite (element_length_ensure self), Hlen in Hcap. fold x in Hcap, Hbuf, Hint.
  destruct (delete_slice_buffer (ex_children x) a b d n L Ha Hd HL Hb) as [Hblen Hbget];
    [fold n; lia|].
  cbv zeta in Hblen, Hbget. fold buf in Hblen, Hbget. fold buf' in Hblen, Hbget.
  assert (HLn : L <= n) by (fold n in Hn; nia).
  assert (Hwrap : int_wrap (n - L) = n - L).
  { apply int_wrap_id. unfold INT_MIN, INT_MAX in *. lia. }
  rewrite Hwrap.
  set (old := fun j : nat => Z.to_nat (kept_index a d L (Z.of_nat j))).
  assert (Hold : forall j : nat, Z.of_nat j < n - L -> is_Some (l !! old j)).
  { intros j Hj. apply lookup_lt_is_Some. subst old. cbv beta.
    pose proof (kept_index_range a d L n (Z.of_nat j) Hd HL Hn ltac:(lia)). lia. }
  exists ((fun j : nat => default Py_None (l !! old j)) <$> seq 0 (Z.to_nat (n - L))).
  assert (Hl' : length ((fun j : nat => default Py_None (l !! old j))
                          <$> seq 0 (Z.to_nat (n - L))) = Z.to_nat (n - L)).
  { rewrite length_fmap, length_seq. reflexivity. }
  assert (Hget : forall j : nat,
             (j < Z.to_nat (n - L))%nat ->
             ((fun j : nat => default Py_None (l !! old j))
                <$> seq 0 (Z.to_nat (n - L))) !! j = l !! old j).
  { intros j Hj. rewrite list_lookup_fmap, lookup_seq_lt by exact Hj. cbn.
    destruct (Hold j ltac:(lia)) as [c Hc]. rewrite Hc. reflexivity. }
  split; [|split].
  - eapply has_children_intro; [cbn [e_extra set_extra]; reflexivity| | | |].
    + unfold extra_wf. cbn [ex_length ex_allocated ex_children set_length set_children].
      rewrite Hblen. split; [lia|exact Hbuf].
    + exact Hint.
    + cbn [ex_length set_length]. rewrite Hl'. lia.
    + intros k Hk. rewrite Hl' in Hk. rewrite (Hget k Hk).
      cbn [ex_children set_children set_length].
      rewrite Hbget by lia.
      pose proof (kept_index_range a d L n (Z.of_nat k) Hd HL Hn ltac:(lia)) as Hr.
      apply (has_children_get self l _ Hkids). rewrite Hlen. fold n. lia.
  - rewrite Hl'. lia.
  - intros j Hj. rewrite Hl' in Hj. apply (Hget j Hj).
Qed.

(** The children a slice deletion leaves, for any step. *)
Lemma delete_slice_children (h : store) (self : ElementObject) (l : list PyObject)
  (start stop step : option Z) (s0 s1 st L : Z) :
  has_children self l ->
  PySlice_GetIndicesEx start stop step (Z.of_nat (length l)) = Ok (s0, s1, st, L) ->
  0 < L ->
  let after := element_ass_subscr h self (Slice start stop step) None in
  let lo := Z.min s0 (s0 + (L - 1) * st) in
  exists l' : list PyObject,
    after.1 = Ok ()
    /\ has_children after.2 l'
    /\ Z.of_nat (length l') = Z.of_nat (length l) - L
    /\ forall j : nat, (j < length l')%nat ->
                       l' !! j = l !! Z.to_nat (kept_index lo (Z.abs st) L (Z.of_nat j)).
Proof.
  intros Hkids Hidx HL after lo.
  destruct (has_children_length self l Hkids) as [Hlen Hrange].
  pose proof (slice_indices_ascending start stop step (Z.of_nat (length l)) s0 s1 st L
                ltac:(lia) Hidx HL) as Hasc.
  cbv zeta in Hasc.
  subst after. unfold element_ass_subscr.
  rewrite !(element_length_ensure self), Hlen, Hidx.
  destruct (Z.leb_spec L 0) as [|_]; [lia|].
  subst lo. revert Hasc.
  destruct (Z.ltb_spec st 0) as [Hneg|Hpos]; intros (Ha & Hd & Hb & Hn).
  - destruct (delete_slice_install self l (s0 + 1 + st * (L - 1) - 1) (s0 + 1) (- st) L
                Hkids Ha Hd HL Hb Hn) as (l' & Hkids' & Hlen' & Hget').
    cbv zeta in Hkids'.
    exists l'. split; [reflexivity|]. split; [exact Hkids'|]. split; [exact Hlen'|].
    intros j Hj. rewrite (Hget' j Hj).
    replace (Z.min s0 (s0 + (L - 1) * st)) with (s0 + 1 + st * (L - 1) - 1) by nia.
    replace (Z.abs st) with (- st) by lia. reflexivity.
  - destruct (delete_slice_install self l s0 s1 st L
                Hkids Ha Hd HL Hb Hn) as (l' & Hkids' & Hlen' & Hget').
    cbv zeta in Hkids'.
    exists l'. split; [reflexivity|]. split; [exact Hkids'|]. split; [exact Hlen'|].
    intros j Hj. rewrite (Hget' j Hj).
    replace (Z.min s0 (s0 + (L - 1) * st)) with s0 by nia.
    replace (Z.abs st) with st by lia. reflexivity.
Qed.

Lemma has_children_ensure (self : ElementObject) (l : list PyObject) :
  has_children self l ->
  has_children (set_extra self (Some (ensure_extra self))) l.
Proof.
  intros (Hwf & Hint & Hl). split; [exact Hwf|]. split; [exact Hint|].
  rewrite element_children_ensure. exact Hl.
Qed.



(** X23 -- Deleting a plain slice.  On an element in good order,
    [del elem[start:stop]] (and the same with a step of 1 or -1) takes out
    the children at the [L] indices of the slice, which follow one another
    from [lo] on: the children before [lo] and those from [lo + L] on are
    left, in their order. *)
Theorem delete_contiguous_slice (h : store) (self : ElementObject)
  (l : list PyObject) (start stop step : option Z) (s0 s1 st L : Z) :
  has_children self l ->
  PySlice_GetIndicesEx start stop step (Z.of_nat (length l)) = Ok (s0, s1, st, L) ->
  st = 1 \/ st = -1 ->
  let after := element_ass_subscr h self (Slice start stop step) None in
  let lo := Z.to_nat (Z.min s0 (s0 + (L - 1) * st)) in
  after.1 = Ok ()
  /\ has_children after.2 (take lo l ++ drop (lo + Z.to_nat L) l).
Proof.
  intros Hkids Hidx Hst after lo.
  destruct (slice_indices_bounds start stop step (Z.of_nat (length l)) s0 s1 st L
              ltac:(lia) Hidx) as [HL0 _].
  destruct (Z.eq_dec L 0) as [HLz|HLnz].
  - assert (Hafter : after = (Ok (), set_extra self (Some (ensure_extra self)))).
    { destruct (has_children_length self l Hkids) as [Hlen _].
      subst after. unfold element_ass_subscr.
      rewrite !(element_length_ensure self), Hlen, Hidx.
      destruct (Z.leb_spec L 0); [reflexivity|lia]. }
    rewrite Hafter. split; [reflexivity|]. cbn [snd].
    rewrite HLz, Nat.add_0_r, take_drop.
    apply has_children_ensure. exact Hkids.
  - assert (HL : 0 < L) by lia.
    destruct (delete_slice_children h self l start stop step s0 s1 st L Hkids Hidx HL)
      as (l' & Hok & Hkids' & Hlen' & Hget').
    split; [exact Hok|].
    pose proof (slice_indices_ascending start stop step (Z.of_nat (length l))
                  s0 s1 st L ltac:(lia) Hidx HL) as Hasc.
    cbv zeta in Hasc.
    assert (Hlo : Z.of_nat lo + L <= Z.of_nat (length l)
                  /\ Z.of_nat lo = Z.min s0 (s0 + (L - 1) * st)).
    { subst lo. revert Hasc.
      destruct (Z.ltb_spec st 0); intros (Ha & Hd & Hb & Hn); nia. }
    destruct Hlo as [Hroom Hloz].
    assert (Hd : Z.abs st = 1) by lia.
    rewrite Hd, <- Hloz in Hget'.
    replace (take lo l ++ drop (lo + Z.to_nat L) l) with l'; [exact Hkids'|].
    apply list_eq. intros j.
    destruct (Nat.lt_ge_cases j (length l')) as [Hj|Hj].
    + rewrite (Hget' j Hj). unfold kept_index.
      destruct (Z.ltb_spec (Z.of_nat j) (Z.of_nat lo)) as [Hlt|Hge].
      * rewrite lookup_app_l by (rewrite length_take; lia).
        rewrite lookup_take_lt by lia. f_equal. lia.
      * destruct (Z.ltb_spec (Z.of_nat j) (Z.of_nat lo + L * (1 - 1))); [lia|].
        rewrite lookup_app_r by (rewrite length_take; lia).
        rewrite length_take, lookup_drop. f_equal. lia.
    + rewrite (lookup_ge_None_2 l' j Hj). symmetry. apply lookup_ge_None_2.
      rewrite length_app, length_take, length_drop. lia.
Qed.

Lemma delete_contiguous_slice_witness :
  has_children five_children
    [PyElement 0; PyElement 1; PyElement 2; PyElement 3; PyElement 4]%nat
  /\ PySlice_GetIndicesEx (Some 1) (Some (-1)) None 5 = Ok (1, 4, 1, 3)
  /\ has_children
       (element_ass_subscr ∅ five_children (Slice (Some 1) (Some (-1)) None) None).2
       [PyElement 0; PyElement 4]%nat.
Proof.
  assert (Hkids : has_children five_children
                    [PyElement 0; PyElement 1; PyElement 2; PyElement 3; PyElement 4]%nat).
  { unfold has_children, extra_wf. vm_compute. intuition discriminate. }
  split; [exact Hkids|]. split; [reflexivity|].
  apply (proj2 (delete_contiguous_slice ∅ five_children _ (Some 1) (Some (-1)) None
                  1 4 1 3 Hkids eq_refl (or_introl eq_refl))).
Defined.

(** ** Clearing *)

(** X24 -- clear().  Whatever the element held, after [clear()] it has no
    children and no attribute storage, so that [get] answers with the
    default; [text], [tail], [localName], [ns], [start] and [end] read as
    None, while the tag is kept: an element with a universal name as its
    tag keeps the name but loses the namespace and local name taken from
    it. *)
Theorem clear_spec (h : store) (self : ElementObject) (key default_value : PyObject) :
  let c := element_clearmethod self in
  has_children c []
  /\ e_extra c = None
  /\ element_get c key default_value = (Ok default_value, c)
  /\ element_getattro h c "tag" = (Ok (AttrValue (e_tag self)), c)
  /\ Forall (fun name => element_getattro h c name = (Ok (AttrValue Py_None), c))
            ["text"; "tail"; "localName"; "ns"; "start"; "end"]%string.
Proof.
  cbv zeta. split; [|split; [reflexivity|split; [reflexivity|split; [reflexivity|]]]].
  - unfold has_children, ensure_extra, element_children. cbn.
    split; [apply new_extra_wf|]. split; [|reflexivity].
    unfold STATIC_CHILDREN, INT_MAX. lia.
  - repeat (apply Forall_cons; split; [reflexivity|]). apply Forall_nil. exact I.
Qed.

(** ** Attributes through the parser *)









(** ** Creating elements *)











(** ** Choosing the events *)

Lemma setevents_loop_app (before : list PyObject) :
  forall (target : TreeBuilderObject) (rest : list PyObject),
    forallb known_event before = true ->
    let pick name old :=
      match marker name before with Some m => Some m | None => old end in
    setevents_loop target (before ++ rest)
    = setevents_loop
        (set_tb_event_objs target
           (pick "start" (tb_start_event_obj target))
           (pick "end" (tb_end_event_obj target))
           (pick "start-ns" (tb_start_ns_event_obj target))
           (pick "end-ns" (tb_end_ns_event_obj target)))
        rest.
Proof.
  induction before as [|item before IH]; intros target rest Hknown; cbv zeta.
  - cbn [marker app]. destruct target. reflexivity.
  - cbn [forallb] in Hknown. apply andb_true_iff in Hknown as [Hitem Hknown].
    pose proof (fun t => IH t rest Hknown) as IH'. cbv zeta in IH'. clear IH.
    cbn [app setevents_loop marker].
    unfold known_event, named, event_name in Hitem.
    unfold named at 1 2 3 4. unfold event_name at 1 2 3 4.
    destruct item as [ | s | s | n | l | l | l | r]; try discriminate Hitem;
      (destruct (String.eqb (c_str s) "start") eqn:E1;
       [apply String.eqb_eq in E1; rewrite E1 in *; cbn [String.eqb Ascii.eqb Bool.eqb];
        rewrite IH'; destruct (marker "start" before), (marker "end" before),
          (marker "start-ns" before), (marker "end-ns" before); reflexivity|]);
      (destruct (String.eqb (c_str s) "end") eqn:E2;
       [apply String.eqb_eq in E2; rewrite E2 in *; cbn [String.eqb Ascii.eqb Bool.eqb];
        rewrite IH'; destruct (marker "start" before), (marker "end" before),
          (marker "start-ns" before), (marker "end-ns" before); reflexivity|]);
      (destruct (String.eqb (c_str s) "start-ns") eqn:E3;
       [apply String.eqb_eq in E3; rewrite E3 in *; cbn [String.eqb Ascii.eqb Bool.eqb];
        rewrite IH'; destruct (marker "start" before), (marker "end" before),
          (marker "start-ns" before), (marker "end-ns" before); reflexivity|]);
      (destruct (String.eqb (c_str s) "end-ns") eqn:E4;
       [apply String.eqb_eq in E4; rewrite E4 in *; cbn [String.eqb Ascii.eqb Bool.eqb];
        rewrite IH'; destruct (marker "start" before), (marker "end" before),
          (marker "start-ns" before), (marker "end-ns" before); reflexivity|]);
      discriminate Hitem.
Qed.

(** X28 -- Choosing the events.  [_setevents(events, names)] with a tuple
    of names, on a parser whose target is the built-in tree builder, makes
    the list given the event collector and switches on exactly the events
    named, each with the last item that names it as its marker (a str or
    a bytes object; the name ends at a NUL).  The builder then reports, in
    the order of the calls, a pair (marker, element) for every start and
    end call that returned an element, for the events switched on.  At the
    first item that names no event the call raises -- ValueError ("unknown
    event '...'") for a str or bytes object, TypeError ("invalid event
    tuple") for any other object -- and the collector and the events named
    before that item stay installed. *)
Theorem selected_events (self : XMLParserObject) (events items : list PyObject)
  (calls0 : list call) (h0 : store) :
  xp_target self = TargetTreeBuilder (run calls0 (treebuilder_new, h0, [])).1.1 ->
  let r := xmlparser_setevents self events (PyTuple items) in
  (forallb known_event items = true ->
   exists tb : TreeBuilderObject,
     r = (Ok Py_None, set_xp_target self (TargetTreeBuilder tb))
     /\ tb_start_event_obj tb = marker "start" items
     /\ tb_end_event_obj tb = marker "end" items
     /\ tb_start_ns_event_obj tb = marker "start-ns" items
     /\ tb_end_ns_event_obj tb = marker "end-ns" items
     /\ forall (calls : list call) (h : store),
          let s := run calls (tb, h, []) in
          length s.2 = length calls
          /\ tb_events s.1.1
             = Some (events ++ concat (reported tb <$> zip calls s.2)))
  /\ (forall (before after : list PyObject) (item : PyObject),
         items = before ++ item :: after ->
         forallb known_event before = true ->
         known_event item = false ->
         exists tb : TreeBuilderObject,
           r = (Raise (bad_event item), set_xp_target self (TargetTreeBuilder tb))
           /\ tb_events tb = Some events
           /\ tb_start_event_obj tb = marker "start" before
           /\ tb_end_event_obj tb = marker "end" before
           /\ tb_start_ns_event_obj tb = marker "start-ns" before
           /\ tb_end_ns_event_obj tb = marker "end-ns" before).
Proof.
  intros Htarget r. subst r. unfold xmlparser_setevents. rewrite Htarget.
  cbn [PyObject_eqb].
  set (tb0 := (run calls0 (treebuilder_new, h0, [])).1.1).
  set (cleared := set_tb_event_objs (set_tb_events tb0 (Some events)) None None None None).
  split.
  - intros Hknown.
    pose proof (setevents_loop_app items cleared [] Hknown) as Hloop.
    cbv zeta in Hloop. rewrite app_nil_r in Hloop. rewrite Hloop.
    cbn [setevents_loop tb_start_event_obj tb_end_event_obj tb_start_ns_event_obj
           tb_end_ns_event_obj set_tb_event_objs cleared].
    eexists. split; [reflexivity|].
    cbn [tb_start_event_obj tb_end_event_obj tb_start_ns_event_obj
           tb_end_ns_event_obj set_tb_event_objs].
    split; [destruct (marker "start" items); reflexivity|].
    split; [destruct (marker "end" items); reflexivity|].
    split; [destruct (marker "start-ns" items); reflexivity|].
    split; [destruct (marker "end-ns" items); reflexivity|].
    intros calls h.
    match goal with
    | |- context [run calls (?t, h, [])] => set (tb := t)
    end.
    assert (Hinv : builder_inv tb = true).
    { pose proof (builder_inv_run calls0 (treebuilder_new, h0, []) eq_refl) as Hinv0.
      fold tb0 in Hinv0. exact Hinv0. }
    destruct (run_events calls tb h [] Hinv) as (outs & Hout & Hlen & Hev & _).
    cbv zeta. rewrite Hout, Hev. cbn [app]. split; [exact Hlen|]. reflexivity.
  - intros before after item -> Hknown Hitem.
    pose proof (setevents_loop_app before cleared (item :: after) Hknown) as Hloop.
    cbv zeta in Hloop. rewrite Hloop. clear Hloop.
    cbn [tb_start_event_obj tb_end_event_obj tb_start_ns_event_obj
           tb_end_ns_event_obj set_tb_event_objs cleared].
    assert (Hbad : forall t : TreeBuilderObject,
               setevents_loop t (item :: after) = (Raise (bad_event item), t)).
    { intros t. cbn [setevents_loop]. unfold bad_event.
      unfold known_event, named in Hitem.
      destruct item as [ | s | s | n | l | l | l | r]; try reflexivity;
        cbn [event_name] in *;
        apply orb_false_iff in Hitem as [Hitem H4];
        apply orb_false_iff in Hitem as [Hitem H3];
        apply orb_false_iff in Hitem as [H1 H2];
        rewrite H1, H2, H3, H4; reflexivity. }
    rewrite Hbad. eexists. split; [reflexivity|].
    cbn [tb_events tb_start_event_obj tb_end_event_obj tb_start_ns_event_obj
           tb_end_ns_event_obj set_tb_event_objs].
    split; [reflexivity|].
    split; [destruct (marker "start" before); reflexivity|].
    split; [destruct (marker "end" before); reflexivity|].
    split; [destruct (marker "start-ns" before); reflexivity|].
    destruct (marker "end-ns" before); reflexivity.
Qed.

Lemma selected_events_witness :
  let names := [PyUnicode "start"; PyBytes "end"] in
  (exists tb : TreeBuilderObject,
      xmlparser_setevents (w_self sample_world) [] (PyTuple names)
      = (Ok Py_None, set_xp_target (w_self sample_world) (TargetTreeBuilder tb))
      /\ tb_events
           (run [Start (PyUnicode "a") (PyDict []); Data (PyUnicode "x");
                 End (PyUnicode "a")] (tb, ∅, [])).1.1
         = Some [PyTuple [PyUnicode "start"; PyElement 0%nat];
                 PyTuple [PyBytes "end"; PyElement 0%nat]])
  /\ (xmlparser_setevents (w_self sample_world) []
        (PyTuple [PyUnicode "end"; PyUnicode "comment"; PyUnicode "start"])).1
     = Raise (PyErr_SetString PyExc_ValueError "unknown event 'comment'").
Proof.
  cbv zeta. split.
  - destruct (proj1 (selected_events (w_self sample_world) []
                       [PyUnicode "start"; PyBytes "end"] [] ∅ eq_refl) eq_refl)
      as (tb & Hset & _ & _ & _ & _ & Hrun).
    exists tb. split; [exact Hset|].
    destruct (Hrun [Start (PyUnicode "a") (PyDict []); Data (PyUnicode "x");
                    End (PyUnicode "a")] ∅) as [_ Hev].
    rewrite Hev. clear Hev Hrun.
    injection Hset as <-. vm_compute. reflexivity.
  - destruct (proj2 (selected_events (w_self sample_world) []
                       [PyUnicode "end"; PyUnicode "comment"; PyUnicode "start"]
                       [] ∅ eq_refl)
                [PyUnicode "end"] [PyUnicode "start"] (PyUnicode "comment")
                eq_refl eq_refl eq_refl) as (tb & Hset & _).
    rewrite Hset. reflexivity.
Defined.
